(** * sbclassifier.classifiers.slurping: a shallow embedding

    The module under study augments a spam score with tokens obtained by
    following the last http link of a message.  This file embeds

    - the string helpers the module relies on (Python's [str.split],
      negative indexing, the three regular expressions);
    - [SlurpingClassifier._base_url];
    - [SlurpingURLStripper.analyze] / [tokenize];
    - [SlurpingClassifier.slurp], [_generate_slurp], [setup],
      [_save_caches] and [spamprob];

    and states the properties of the specification against them.

    Conventions.  A Python [str] is a Rocq [string], each character one
    code point below 256 (ASCII and Latin-1); a tuple or list of
    strings is a [list string]; a [dict] whose iteration order is observed
    is an association list in insertion order, a [dict] that is only
    looked up and assigned is a [gmap]; a float is a primitive binary64
    [float].  Code that raises returns [Raise e]; code that touches the
    instance, the module globals, the socket module, the disk or the
    network threads a [State]. *)

From Stdlib Require Import String Ascii List Bool Arith ZArith Lia Floats.
From stdpp Require Import gmap strings.
Import ListNotations.

Local Open Scope string_scope.
Local Open Scope list_scope.

(** ** Python string primitives *)

Module PyStr.

(** [c in s] for a one-character [c]. *)
Fixpoint occurs (c : ascii) (s : string) : bool :=
  match s with
  | EmptyString => false
  | String a s' => if Ascii.eqb a c then true else occurs c s'
  end.

(** [s.split(c)] for a one-character separator: every occurrence of the
    separator cuts, so the result always has at least one element. *)
Fixpoint split (c : ascii) (s : string) : list string :=
  match s with
  | EmptyString => [EmptyString]
  | String a s' =>
      if Ascii.eqb a c then EmptyString :: split c s'
      else match split c s' with
           | p :: ps => String a p :: ps
           | [] => [String a EmptyString]
           end
  end.

(** The text before the first occurrence of [c] (all of [s] when [c] does
    not occur), and the text after it. *)
Fixpoint before (c : ascii) (s : string) : string :=
  match s with
  | EmptyString => EmptyString
  | String a s' => if Ascii.eqb a c then EmptyString else String a (before c s')
  end.

Fixpoint after (c : ascii) (s : string) : string :=
  match s with
  | EmptyString => EmptyString
  | String a s' => if Ascii.eqb a c then s' else after c s'
  end.

(** [s.split(c, 1)]: at most one cut. *)
Definition split1 (c : ascii) (s : string) : list string :=
  if occurs c s then [before c s; after c s] else [s].

(** [l[-k]] for [k >= 1]; [None] stands for Python's IndexError. *)
Definition neg_index (l : list string) (k : nat) : option string :=
  nth_error (rev l) (pred k).

(** [l[0]]. *)
Definition index0 (l : list string) : option string := nth_error l 0.

(** [s.startswith(p)]. *)
Fixpoint startswith (p s : string) : bool :=
  match p, s with
  | EmptyString, _ => true
  | String _ _, EmptyString => false
  | String a p', String b s' => Ascii.eqb a b && startswith p' s'
  end.

(** [s[n:]]. *)
Fixpoint drop (n : nat) (s : string) : string :=
  match n, s with
  | O, _ => s
  | S _, EmptyString => EmptyString
  | S n', String _ s' => drop n' s'
  end.

(** [s[:-1]]. *)
Fixpoint drop_last (s : string) : string :=
  match s with
  | EmptyString => EmptyString
  | String a EmptyString => EmptyString
  | String a s' => String a (drop_last s')
  end.

(** [s[-1]], when [s] is not empty. *)
Fixpoint last_char (s : string) : option ascii :=
  match s with
  | EmptyString => None
  | String a EmptyString => Some a
  | String _ s' => last_char s'
  end.

(** The characters of [s] as one-character strings: what [list(s)] and
    [for x in s] produce when [s] is a [str]. *)
Fixpoint chars (s : string) : list string :=
  match s with
  | EmptyString => []
  | String a s' => String a EmptyString :: chars s'
  end.

Definition is_digit (a : ascii) : bool :=
  let n := nat_of_ascii a in Nat.leb 48 n && Nat.leb n 57.

Definition is_upper (a : ascii) : bool :=
  let n := nat_of_ascii a in Nat.leb 65 n && Nat.leb n 90.

Definition is_lower (a : ascii) : bool :=
  let n := nat_of_ascii a in Nat.leb 97 n && Nat.leb n 122.

(** The letters and numbers among the code points 128 to 255 (a
    character of a [string] stands for one code point below 256): the
    ordinal indicators, the superscript digits, the micro sign, the vulgar
    fractions and the letters with diacritics. *)
Definition is_latin1_alnum (a : ascii) : bool :=
  let n := nat_of_ascii a in
  Nat.eqb n 170 || (Nat.leb 178 n && Nat.leb n 179) || Nat.eqb n 181
  || (Nat.leb 185 n && Nat.leb n 186) || (Nat.leb 188 n && Nat.leb n 190)
  || (Nat.leb 192 n && Nat.leb n 214) || (Nat.leb 216 n && Nat.leb n 246)
  || (Nat.leb 248 n && Nat.leb n 255).

(** [\w] of a [str] pattern: the underscore and what is alphanumeric in
    Unicode. *)
Definition is_word (a : ascii) : bool :=
  is_digit a || is_upper a || is_lower a || Ascii.eqb a "_"%char
  || is_latin1_alnum a.

(** The longest prefix of [s] whose characters satisfy [p], and the rest. *)
Fixpoint span (p : ascii -> bool) (s : string) : string * string :=
  match s with
  | EmptyString => (EmptyString, EmptyString)
  | String a s' =>
      if p a then let '(x, y) := span p s' in (String a x, y)
      else (EmptyString, s)
  end.

Fixpoint map_chars (f : ascii -> ascii) (s : string) : string :=
  match s with
  | EmptyString => EmptyString
  | String a s' => String (f a) (map_chars f s')
  end.

(** [s.lower()] on ASCII text. *)
Definition lower_char (a : ascii) : ascii :=
  if is_upper a then ascii_of_nat (nat_of_ascii a + 32) else a.

Definition lower (s : string) : string := map_chars lower_char s.

(** [x in t] for a tuple of strings. *)
Definition in_tuple (x : string) (t : list string) : bool :=
  existsb (String.eqb x) t.

End PyStr.

(** ** The module's regular expressions *)

(** [DOMAIN_AND_PORT_RE = ([^:/\\]+)(:([\d]+))?], used with [.match]:
    group 1 is the longest non-empty run of characters other than [:],
    [/] and [\]; group 3 is the run of digits after a following [:],
    when there is at least one.  [None] is a failed match. *)
Definition domain_char (a : ascii) : bool :=
  negb (Ascii.eqb a ":"%char || Ascii.eqb a "/"%char || Ascii.eqb a "\"%char).

Definition DOMAIN_AND_PORT_RE_match (url : string)
  : option (string * option string) :=
  match PyStr.span domain_char url with
  | (EmptyString, _) => None
  | (g1, String ":" rest) =>
      match PyStr.span PyStr.is_digit rest with
      | (EmptyString, _) => Some (g1, None)
      | (g3, _) => Some (g1, Some g3)
      end
  | (g1, _) => Some (g1, None)
  end.

(** [HTTP_ERROR_RE = HTTP Error ([\d]+)], used with [.match]: group 1. *)
Definition HTTP_ERROR_RE_match (details : string) : option string :=
  if PyStr.startswith "HTTP Error " details then
    match PyStr.span PyStr.is_digit (PyStr.drop 11 details) with
    | (EmptyString, _) => None
    | (code, _) => Some code
    end
  else None.

(** [URL_KEY_RE.sub('_', url)] with [URL_KEY_RE = [\W]]. *)
Definition URL_KEY_RE_sub (url : string) : string :=
  PyStr.map_chars (fun a => if PyStr.is_word a then a else "_"%char) url.

(** ** [SlurpingClassifier._base_url] (lines 391-406) *)

Definition _base_url (url : string) : string :=
  let url := url +:+ "/" in
  let domain := default EmptyString (PyStr.index0 (PyStr.split1 "/" url)) in
  let parts := PyStr.split "." domain in
  let part k := default EmptyString (PyStr.neg_index parts k) in
  if Nat.ltb 2 (length parts) then
    let base_domain := part 2 +:+ "." +:+ part 1 in
    if Nat.ltb (String.length (part 1)) 3 then part 3 +:+ "." +:+ base_domain
    else base_domain
  else domain.

(** ** Values, exceptions and the world *)

(** The exceptions the module's own text can raise, and
    [http.client.IncompleteRead], which [f.read()] raises on a body cut
    short and which is no [socket.error]. *)
Inductive exn : Type :=
| AttributeError
| KeyError (key : string)
| UnboundLocalError (name : string)
| TypeError
| AssertionError
| IncompleteRead.

Inductive outcome (A : Type) : Type :=
| Return (a : A)
| Raise (e : exn).
Arguments Return {A} a.
Arguments Raise {A} e.

(** What [f.read()] hands back: a [str] under [urllib2], [bytes] under
    [urllib.request] (the module imports whichever is present, lines 5-10). *)
Inductive pydata : Type :=
| PyText (s : string)
| PyBytes (b : list Byte.byte).

(** The second argument of [socket.getaddrinfo]: the int [80] or the
    digits matched by group 3 (lines 295-298). *)
Inductive port : Type :=
| PortInt (n : Z)
| PortStr (digits : string).

(** How [f.read()] ends: with the body, with a [socket.error] (a timeout,
    a connection reset), or with an exception of another class, such as
    [IncompleteRead]. *)
Inductive read_outcome : Type :=
| ReadData (page : pydata)
| ReadSocketError
| ReadRaises (e : exn).

(** An open response [f]. *)
Record response : Type := mkResponse {
  content_type : option string;  (* f.info().get('content-type') *)
  read : read_outcome;           (* f.read() *)
  info_str : string              (* str(f.info()) *)
}.

Inductive urlopen_result : Type :=
| UrlError (details : string)    (* URLError / socket.error, with str(details) *)
| UrlOpened (f : response).

(** How the network answers during one call. *)
Record Net : Type := mkNet {
  getaddrinfo : string -> port -> bool;    (* false: socket.error *)
  urlopen : string -> urlopen_result
}.

(** Network accesses, most recent first in a trace. *)
Inductive event : Type :=
| EvGetaddrinfo (domain : string) (p : port)
| EvUrlopen (full_url : string)
| EvRead.

(** What [slurp] returns: a list of tokens on most paths, a bare [str] on
    line 290. *)
Inductive slurp_value : Type :=
| PyList (tokens : list string)
| PyStr (s : string).

(** [list(v)]. *)
Definition py_list (v : slurp_value) : list string :=
  match v with
  | PyList tokens => tokens
  | PyStr s => PyStr.chars s
  end.

(** A pickle file of the cache directory. *)
Inductive pickle_file (A : Type) : Type :=
| NoFile
| BadPickle            (* pickle_read raises IOError / ValueError *)
| Pickled (a : A).
Arguments NoFile {A}.
Arguments BadPickle {A}.
Arguments Pickled {A} a.

(** [self.bad_urls]: bucket name to tuple of URLs, in insertion order. *)
Definition bucket_dict : Type := list (string * list string).

Fixpoint dict_get (k : string) (d : bucket_dict) : option (list string) :=
  match d with
  | [] => None
  | (k', v) :: d' => if String.eqb k k' then Some v else dict_get k d'
  end.

(** [d[k] = v] for a key that is present (its position is kept). *)
Fixpoint dict_set (k : string) (v : list string) (d : bucket_dict) : bucket_dict :=
  match d with
  | [] => []
  | (k', v') :: d' =>
      if String.eqb k k' then (k', v) :: d' else (k', v') :: dict_set k v d'
  end.

Definition dict_keys (d : bucket_dict) : list string := map fst d.

(** The attributes [setup] creates on the instance. *)
Record Caches : Type := mkCaches {
  bad_urls : bucket_dict;
  http_error_urls : gmap string string
}.

Record State : Type := mkState {
  slurp_wordstream : option (string * string);     (* module global, line 91 *)
  setup_done : bool;                               (* hasattr(self, "setup_done") *)
  do_slurp : option bool;                          (* None: attribute absent *)
  caches : option Caches;                          (* None: before setup *)
  urlCorpus : gmap string string;                  (* messages of the URL corpus, by key *)
  default_timeout : option float;                  (* socket.getdefaulttimeout() *)
  bad_url_cache_file : pickle_file bucket_dict;    (* bad_urls.pck *)
  http_error_cache_file : pickle_file (gmap string string); (* http_error_urls.pck *)
  trace : list event
}.

Definition with_caches (c : option Caches) (st : State) : State :=
  mkState (slurp_wordstream st) (setup_done st) (do_slurp st) c (urlCorpus st)
          (default_timeout st) (bad_url_cache_file st) (http_error_cache_file st)
          (trace st).

Definition with_setup_done (b : bool) (st : State) : State :=
  mkState (slurp_wordstream st) b (do_slurp st) (caches st) (urlCorpus st)
          (default_timeout st) (bad_url_cache_file st) (http_error_cache_file st)
          (trace st).

Definition with_do_slurp (b : option bool) (st : State) : State :=
  mkState (slurp_wordstream st) (setup_done st) b (caches st) (urlCorpus st)
          (default_timeout st) (bad_url_cache_file st) (http_error_cache_file st)
          (trace st).

Definition with_urlCorpus (m : gmap string string) (st : State) : State :=
  mkState (slurp_wordstream st) (setup_done st) (do_slurp st) (caches st) m
          (default_timeout st) (bad_url_cache_file st) (http_error_cache_file st)
          (trace st).

Definition with_default_timeout (t : option float) (st : State) : State :=
  mkState (slurp_wordstream st) (setup_done st) (do_slurp st) (caches st)
          (urlCorpus st) t (bad_url_cache_file st) (http_error_cache_file st)
          (trace st).

Definition with_cache_files (b : pickle_file bucket_dict)
    (h : pickle_file (gmap string string)) (st : State) : State :=
  mkState (slurp_wordstream st) (setup_done st) (do_slurp st) (caches st)
          (urlCorpus st) (default_timeout st) b h (trace st).

Definition with_trace (t : list event) (st : State) : State :=
  mkState (slurp_wordstream st) (setup_done st) (do_slurp st) (caches st)
          (urlCorpus st) (default_timeout st) (bad_url_cache_file st)
          (http_error_cache_file st) t.

(** ** A state-and-exception monad *)

Definition M (A : Type) : Type := State -> outcome A * State.

Definition ret {A : Type} (a : A) : M A := fun st => (Return a, st).

Definition raise {A : Type} (e : exn) : M A := fun st => (Raise e, st).

Definition bind {A B : Type} (m : M A) (k : A -> M B) : M B :=
  fun st =>
    match m st with
    | (Return a, st') => k a st'
    | (Raise e, st') => (Raise e, st')
    end.

Declare Scope py_scope.
Delimit Scope py_scope with py.
Notation "x <- m ;; k" := (bind m (fun x => k))
  (at level 100, m at next level, right associativity) : py_scope.
Notation "m ;;; k" := (bind m (fun _ => k))
  (at level 100, right associativity) : py_scope.
Local Open Scope py_scope.

Definition get : M State := fun st => (Return st, st).

Definition modify (f : State -> State) : M unit := fun st => (Return tt, f st).

Definition emit (e : event) : M unit := modify (fun st => with_trace (e :: trace st) st).

(** Reading [self.bad_urls] / [self.http_error_urls]. *)
Definition get_caches : M Caches :=
  st <- get ;;
  match caches st with
  | Some c => ret c
  | None => raise AttributeError
  end.

(** Reading a local name of the running function. *)
Definition read_local {A : Type} (name : string) (binding : option A) : M A :=
  match binding with
  | Some v => ret v
  | None => raise (UnboundLocalError name)
  end.

(** [self.bad_urls[err] += (url,)]. *)
Definition bucket_add (err url : string) : M unit :=
  c <- get_caches ;;
  match dict_get err (bad_urls c) with
  | None => raise (KeyError err)
  | Some t =>
      modify (with_caches
        (Some (mkCaches (dict_set err (t ++ [url]) (bad_urls c)) (http_error_urls c))))
  end.

(** [self.http_error_urls[url] = v]. *)
Definition http_error_set (url v : string) : M unit :=
  c <- get_caches ;;
  modify (with_caches (Some (mkCaches (bad_urls c) (<[url := v]> (http_error_urls c))))).

(** Lines 295-298: the port handed to [getaddrinfo], from group 3. *)
Definition port_of (g3 : option string) : port :=
  match g3 with
  | None => PortInt 80
  | Some digits => PortStr digits
  end.

(** Lines 286-288: the first bucket, in key order, that holds [url]. *)
Fixpoint check_bad_urls (keys : list string) (d : bucket_dict) (url : string)
  : option string :=
  match keys with
  | [] => None
  | err :: keys' =>
      if PyStr.in_tuple url (default [] (dict_get err d)) then Some err
      else check_bad_urls keys' d url
  end.

(** Modelled from the spec: [ExpiryFileCorpus] (sbclassifier.corpora.filesystem,
    not among the sources) is the durable content store, with
    [get(key) -> CachedDocument | absent] and [put(key, rawBytes)].
    [self.urlCorpus.get(url_key)] is a lookup in the store and
    [cached_message.as_string()] the text that was stored. *)
Definition corpus_get (url_key : string) (corpus : gmap string string)
  : option string :=
  corpus !! url_key.

(** Modelled from the spec: [makeMessage(url_key, text)] followed by
    [addMessage(message)] is the store's [put(key, rawBytes)]. *)
Definition corpus_add (url_key text : string) : M unit :=
  modify (fun st => with_urlCorpus (<[url_key := text]> (urlCorpus st)) st).

(** [headers + "\r\n" + page]: [str + bytes] is a TypeError. *)
Definition concat_message (headers : string) (page : pydata) : M string :=
  match page with
  | PyText s => ret (headers +:+ String "013" (String "010" EmptyString) +:+ s)
  | PyBytes _ => raise TypeError
  end.

(** ** The module, over its configuration and collaborators *)

(** The constants imported from [sbclassifier.classifiers.constants]
    (cutoffs and discriminator bound) and the options of this module
    (lines 83 and 89 give [False] and ['']). *)
Class Config : Type := mkConfig {
  HAM_CUTOFF : float;
  SPAM_CUTOFF : float;
  MAX_DISCRIMINATORS : Z;
  X_ONLY_SLURP_BASE : bool;
  X_WEB_PREFIX : string
}.

(** What the module calls outside itself.

    - [Classifier_spamprob ws] is [Classifier.spamprob(ws, True)] of the
      base class; [message_from_string] is [email.message_from_string] and
      [Tokenizer_tokenize] is [Tokenizer().tokenize].

    - [removeExpiredMessages] is the sweep of expired documents that
      [setup] asks of the URL corpus.

    - [url_matches text] lists the groups [(proto, guts)] of the matches
      that the base [URLStripper] finds in [text], in text order;
      [URLStripper_tokenize] is the base class's [tokenize] on one match
      and [retained_text] the text left once the links are cut out. *)
Class Collaborators : Type := mkCollaborators {
  Classifier_spamprob : list string -> float * list (string * float);
  message : Type;
  message_from_string : string -> message;
  Tokenizer_tokenize : message -> list string;
  removeExpiredMessages : gmap string string -> gmap string string;
  url_matches : string -> list (string * string);
  URLStripper_tokenize : string * string -> list string;
  retained_text : string -> string
}.

Section Slurping.

Context {cfg : Config} {ext : Collaborators}.

(** *** [SlurpingURLStripper] (lines 94-122) *)

(** Lines 118-119: [while guts and guts[-1] in '.:;?!/)': guts = guts[:-1]]. *)
Fixpoint trim_loop (fuel : nat) (guts : string) : string :=
  match fuel with
  | O => guts
  | S n =>
      match PyStr.last_char guts with
      | Some c =>
          if PyStr.occurs c ".:;?!/)" then trim_loop n (PyStr.drop_last guts)
          else guts
      | None => guts
      end
  end.

Definition trim_guts (guts : string) : string :=
  trim_loop (String.length guts) guts.

(** [tokenize(self, m)].  The function has no [global] statement, so the
    assignment of line 121 binds a name of the call's own frame; the
    module global [slurp_wordstream] of the state is not written. *)
Definition tokenize (m : string * string) : M (list string) :=
  let tokens := URLStripper_tokenize m in
  let '(proto, guts) := m in
  if negb (String.eqb proto "http") then ret tokens
  else if String.eqb guts "" then raise AssertionError
  else
    let guts := trim_guts guts in
    let local_slurp_wordstream := Some (proto, guts) in
    ret tokens.

(** Modelled from the spec: [URLStripper.analyze] (sbclassifier.strippers,
    not among the sources) scans the text for [protocol://rest] patterns;
    it calls [self.tokenize] on every match, in text order, and collects
    the tokens. *)
Fixpoint URLStripper_scan (tok : string * string -> M (list string))
    (ms : list (string * string)) : M (list string) :=
  match ms with
  | [] => ret []
  | m :: ms' =>
      ts <- tok m ;;
      rest <- URLStripper_scan tok ms' ;;
      ret (ts ++ rest)
  end.

(** Modelled from the spec: the result of the base [analyze] is the text
    without its links together with the collected tokens. *)
Definition URLStripper_analyze (tok : string * string -> M (list string))
    (text : string) : M (string * list string) :=
  tokens <- URLStripper_scan tok (url_matches text) ;;
  ret (retained_text text, tokens).

(** [analyze(self, text)].  Line 102 likewise binds a local name. *)
Definition analyze (text : string) : M (string * list string) :=
  let local_slurp_wordstream : option (string * string) := None in
  URLStripper_analyze tokenize text.

(** *** [SlurpingClassifier.slurp] (lines 263-389) *)

(** Lines 371-389.  [BASIC_HEADER_TOKENIZE] and
    [BASIC_HEADER_TOKENIZE_ONLY] are assigned on lines 379-380 and 387-388
    and [slurp] declares neither global, so both are locals of [slurp];
    nothing binds them before line 376 reads the first. *)
Definition slurp_tokenize (fake_message_string : string) : M slurp_value :=
  let msg := message_from_string fake_message_string in
  let local_BASIC_HEADER_TOKENIZE : option bool := None in
  let local_BASIC_HEADER_TOKENIZE_ONLY : option bool := None in
  bht <- read_local "BASIC_HEADER_TOKENIZE" local_BASIC_HEADER_TOKENIZE ;;
  bhto <- read_local "BASIC_HEADER_TOKENIZE_ONLY" local_BASIC_HEADER_TOKENIZE_ONLY ;;
  let local_BASIC_HEADER_TOKENIZE := Some true in
  let local_BASIC_HEADER_TOKENIZE_ONLY := Some true in
  let tokens := Tokenizer_tokenize msg in
  let pf := X_WEB_PREFIX in
  let tokens := map (fun tok => pf +:+ tok) tokens in
  let local_BASIC_HEADER_TOKENIZE := Some bht in
  let local_BASIC_HEADER_TOKENIZE_ONLY := Some bhto in
  ret (PyList tokens).

(** Line 348-349: [content_type is None or not content_type.startswith("text/html")]. *)
Definition not_html (ct : option string) : bool :=
  match ct with
  | None => true
  | Some s => negb (PyStr.startswith "text/html" s)
  end.

(** Lines 319-367: the request under a five-second default timeout. *)
Definition slurp_fetch (net : Net) (proto url url_key : string) : M slurp_value :=
  st <- get ;;
  let timeout := default_timeout st in
  (modify (with_default_timeout (Some 5%float)) ;;;
   emit (EvUrlopen (proto +:+ "://" +:+ url)) ;;;
   match urlopen net (proto +:+ "://" +:+ url) with
   | UrlError details =>
       match HTTP_ERROR_RE_match details with
       | Some code =>
           (http_error_set url ("url:http_" +:+ code) ;;;
            ret (PyList ["url:http_" +:+ code]))
       | None =>
           (bucket_add "url:unknown_error" url ;;;
            ret (PyList ["url:unknown_error"]))
       end
   | UrlOpened f =>
       (modify (with_default_timeout timeout) ;;;
        if not_html (content_type f) then
          (bucket_add "url:non_html" url ;;; ret (PyList ["url:non_html"]))
        else
          (emit EvRead ;;;
           match read f with
           | ReadSocketError => ret (PyList [])
           | ReadRaises e => raise e
           | ReadData page =>
               let headers := info_str f in
               (fake_message_string <- concat_message headers page ;;
                corpus_add url_key fake_message_string ;;;
                slurp_tokenize fake_message_string)
           end))
   end).

(** The URL [slurp] works with after line 283. *)
Definition slurp_url (url : string) : string :=
  if X_ONLY_SLURP_BASE then _base_url url else url.

(** Lines 314-315: [url.split('.')[-1] in ('jpg', 'gif', 'png', 'css', 'js')]. *)
Definition skipped_extension (url : string) : bool :=
  let parts := PyStr.split "." url in
  PyStr.in_tuple (default EmptyString (PyStr.neg_index parts 1))
                 ["jpg"; "gif"; "png"; "css"; "js"].

Definition slurp (net : Net) (proto url : string) : M slurp_value :=
  if String.eqb url "" then ret (PyList ["url:non_resolving"])
  else
    let url := slurp_url url in
    c <- get_caches ;;
    match check_bad_urls (dict_keys (bad_urls c)) (bad_urls c) url with
    | Some err => ret (PyList [err])
    | None =>
        match http_error_urls c !! url with
        | Some stored => ret (PyStr stored)
        | None =>
            match DOMAIN_AND_PORT_RE_match url with
            | None => raise AttributeError
            | Some (domain, g3) =>
                let port := port_of g3 in
                (emit (EvGetaddrinfo domain port) ;;;
                 if negb (getaddrinfo net domain port) then
                   (bucket_add "url:non_resolving" url ;;;
                    ret (PyList ["url:non_resolving"]))
                 else
                   let url_key := URL_KEY_RE_sub url in
                   (st <- get ;;
                    match corpus_get url_key (urlCorpus st) with
                    | None =>
                        if skipped_extension url then
                          (bucket_add "url:non_html" url ;;;
                           ret (PyList ["url:non_html"]))
                        else slurp_fetch net proto url url_key
                    | Some cached_message => slurp_tokenize cached_message
                    end))
            end
        end
    end.

(** *** [setup], [_save_caches], [_generate_slurp] (lines 174-261) *)

Definition fresh_bad_urls : bucket_dict :=
  [("url:non_resolving", []); ("url:non_html", []); ("url:unknown_error", [])].

(** Lines 212-252.  With [PROXY_SERVER = ''] (line 45) the opener is the
    plain one and carries no state of interest here. *)
Definition setup : M unit :=
  modify (fun st => with_urlCorpus (removeExpiredMessages (urlCorpus st)) st) ;;;
  st <- get ;;
  let bad := match bad_url_cache_file st with
             | Pickled d => d
             | BadPickle | NoFile => fresh_bad_urls
             end in
  let http := match http_error_cache_file st with
              | Pickled m => m
              | BadPickle | NoFile => ∅
              end in
  modify (with_caches (Some (mkCaches bad http))).

Definition _save_caches : M unit :=
  c <- get_caches ;;
  modify (with_cache_files (Pickled (bad_urls c)) (Pickled (http_error_urls c))).

(** Truth value of the module global: [None] is false, a pair is true. *)
Definition pending (st : State) : bool :=
  match slurp_wordstream st with
  | Some _ => true
  | None => false
  end.

Definition _generate_slurp (net : Net) : M slurp_value :=
  st <- get ;;
  ((if negb (setup_done st) then (setup ;;; modify (with_setup_done true))
    else ret tt) ;;;
   st <- get ;;
   if match do_slurp st with None => true | Some b => b end then
     match slurp_wordstream st with
     | Some (proto, url) =>
         (modify (with_do_slurp (Some false)) ;;;
          tokens <- slurp net proto url ;;
          modify (with_do_slurp (Some true)) ;;;
          _save_caches ;;;
          ret tokens)
     | None => ret (PyList [])
     end
   else ret (PyList [])).

(** *** [SlurpingClassifier.spamprob] (lines 127-150) *)

Inductive spamprob_value : Type :=
| Prob (prob : float)
| ProbClues (prob : float) (clues : list (string * float)).

(** Lines 140-141. *)
Definition augment_condition (prob : float) (clues : list (string * float))
    (st : State) : bool :=
  Z.ltb (Z.of_nat (length clues)) MAX_DISCRIMINATORS
  && PrimFloat.ltb HAM_CUTOFF prob
  && PrimFloat.ltb prob SPAM_CUTOFF
  && pending st.

(** Line 145. *)
Definition decisive (sprob : float) : bool :=
  PrimFloat.ltb sprob HAM_CUTOFF || PrimFloat.ltb SPAM_CUTOFF sprob.

Definition spamprob (net : Net) (wordstream : list string) (evidence : bool)
  : M spamprob_value :=
  let h_cut := HAM_CUTOFF in
  let s_cut := SPAM_CUTOFF in
  let '(prob, clues) := Classifier_spamprob wordstream in
  st <- get ;;
  final <-
    (if augment_condition prob clues st then
       (generated <- _generate_slurp net ;;
        let slurp_tokens := py_list generated in
        let slurp_tokens := slurp_tokens ++ map fst clues in
        let '(sprob, sclues) := Classifier_spamprob slurp_tokens in
        if decisive sprob then ret (sprob, sclues) else ret (prob, clues))
     else ret (prob, clues)) ;;
  let '(prob, clues) := final in
  if evidence then ret (ProbClues prob clues) else ret (Prob prob).

End Slurping.

(** ** Vocabulary of the statements *)

Section Vocabulary.

Context {cfg : Config} {ext : Collaborators}.

(** The keys [setup] gives a fresh bucket dictionary, in its order. *)
Definition standard_buckets (d : bucket_dict) : Prop :=
  dict_keys d = ["url:non_resolving"; "url:non_html"; "url:unknown_error"].

(** [url in self.bad_urls[err]]. *)
Definition in_bucket (c : Caches) (err url : string) : Prop :=
  exists t, dict_get err (bad_urls c) = Some t /\ PyStr.in_tuple url t = true.

(** [url] is in one of the buckets or in the HTTP-status map. *)
Definition negative_hit (c : Caches) (url : string) : Prop :=
  (exists err, in_bucket c err url) \/ is_Some (http_error_urls c !! url).

(** The call [slurp net _ url] from [st] gets as far as line 319: the URL
    is not empty, no negative cache holds it, its domain resolves, the
    corpus has no document for it and its extension is not one of the
    skipped ones. *)
Definition reaches_fetch (net : Net) (url : string) (st : State) (c : Caches)
  : Prop :=
  url <> EmptyString
  /\ caches st = Some c
  /\ check_bad_urls (dict_keys (bad_urls c)) (bad_urls c) (slurp_url url) = None
  /\ http_error_urls c !! slurp_url url = None
  /\ (exists domain g3,
        DOMAIN_AND_PORT_RE_match (slurp_url url) = Some (domain, g3)
        /\ getaddrinfo net domain (port_of g3) = true)
  /\ corpus_get (URL_KEY_RE_sub (slurp_url url)) (urlCorpus st) = None
  /\ skipped_extension (slurp_url url) = false.

(** The events a run from [st] to [st'] added to the trace. *)
Definition new_events (st st' : State) : list event :=
  firstn (length (trace st') - length (trace st)) (trace st').

(** [content_type] is declared and, lower-cased, starts with [text/html]. *)
Definition html_ci (ct : option string) : bool :=
  match ct with
  | None => false
  | Some s => PyStr.startswith "text/html" (PyStr.lower s)
  end.

(** The state after a series of [slurp] calls, whatever they return. *)
Fixpoint slurp_calls (calls : list (Net * string * string)) (st : State) : State :=
  match calls with
  | [] => st
  | (net, proto, url) :: rest => slurp_calls rest (snd (slurp net proto url st))
  end.

(** Every [slurp] call keeps the bucket keys and the memberships. *)
Definition caches_grow (st st' : State) : Prop :=
  forall c, caches st = Some c ->
    exists c', caches st' = Some c'
      /\ dict_keys (bad_urls c') = dict_keys (bad_urls c)
      /\ (forall err u, in_bucket c err u -> in_bucket c' err u).

(** A computation under which the negative caches only grow. *)
Definition grows {A : Type} (m : M A) : Prop :=
  forall st, caches_grow st (snd (m st)).

(** A computation that leaves one component of the state alone. *)
Definition keeps {A B : Type} (proj : State -> B) (m : M A) : Prop :=
  forall st, proj (snd (m st)) = proj st.

(** The probability and the clues of the base score, the score of the
    merged stream of line 144, and the value [spamprob] hands back. *)
Definition base_prob (wordstream : list string) : float :=
  fst (Classifier_spamprob wordstream).

Definition base_clues (wordstream : list string) : list (string * float) :=
  snd (Classifier_spamprob wordstream).

Definition rescored (generated : slurp_value) (wordstream : list string)
  : float * list (string * float) :=
  Classifier_spamprob (py_list generated ++ map fst (base_clues wordstream)).

Definition report (evidence : bool) (prob : float) (clues : list (string * float))
  : spamprob_value :=
  if evidence then ProbClues prob clues else Prob prob.

End Vocabulary.

(** ** Concrete configurations, used to run the model *)

(** The cutoffs 0.2 and 0.9 of the specification's examples, 150
    discriminators, and the options as lines 83 and 89 set them. *)
Definition demo_config : Config :=
  mkConfig 0x1.999999999999ap-3%float 0x1.ccccccccccccdp-1%float 150 false EmptyString.

(** A base classifier that gives 0.6 on three clues to a message, 0.95 to
    a merged stream led by [url:http_404] and 0.5 to one led by
    [url:non_resolving]. *)
Definition demo_spamprob (ws : list string) : float * list (string * float) :=
  match ws with
  | "url:http_404" :: _ =>
      (0x1.e666666666666p-1%float, [("url:http_404", 0x1.fae147ae147aep-1%float)])
  | "url:non_resolving" :: _ => (0.5%float, [("url:non_resolving", 0.5%float)])
  | _ => (0x1.3333333333333p-1%float,
          [("a", 0.5%float); ("b", 0.75%float); ("c", 0.5%float)])
  end.

(** A scanner for [http://] followed by a run of characters other than
    the space: [skip] characters of an earlier match are still to pass. *)
Fixpoint demo_url_matches_from (skip : nat) (text : string)
  : list (string * string) :=
  match text with
  | EmptyString => []
  | String _ rest =>
      match skip with
      | S n => demo_url_matches_from n rest
      | O =>
          if PyStr.startswith "http://" text then
            let guts :=
              fst (PyStr.span (fun a => negb (Ascii.eqb a " "%char))
                              (PyStr.drop 7 text)) in
            if String.eqb guts "" then demo_url_matches_from 0 rest
            else ("http", guts) :: demo_url_matches_from (6 + String.length guts) rest
          else demo_url_matches_from 0 rest
      end
  end.

Definition demo_collaborators : Collaborators :=
  mkCollaborators demo_spamprob string (fun s => s) (fun s => [s]) (fun m => m)
                  (demo_url_matches_from 0)
                  (fun m => ["proto:" +:+ fst m])
                  (fun text => text).

(** A classifier instance after [setup] on an empty cache directory. *)
Definition ready_state : State :=
  mkState None true (Some true) (Some (mkCaches fresh_bad_urls ∅)) ∅ None
          (Pickled fresh_bad_urls) (Pickled ∅) [].

(** A network on which every name resolves and every request fails with
    the given error text. *)
Definition failing_net (details : string) : Net :=
  mkNet (fun _ _ => true) (fun _ => UrlError details).

(** A network on which every name resolves and every request opens the
    given response. *)
Definition serving_net (f : response) : Net :=
  mkNet (fun _ _ => true) (fun _ => UrlOpened f).

(** A network on which no name resolves. *)
Definition dead_net : Net :=
  mkNet (fun _ _ => false) (fun _ => UrlError "unreachable").

(** The same instance with [example.com] in the [url:non_resolving]
    bucket, as a failed address lookup leaves it. *)
Definition recorded_caches : Caches :=
  mkCaches [("url:non_resolving", ["example.com"]); ("url:non_html", []);
            ("url:unknown_error", [])] ∅.

Definition recorded_state : State :=
  mkState None true (Some true) (Some recorded_caches) ∅ None
          (Pickled fresh_bad_urls) (Pickled ∅)
          [EvGetaddrinfo "example.com" (PortInt 80)].

(** A fresh instance in a process whose module global holds a pending
    reference. *)
Definition pending_state : State :=
  mkState (Some ("http", "example.com/a")) false None None ∅ None NoFile NoFile [].

Definition png_response : response :=
  mkResponse (Some "image/png") (ReadData (PyText "PNG")) "Content-Type: image/png".

Definition shouting_html_response : response :=
  mkResponse (Some "Text/HTML") (ReadData (PyText "<html></html>"))
             "Content-Type: Text/HTML".



(** ** Further vocabulary *)

(** Every character of [s] satisfies [p]. *)
Fixpoint all_chars (p : ascii -> bool) (s : string) : bool :=
  match s with
  | EmptyString => true
  | String a s' => p a && all_chars p s'
  end.

(** [sep.py_join(parts)] for a one-character separator. *)
Fixpoint py_join (sep : ascii) (parts : list string) : string :=
  match parts with
  | [] => EmptyString
  | [p] => p
  | p :: rest => p +:+ String sep (py_join sep rest)
  end.

(** Membership in the set of line 118. *)
Definition trailing_punctuation (a : ascii) : bool := PyStr.occurs a ".:;?!/)".

Section FurtherVocabulary.

Context {cfg : Config} {ext : Collaborators}.

(** The call [slurp _ _ url] from [st] gets past line 290: the URL is not
    empty, the instance is set up, and neither the buckets nor the
    HTTP-status map hold the URL that is looked up. *)
Definition misses_negative_caches (url : string) (st : State) (c : Caches) : Prop :=
  url <> EmptyString
  /\ caches st = Some c
  /\ check_bad_urls (dict_keys (bad_urls c)) (bad_urls c) (slurp_url url) = None
  /\ http_error_urls c !! slurp_url url = None.

(** The state with [url] appended to the bucket [err], whose tuple was [t]. *)
Definition with_bucket_entry (err : string) (t : list string) (url : string)
    (c : Caches) (st : State) : State :=
  with_caches
    (Some (mkCaches (dict_set err (t ++ [url]) (bad_urls c)) (http_error_urls c)))
    st.

(** The state with [events] (most recent first) added to the trace. *)
Definition with_events (events : list event) (st : State) : State :=
  with_trace (events ++ trace st) st.

End FurtherVocabulary.

(** The line break that line 361 puts between headers and body. *)
Definition CRLF : string := String "013" (String "010" EmptyString).

(** How many times [url] occurs in a tuple, and in all the negative caches
    together: once per occurrence in a bucket, once as a key of the
    HTTP-status map. *)
Fixpoint count_in (url : string) (t : list string) : nat :=
  match t with
  | [] => 0
  | x :: t' => (if String.eqb url x then 1 else 0) + count_in url t'
  end.

Fixpoint count_in_buckets (url : string) (d : bucket_dict) : nat :=
  match d with
  | [] => 0
  | (_, t) :: d' => count_in url t + count_in_buckets url d'
  end.

Definition times_recorded (url : string) (c : Caches) : nat :=
  count_in_buckets url (bad_urls c)
  + match http_error_urls c !! url with Some _ => 1 | None => 0 end.

(** [c'] is [c] with [url], which no tier of [c] held, appended to one
    bucket or entered in the HTTP-status map. *)
Definition one_more_entry (url : string) (c c' : Caches) : Prop :=
  check_bad_urls (dict_keys (bad_urls c)) (bad_urls c) url = None
  /\ http_error_urls c !! url = None
  /\ ((exists err t,
          dict_get err (bad_urls c) = Some t
          /\ c' = mkCaches (dict_set err (t ++ [url]) (bad_urls c))
                           (http_error_urls c))
      \/ (exists v,
             c' = mkCaches (bad_urls c) (<[url := v]> (http_error_urls c)))).

(** A new classifier instance on the same module, socket defaults and
    cache directory: no attribute is set yet. *)
Definition new_instance (st : State) : State :=
  with_caches None (with_setup_done false (with_do_slurp None st)).

(** The guard of line 180 lets the retrieval through. *)
Definition guard_open (st : State) : bool :=
  match do_slurp st with
  | None => true
  | Some b => b
  end.

(** The probability in the value [spamprob] returns. *)
Definition probability_of (v : spamprob_value) : float :=
  match v with
  | Prob p => p
  | ProbClues p _ => p
  end.

Section Training.

Context {cfg : Config} {ext : Collaborators}.

(** [_add_slurped] (lines 408-416) is a generator; [learn] and [unlearn]
    hand it to the base class, which consumes it.  A run of it is given by
    the tokens it yields, in order, and by the way it ends: [Return tt]
    when it is exhausted, [Raise e] when the call of line 414 raises, after
    the tokens of the wordstream were yielded.  The loop of line 415 goes
    through the items of a list or the characters of a string. *)
Definition _add_slurped (net : Net) (wordstream : list string)
  : State -> (list string * outcome unit) * State :=
  fun st =>
    match _generate_slurp net st with
    | (Return slurped_tokens, st') =>
        ((wordstream ++ py_list slurped_tokens, Return tt), st')
    | (Raise e, st') => ((wordstream, Raise e), st')
    end.

End Training.

(** The instance of [ready_state] in a process whose module global holds
    a pending reference. *)
Definition pending_ready_state : State :=
  mkState (Some ("http", "example.com/a")) true (Some true)
          (Some (mkCaches fresh_bad_urls ∅)) ∅ None
          (Pickled fresh_bad_urls) (Pickled ∅) [].

(** [ready_state] with a document for [example.com/a] in the corpus. *)
Definition stocked_state : State :=
  mkState None true (Some true) (Some (mkCaches fresh_bad_urls ∅))
          {[ "example_com_a" := "Content-Type: text/html" +:+ CRLF +:+ "<html></html>" ]}
          None (Pickled fresh_bad_urls) (Pickled ∅) [].

Definition html_response : response :=
  mkResponse (Some "text/html") (ReadData (PyText "<html></html>"))
             "Content-Type: text/html".

Definition bytes_response : response :=
  mkResponse (Some "text/html") (ReadData (PyBytes [Byte.x3c; Byte.x70; Byte.x3e]))
             "Content-Type: text/html".

(** [demo_config] with [X_ONLY_SLURP_BASE] set. *)
Definition base_only_config : Config :=
  mkConfig 0x1.999999999999ap-3%float 0x1.ccccccccccccdp-1%float 150 true EmptyString.

(** * Properties *)

(** ** Sanity checks of the string layer *)

Example base_url_massey :
  _base_url "www.massey.ac.nz/~tameyer/index.html?you=me" = "massey.ac.nz".
Proof. reflexivity. Qed.

Example base_url_example : _base_url "id.example.com" = "example.com".
Proof. reflexivity. Qed.

Example domain_port_1 :
  DOMAIN_AND_PORT_RE_match "example.com:8080/x" = Some ("example.com", Some "8080").
Proof. reflexivity. Qed.

Example domain_port_2 : DOMAIN_AND_PORT_RE_match "/x" = None.
Proof. reflexivity. Qed.

Example http_error_1 : HTTP_ERROR_RE_match "HTTP Error 404: Not Found" = Some "404".
Proof. reflexivity. Qed.

Example url_key_1 : URL_KEY_RE_sub "a.b/c?d=1" = "a_b_c_d_1".
Proof. reflexivity. Qed.

(** A letter outside ASCII is a word character and is kept: the key of
    [caf<e9>.com/a] is [caf<e9>_com_a], while a sign such as the
    no-break space or the multiplication sign is replaced. *)
Example url_key_keeps_letters :
  URL_KEY_RE_sub ("caf" +:+ String (ascii_of_nat 233) ".com/a")
  = "caf" +:+ String (ascii_of_nat 233) "_com_a"
  /\ URL_KEY_RE_sub (String (ascii_of_nat 160) (String (ascii_of_nat 215) "a"))
     = "__a".
Proof. split; reflexivity. Qed.

(** ** Facts about [split], [before] and [occurs] *)

Section SplitFacts.

Variable c : ascii.

Lemma occurs_app (d : ascii) (a b : string) :
  PyStr.occurs d (a +:+ b) = PyStr.occurs d a || PyStr.occurs d b.
Proof.
  induction a as [|x a IH]; simpl; [reflexivity|].
  destruct (Ascii.eqb x d); [reflexivity | exact IH].
Qed.

Lemma occurs_before (s : string) : PyStr.occurs c (PyStr.before c s) = false.
Proof.
  induction s as [|x s IH]; simpl; [reflexivity|].
  destruct (Ascii.eqb x c) eqn:E; simpl; [reflexivity|].
  rewrite E. exact IH.
Qed.

Lemma before_app_sep (s t : string) :
  PyStr.occurs c s = false -> PyStr.before c (s +:+ String c t) = s.
Proof.
  induction s as [|x s IH]; simpl; intros H.
  - rewrite Ascii.eqb_refl. reflexivity.
  - destruct (Ascii.eqb x c); [discriminate|]. rewrite IH; auto.
Qed.

Lemma before_app_sep_any (s t : string) :
  PyStr.before c (s +:+ String c t) = PyStr.before c s.
Proof.
  induction s as [|x s IH]; simpl.
  - rewrite Ascii.eqb_refl. reflexivity.
  - destruct (Ascii.eqb x c); [reflexivity|]. rewrite IH. reflexivity.
Qed.

Lemma occurs_app_sep (s t : string) : PyStr.occurs c (s +:+ String c t) = true.
Proof.
  rewrite occurs_app. simpl. rewrite Ascii.eqb_refl. apply orb_true_r.
Qed.

Lemma split_not_nil (s : string) : PyStr.split c s <> [].
Proof.
  destruct s as [|x s]; simpl; [discriminate|].
  destruct (Ascii.eqb x c); [discriminate|].
  destruct (PyStr.split c s); discriminate.
Qed.

Lemma split_free (d : ascii) (s : string) :
  PyStr.occurs d s = false ->
  Forall (fun p => PyStr.occurs d p = false) (PyStr.split c s).
Proof.
  induction s as [|x s IH]; simpl; intros H.
  - constructor; [reflexivity | constructor].
  - destruct (Ascii.eqb x d) eqn:Exd; [discriminate|].
    specialize (IH H).
    destruct (Ascii.eqb x c).
    + constructor; [reflexivity | exact IH].
    + destruct (PyStr.split c s) as [|p ps].
      * constructor; [simpl; rewrite Exd; reflexivity | constructor].
      * inversion IH; subst. constructor; [simpl; rewrite Exd; assumption | assumption].
Qed.

Lemma split_parts_sep_free (s : string) :
  Forall (fun p => PyStr.occurs c p = false) (PyStr.split c s).
Proof.
  induction s as [|x s IH]; simpl.
  - constructor; [reflexivity | constructor].
  - destruct (Ascii.eqb x c) eqn:E.
    + constructor; [reflexivity | exact IH].
    + destruct (PyStr.split c s) as [|p ps].
      * constructor; [simpl; rewrite E; reflexivity | constructor].
      * inversion IH; subst. constructor; [simpl; rewrite E; assumption | assumption].
Qed.

Lemma split_single (a : string) :
  PyStr.occurs c a = false -> PyStr.split c a = [a].
Proof.
  induction a as [|x a IH]; simpl; intros H; [reflexivity|].
  destruct (Ascii.eqb x c); [discriminate|].
  rewrite IH; auto.
Qed.

Lemma split_app_sep (a s : string) :
  PyStr.occurs c a = false ->
  PyStr.split c (a +:+ String c s) = a :: PyStr.split c s.
Proof.
  induction a as [|x a IH]; simpl; intros H.
  - rewrite Ascii.eqb_refl. reflexivity.
  - destruct (Ascii.eqb x c); [discriminate|].
    rewrite IH; auto.
Qed.

End SplitFacts.

(** ** [_base_url] *)

Lemma base_url_domain (url : string) :
  PyStr.index0 (PyStr.split1 "/" (url +:+ "/")) = Some (PyStr.before "/" url).
Proof.
  unfold PyStr.split1. rewrite occurs_app_sep. simpl.
  rewrite before_app_sep_any. reflexivity.
Qed.

Lemma base_url_domain_free (r : string) :
  PyStr.occurs "/" r = false ->
  PyStr.index0 (PyStr.split1 "/" (r +:+ "/")) = Some r.
Proof.
  intros H. unfold PyStr.split1. rewrite occurs_app_sep. simpl.
  rewrite before_app_sep; auto.
Qed.

(** A slash-free string with at most two labels is its own base. *)
Lemma base_url_short (r : string) :
  PyStr.occurs "/" r = false ->
  length (PyStr.split "." r) <= 2 ->
  _base_url r = r.
Proof.
  intros Hs Hl. unfold _base_url.
  rewrite base_url_domain_free by assumption. simpl default.
  destruct (Nat.ltb_spec 2 (length (PyStr.split "." r))); [lia | reflexivity].
Qed.

Lemma base_url_three (x y z : string) :
  PyStr.occurs "/" x = false -> PyStr.occurs "/" y = false ->
  PyStr.occurs "/" z = false ->
  PyStr.occurs "." x = false -> PyStr.occurs "." y = false ->
  PyStr.occurs "." z = false ->
  Nat.ltb (String.length z) 3 = true ->
  _base_url (x +:+ "." +:+ y +:+ "." +:+ z) = x +:+ "." +:+ y +:+ "." +:+ z.
Proof.
  intros Hx Hy Hz Dx Dy Dz Hlen.
  change (x +:+ "." +:+ y +:+ "." +:+ z) with (x +:+ String "." (y +:+ String "." z)).
  unfold _base_url.
  rewrite base_url_domain_free.
  2:{ rewrite occurs_app, Hx. simpl. rewrite occurs_app, Hy. simpl. exact Hz. }
  simpl default.
  rewrite split_app_sep by assumption.
  rewrite split_app_sep by assumption.
  rewrite split_single by assumption.
  unfold PyStr.neg_index. simpl. rewrite Hlen. reflexivity.
Qed.

(** The results of [_base_url]: a slash-free string of at most two
    labels, or three slash-free labels of which the last has fewer than
    three characters. *)
Lemma base_url_cases (u : string) :
  (PyStr.occurs "/" (_base_url u) = false
   /\ length (PyStr.split "." (_base_url u)) <= 2)
  \/ (exists x y z,
        _base_url u = x +:+ "." +:+ y +:+ "." +:+ z
        /\ (PyStr.occurs "/" x = false /\ PyStr.occurs "/" y = false
            /\ PyStr.occurs "/" z = false)
        /\ (PyStr.occurs "." x = false /\ PyStr.occurs "." y = false
            /\ PyStr.occurs "." z = false)
        /\ Nat.ltb (String.length z) 3 = true).
Proof.
  unfold _base_url.
  rewrite base_url_domain. simpl default.
  set (d := PyStr.before "/" u).
  assert (Hd : PyStr.occurs "/" d = false) by apply occurs_before.
  pose proof (split_free "." "/" d Hd) as Hslash.
  pose proof (split_parts_sep_free "." d) as Hdot.
  unfold PyStr.neg_index.
  rewrite <- (length_rev (PyStr.split "." d)).
  apply Forall_rev in Hslash. apply Forall_rev in Hdot.
  destruct (rev (PyStr.split "." d)) as [|z [|y [|x rest]]] eqn:E.
  - left. simpl. split; [assumption|]. rewrite <- length_rev, E. simpl. lia.
  - left. simpl. split; [assumption|]. rewrite <- length_rev, E. simpl. lia.
  - left. simpl. split; [assumption|]. rewrite <- length_rev, E. simpl. lia.
  - inversion Hslash as [|? ? Sz Hs1]; subst.
    inversion Hs1 as [|? ? Sy Hs2]; subst.
    inversion Hs2 as [|? ? Sx _]; subst.
    inversion Hdot as [|? ? Dz Hd1]; subst.
    inversion Hd1 as [|? ? Dy Hd2]; subst.
    inversion Hd2 as [|? ? Dx _]; subst.
    simpl.
    destruct (Nat.ltb (String.length z) 3) eqn:Hlen.
    + right. exists x, y, z. repeat split; assumption.
    + left. change (y +:+ "." +:+ z) with (y +:+ String "." z). split.
      * rewrite occurs_app, Sy. simpl. exact Sz.
      * rewrite split_app_sep by assumption.
        rewrite split_single by assumption. simpl. lia.
Qed.

(** C10.  Domain canonicalisation is idempotent: for every URL string
    [u], [_base_url (_base_url u) = _base_url u]. *)
Theorem base_url_idempotent (u : string) :
  _base_url (_base_url u) = _base_url u.
Proof.
  destruct (base_url_cases u)
    as [[Hslash Hlabels]|(x & y & z & -> & (Sx & Sy & Sz) & (Dx & Dy & Dz) & Hlen)].
  - apply base_url_short; assumption.
  - apply base_url_three; assumption.
Qed.

(** ** The bucket dictionary *)

Lemma dict_get_in_keys (k : string) (d : bucket_dict) (t : list string) :
  dict_get k d = Some t -> In k (dict_keys d).
Proof.
  induction d as [|[k' v] d IH]; simpl; [discriminate|].
  destruct (String.eqb_spec k k') as [->|Hne]; intros H.
  - left; reflexivity.
  - right; apply IH; exact H.
Qed.

Lemma dict_keys_set (k : string) (v : list string) (d : bucket_dict) :
  dict_keys (dict_set k v d) = dict_keys d.
Proof.
  induction d as [|[k' v'] d IH]; simpl; [reflexivity|].
  destruct (String.eqb k k'); simpl; [reflexivity|].
  f_equal. exact IH.
Qed.

Lemma dict_get_set_eq (k : string) (v t : list string) (d : bucket_dict) :
  dict_get k d = Some t -> dict_get k (dict_set k v d) = Some v.
Proof.
  induction d as [|[k' v'] d IH]; simpl; [discriminate|].
  destruct (String.eqb k k') eqn:E; simpl; rewrite E; [reflexivity | exact IH].
Qed.

Lemma dict_get_set_ne (k k' : string) (v : list string) (d : bucket_dict) :
  k <> k' -> dict_get k' (dict_set k v d) = dict_get k' d.
Proof.
  intros Hne. induction d as [|[k0 v0] d IH]; simpl; [reflexivity|].
  destruct (String.eqb_spec k k0) as [->|Hk]; simpl.
  - destruct (String.eqb_spec k' k0) as [->|Hk']; [congruence | reflexivity].
  - destruct (String.eqb k' k0); [reflexivity | exact IH].
Qed.

Lemma in_tuple_app (u x : string) (t : list string) :
  PyStr.in_tuple u (t ++ [x]) = PyStr.in_tuple u t || String.eqb u x.
Proof.
  unfold PyStr.in_tuple. rewrite existsb_app. simpl.
  rewrite orb_false_r. reflexivity.
Qed.

Lemma check_bad_urls_hit (keys : list string) (d : bucket_dict) (k u : string) :
  In k keys ->
  PyStr.in_tuple u (default [] (dict_get k d)) = true ->
  check_bad_urls keys d u <> None.
Proof.
  induction keys as [|k0 keys IH]; simpl; [tauto|].
  intros [->|Hin] Hu.
  - rewrite Hu. discriminate.
  - destruct (PyStr.in_tuple u (default [] (dict_get k0 d))); [discriminate|].
    apply IH; assumption.
Qed.

Lemma check_bad_urls_some (keys : list string) (d : bucket_dict) (u err : string) :
  check_bad_urls keys d u = Some err ->
  In err keys /\ PyStr.in_tuple u (default [] (dict_get err d)) = true.
Proof.
  induction keys as [|k0 keys IH]; simpl; [discriminate|].
  destruct (PyStr.in_tuple u (default [] (dict_get k0 d))) eqn:E.
  - intros [= <-]. split; [left; reflexivity | exact E].
  - intros H. destruct (IH H). split; [right|]; assumption.
Qed.

Lemma in_bucket_check (c : Caches) (err u : string) :
  in_bucket c err u ->
  check_bad_urls (dict_keys (bad_urls c)) (bad_urls c) u <> None.
Proof.
  intros (t & Ht & Hu).
  apply check_bad_urls_hit with (k := err).
  - eapply dict_get_in_keys; exact Ht.
  - rewrite Ht. exact Hu.
Qed.

Lemma standard_first_bucket (c : Caches) (u : string) :
  standard_buckets (bad_urls c) ->
  in_bucket c "url:non_resolving" u ->
  check_bad_urls (dict_keys (bad_urls c)) (bad_urls c) u = Some "url:non_resolving".
Proof.
  intros Hstd (t & Ht & Hu). rewrite Hstd. simpl.
  rewrite Ht. simpl. rewrite Hu. reflexivity.
Qed.

(** ** Running the monad *)

Section Run.

Context {cfg : Config} {ext : Collaborators}.

Lemma run_bind_return {A B : Type} (m : M A) (k : A -> M B) (st st' : State) (a : A) :
  m st = (Return a, st') -> bind m k st = k a st'.
Proof. intros H. unfold bind. rewrite H. reflexivity. Qed.

Lemma run_bind_raise {A B : Type} (m : M A) (k : A -> M B) (st st' : State) (e : exn) :
  m st = (Raise e, st') -> bind m k st = (Raise e, st').
Proof. intros H. unfold bind. rewrite H. reflexivity. Qed.

Lemma run_get_caches (st : State) (c : Caches) :
  caches st = Some c -> get_caches st = (Return c, st).
Proof. intros H. unfold get_caches, bind, get. rewrite H. reflexivity. Qed.

Lemma run_get_caches_none (st : State) :
  caches st = None -> get_caches st = (Raise AttributeError, st).
Proof. intros H. unfold get_caches, bind, get. rewrite H. reflexivity. Qed.

Lemma run_bucket_add (st : State) (c : Caches) (err url : string) (t : list string) :
  caches st = Some c ->
  dict_get err (bad_urls c) = Some t ->
  bucket_add err url st =
    (Return tt,
     with_caches (Some (mkCaches (dict_set err (t ++ [url]) (bad_urls c))
                                 (http_error_urls c))) st).
Proof.
  intros Hc Ht. unfold bucket_add.
  rewrite (run_bind_return _ _ _ _ _ (run_get_caches st c Hc)).
  rewrite Ht. reflexivity.
Qed.

Lemma run_bucket_add_missing (st : State) (c : Caches) (err url : string) :
  caches st = Some c ->
  dict_get err (bad_urls c) = None ->
  bucket_add err url st = (Raise (KeyError err), st).
Proof.
  intros Hc Ht. unfold bucket_add.
  rewrite (run_bind_return _ _ _ _ _ (run_get_caches st c Hc)).
  rewrite Ht. reflexivity.
Qed.

(** *** Growth of the negative caches *)

Lemma caches_grow_refl (st : State) : caches_grow st st.
Proof. intros c Hc. exists c. auto. Qed.

Lemma caches_grow_trans (st1 st2 st3 : State) :
  caches_grow st1 st2 -> caches_grow st2 st3 -> caches_grow st1 st3.
Proof.
  intros H12 H23 c Hc.
  destruct (H12 c Hc) as (c2 & Hc2 & Hk2 & Hm2).
  destruct (H23 c2 Hc2) as (c3 & Hc3 & Hk3 & Hm3).
  exists c3. split; [assumption|]. split; [congruence|]. auto.
Qed.

Lemma caches_grow_same (st st' : State) :
  caches st' = caches st -> caches_grow st st'.
Proof. intros H c Hc. exists c. rewrite H. auto. Qed.

Lemma grows_ret {A : Type} (a : A) : grows (ret a).
Proof. intros st. apply caches_grow_refl. Qed.

Lemma grows_raise {A : Type} (e : exn) : grows (@raise A e).
Proof. intros st. apply caches_grow_refl. Qed.

Lemma grows_get : grows get.
Proof. intros st. apply caches_grow_refl. Qed.

Lemma grows_bind {A B : Type} (m : M A) (k : A -> M B) :
  grows m -> (forall a, grows (k a)) -> grows (bind m k).
Proof.
  intros Hm Hk st. unfold bind. specialize (Hm st).
  destruct (m st) as [[a|e] st']; simpl in *.
  - eapply caches_grow_trans; [exact Hm | apply Hk].
  - exact Hm.
Qed.

Lemma grows_modify (f : State -> State) :
  (forall st, caches (f st) = caches st) -> grows (modify f).
Proof. intros H st. apply caches_grow_same. simpl. apply H. Qed.

Lemma grows_emit (e : event) : grows (emit e).
Proof. apply grows_modify. reflexivity. Qed.

Lemma grows_get_caches : grows get_caches.
Proof.
  intros st. unfold get_caches, bind, get.
  destruct (caches st); apply caches_grow_refl.
Qed.

Lemma grows_bucket_add (err url : string) : grows (bucket_add err url).
Proof.
  intros st c Hc.
  destruct (dict_get err (bad_urls c)) as [t|] eqn:Ht.
  - rewrite (run_bucket_add st c err url t Hc Ht). simpl.
    eexists. split; [reflexivity|]. simpl. split; [apply dict_keys_set|].
    intros err' u (t' & Ht' & Hu).
    destruct (String.eqb_spec err err') as [<-|Hne].
    + exists (t ++ [url]). simpl. split; [eapply dict_get_set_eq; exact Ht|].
      rewrite in_tuple_app. assert (t' = t) by congruence. subst t'.
      rewrite Hu. reflexivity.
    + exists t'. simpl. split; [|exact Hu].
      rewrite dict_get_set_ne by assumption. exact Ht'.
  - rewrite (run_bucket_add_missing st c err url Hc Ht). simpl.
    exists c. auto.
Qed.

Lemma grows_http_error_set (url v : string) : grows (http_error_set url v).
Proof.
  intros st c Hc. unfold http_error_set.
  rewrite (run_bind_return _ _ _ _ _ (run_get_caches st c Hc)). simpl.
  eexists. split; [reflexivity|]. simpl. split; [reflexivity|].
  intros err u H. exact H.
Qed.

Lemma grows_read_local {A : Type} (name : string) (b : option A) :
  grows (read_local name b).
Proof. destruct b; [apply grows_ret | apply grows_raise]. Qed.

Lemma grows_concat_message (headers : string) (page : pydata) :
  grows (concat_message headers page).
Proof. destruct page; [apply grows_ret | apply grows_raise]. Qed.

Lemma grows_slurp_tokenize (s : string) : grows (slurp_tokenize s).
Proof. unfold slurp_tokenize. simpl. apply grows_raise. Qed.

Ltac grows_step :=
  first
    [ apply grows_ret | apply grows_raise | apply grows_get | apply grows_emit
    | apply grows_get_caches | apply grows_bucket_add | apply grows_http_error_set
    | apply grows_concat_message | apply grows_slurp_tokenize
    | apply grows_modify; reflexivity
    | apply grows_bind; [|intro] ].

Lemma grows_slurp_fetch (net : Net) (proto url url_key : string) :
  grows (slurp_fetch net proto url url_key).
Proof.
  unfold slurp_fetch.
  repeat grows_step.
  destruct (urlopen net _) as [details|f].
  - destruct (HTTP_ERROR_RE_match details); repeat grows_step.
  - repeat grows_step.
    destruct (not_html (content_type f)); repeat grows_step.
    destruct (read f); repeat grows_step.
Qed.

Lemma grows_slurp (net : Net) (proto url : string) : grows (slurp net proto url).
Proof.
  unfold slurp.
  destruct (String.eqb url ""); [apply grows_ret|].
  repeat grows_step.
  destruct (check_bad_urls _ _ _); [apply grows_ret|].
  destruct (http_error_urls _ !! _); [apply grows_ret|].
  destruct (DOMAIN_AND_PORT_RE_match _) as [[domain g3]|]; [|apply grows_raise].
  repeat grows_step.
  destruct (negb _); repeat grows_step.
  destruct (corpus_get _ _); [apply grows_slurp_tokenize|].
  destruct (skipped_extension _); [repeat grows_step | apply grows_slurp_fetch].
Qed.

Lemma grows_slurp_calls (calls : list (Net * string * string)) (st : State) :
  caches_grow st (slurp_calls calls st).
Proof.
  revert st. induction calls as [|[[net proto] url] calls IH]; intros st; simpl.
  - apply caches_grow_refl.
  - eapply caches_grow_trans; [apply grows_slurp | apply IH].
Qed.

(** *** The shape of the bucket dictionary through an instance's life *)

Lemma slurp_keeps_standard (net : Net) (proto url : string) (st : State) (c : Caches) :
  caches st = Some c ->
  standard_buckets (bad_urls c) ->
  exists c', caches (snd (slurp net proto url st)) = Some c'
             /\ standard_buckets (bad_urls c').
Proof.
  intros Hc Hstd.
  destruct (grows_slurp net proto url st c Hc) as (c' & Hc' & Hkeys & _).
  exists c'. split; [exact Hc'|].
  unfold standard_buckets. rewrite Hkeys. exact Hstd.
Qed.

Lemma setup_gives_standard (st : State) :
  match bad_url_cache_file st with
  | Pickled d => standard_buckets d
  | BadPickle | NoFile => True
  end ->
  exists c, caches (snd (setup st)) = Some c /\ standard_buckets (bad_urls c).
Proof.
  intros H. unfold setup, bind, modify, get. simpl.
  eexists. split; [reflexivity|]. simpl.
  destruct (bad_url_cache_file st); [reflexivity | reflexivity | exact H].
Qed.

Lemma save_caches_pickles (st : State) (c : Caches) :
  caches st = Some c ->
  bad_url_cache_file (snd (_save_caches st)) = Pickled (bad_urls c)
  /\ http_error_cache_file (snd (_save_caches st)) = Pickled (http_error_urls c).
Proof.
  intros Hc. unfold _save_caches.
  rewrite (run_bind_return _ _ _ _ _ (run_get_caches st c Hc)).
  split; reflexivity.
Qed.

End Run.

(** ** Negative-cache hits *)

Section NegativeCache.

Context {cfg : Config} {ext : Collaborators}.

Lemma slurp_empty_url (net : Net) (proto : string) (st : State) :
  slurp net proto "" st = (Return (PyList ["url:non_resolving"]), st).
Proof. reflexivity. Qed.

Lemma new_events_same (st : State) : new_events st st = [].
Proof. unfold new_events. rewrite Nat.sub_diag. reflexivity. Qed.

(** A bucket hit answers with the bucket's name, in a list. *)
Lemma slurp_bucket_hit (net : Net) (proto url err : string) (st : State) (c : Caches) :
  url <> EmptyString ->
  caches st = Some c ->
  check_bad_urls (dict_keys (bad_urls c)) (bad_urls c) (slurp_url url) = Some err ->
  slurp net proto url st = (Return (PyList [err]), st).
Proof.
  intros Hne Hc Hhit. unfold slurp.
  destruct (String.eqb_spec url ""); [contradiction|].
  rewrite (run_bind_return _ _ _ _ _ (run_get_caches st c Hc)).
  rewrite Hhit. reflexivity.
Qed.

(** A hit in the HTTP-status map answers with the stored string itself
    (line 290), not with a list holding it. *)
Lemma slurp_status_hit (net : Net) (proto url stored : string) (st : State) (c : Caches) :
  url <> EmptyString ->
  caches st = Some c ->
  check_bad_urls (dict_keys (bad_urls c)) (bad_urls c) (slurp_url url) = None ->
  http_error_urls c !! slurp_url url = Some stored ->
  slurp net proto url st = (Return (PyStr stored), st).
Proof.
  intros Hne Hc Hmiss Hhit. unfold slurp.
  destruct (String.eqb_spec url ""); [contradiction|].
  rewrite (run_bind_return _ _ _ _ _ (run_get_caches st c Hc)).
  rewrite Hmiss, Hhit. reflexivity.
Qed.

(** C9.  When the URL that [slurp] looks up is in one of the buckets or in
    the HTTP-status map, the call leaves the state as it found it: the
    buckets, the status map, the content store (and the rest of the state,
    the trace of network accesses included) are exactly as before. *)
Theorem slurp_negative_hit_keeps_state
    (net : Net) (proto url : string) (st : State) (c : Caches) :
  caches st = Some c ->
  negative_hit c (slurp_url url) ->
  snd (slurp net proto url st) = st.
Proof.
  intros Hc Hhit.
  destruct (String.eqb_spec url "") as [->|Hne]; [reflexivity|].
  destruct (check_bad_urls (dict_keys (bad_urls c)) (bad_urls c) (slurp_url url))
    as [err|] eqn:Hcheck.
  - rewrite (slurp_bucket_hit net proto url err st c Hne Hc Hcheck). reflexivity.
  - destruct Hhit as [[err Hin]|[stored Hs]].
    + exfalso. exact (in_bucket_check c err _ Hin Hcheck).
    + rewrite (slurp_status_hit net proto url stored st c Hne Hc Hcheck Hs).
      reflexivity.
Qed.

(** C7.  Once the URL that [slurp] looks up is in the [url:non_resolving]
    bucket, every later resolution of it, after any number of other
    [slurp] calls, returns [["url:non_resolving"]] and leaves the state,
    hence the trace of DNS lookups and requests, untouched. *)
Theorem non_resolving_served_without_network
    (net : Net) (proto url : string) (st : State) (c : Caches)
    (calls : list (Net * string * string)) :
  caches st = Some c ->
  standard_buckets (bad_urls c) ->
  in_bucket c "url:non_resolving" (slurp_url url) ->
  slurp net proto url (slurp_calls calls st)
    = (Return (PyList ["url:non_resolving"]), slurp_calls calls st)
  /\ new_events (slurp_calls calls st)
                (snd (slurp net proto url (slurp_calls calls st))) = [].
Proof.
  intros Hc Hstd Hin.
  destruct (grows_slurp_calls calls st c Hc) as (c' & Hc' & Hkeys & Hmono).
  assert (Hrun : slurp net proto url (slurp_calls calls st)
                 = (Return (PyList ["url:non_resolving"]), slurp_calls calls st)).
  { destruct (String.eqb_spec url "") as [->|Hne]; [reflexivity|].
    apply slurp_bucket_hit with (c := c'); [assumption | assumption |].
    apply standard_first_bucket.
    - unfold standard_buckets. rewrite Hkeys. exact Hstd.
    - apply Hmono. exact Hin. }
  split; [exact Hrun|].
  rewrite Hrun. simpl. apply new_events_same.
Qed.

Lemma slurp_url_fixed (u : string) : slurp_url (slurp_url u) = slurp_url u.
Proof.
  unfold slurp_url. destruct X_ONLY_SLURP_BASE; [|reflexivity].
  destruct (base_url_cases u)
    as [[Hslash Hlabels]|(x & y & z & -> & (Sx & Sy & Sz) & (Dx & Dy & Dz) & Hlen)].
  - apply base_url_short; assumption.
  - apply base_url_three; assumption.
Qed.

(** The string that sits in the bucket is the looked-up form of the URL;
    asked for as such, it is looked up under the same form, with or
    without [X_ONLY_SLURP_BASE]. *)
Lemma recorded_string_served_without_network
    (net : Net) (proto u : string) (st : State) (c : Caches) :
  caches st = Some c ->
  standard_buckets (bad_urls c) ->
  in_bucket c "url:non_resolving" (slurp_url u) ->
  slurp net proto (slurp_url u) st = (Return (PyList ["url:non_resolving"]), st).
Proof.
  intros Hc Hstd Hin.
  destruct (String.eqb_spec (slurp_url u) "") as [->|Hne]; [reflexivity|].
  apply slurp_bucket_hit with (c := c); [assumption | assumption |].
  rewrite slurp_url_fixed. apply standard_first_bucket; assumption.
Qed.

(** The failed lookup of line 300 is what puts a URL in that bucket. *)
Lemma slurp_records_non_resolving
    (net : Net) (proto url domain : string) (g3 : option string)
    (st : State) (c : Caches) :
  url <> EmptyString ->
  caches st = Some c ->
  standard_buckets (bad_urls c) ->
  check_bad_urls (dict_keys (bad_urls c)) (bad_urls c) (slurp_url url) = None ->
  http_error_urls c !! slurp_url url = None ->
  DOMAIN_AND_PORT_RE_match (slurp_url url) = Some (domain, g3) ->
  getaddrinfo net domain (port_of g3) = false ->
  exists st' c',
    slurp net proto url st = (Return (PyList ["url:non_resolving"]), st')
    /\ caches st' = Some c'
    /\ standard_buckets (bad_urls c')
    /\ in_bucket c' "url:non_resolving" (slurp_url url).
Proof.
  intros Hne Hc Hstd Hmiss Hmap Hre Hdns. unfold slurp.
  destruct (String.eqb_spec url ""); [contradiction|].
  rewrite (run_bind_return _ _ _ _ _ (run_get_caches st c Hc)).
  rewrite Hmiss, Hmap, Hre.
  unfold standard_buckets in Hstd.
  destruct (bad_urls c) as [|[k1 t1] [|[k2 t2] [|[k3 t3] [|? ?]]]] eqn:Hd;
    try discriminate.
  injection Hstd as -> -> ->.
  unfold bind at 1. unfold emit, modify. cbn [fst snd].
  cbv zeta. rewrite Hdns. cbn [negb].
  eexists. eexists. split.
  { erewrite run_bind_return; [reflexivity|].
    apply run_bucket_add with (c := c) (t := t1); [exact Hc|].
    rewrite Hd. reflexivity. }
  simpl. split; [reflexivity|]. rewrite Hd. simpl.
  split; [reflexivity|].
  exists (t1 ++ [slurp_url url]). simpl. split; [reflexivity|].
  rewrite in_tuple_app, String.eqb_refl. apply orb_true_r.
Qed.

End NegativeCache.

(** ** The request (lines 319-367) *)

Section Fetch.

Context {cfg : Config} {ext : Collaborators}.

Lemma startswith_lower (p s : string) :
  PyStr.startswith p s = true ->
  PyStr.startswith (PyStr.lower p) (PyStr.lower s) = true.
Proof.
  revert s. induction p as [|a p IH]; intros s; simpl; [reflexivity|].
  destruct s as [|b s]; simpl; [discriminate|].
  intros H. apply andb_prop in H as [Hab Hps].
  apply Ascii.eqb_eq in Hab. subst b.
  rewrite Ascii.eqb_refl. simpl. apply IH. exact Hps.
Qed.

(** The test of lines 348-349 is the case-sensitive one: whatever passes
    it also passes the case-insensitive test. *)
Lemma html_ci_of_html (ct : option string) :
  not_html ct = false -> html_ci ct = true.
Proof.
  destruct ct as [s|]; simpl; [|discriminate].
  intros H. apply negb_false_iff in H.
  apply (startswith_lower "text/html" s H).
Qed.

Lemma not_html_of_not_html_ci (ct : option string) :
  html_ci ct = false -> not_html ct = true.
Proof.
  intros H. destruct (not_html ct) eqn:E; [reflexivity|].
  apply html_ci_of_html in E. congruence.
Qed.

Lemma new_events_app (evs : list event) (st st' : State) :
  trace st' = evs ++ trace st -> new_events st st' = evs.
Proof.
  intros H. unfold new_events. rewrite H, length_app.
  replace (length evs + length (trace st) - length (trace st)) with (length evs) by lia.
  rewrite firstn_app, Nat.sub_diag, firstn_all. simpl. apply app_nil_r.
Qed.

(** From a state that [reaches_fetch], [slurp] is the request of lines
    319-367 run after the address lookup. *)
Lemma slurp_to_fetch (net : Net) (proto url : string) (st : State) (c : Caches) :
  reaches_fetch net url st c ->
  exists domain g3,
    DOMAIN_AND_PORT_RE_match (slurp_url url) = Some (domain, g3)
    /\ getaddrinfo net domain (port_of g3) = true
    /\ slurp net proto url st
       = slurp_fetch net proto (slurp_url url) (URL_KEY_RE_sub (slurp_url url))
           (with_trace (EvGetaddrinfo domain (port_of g3) :: trace st) st).
Proof.
  intros (Hne & Hc & Hmiss & Hmap & (domain & g3 & Hre & Hdns) & Hcorpus & Hext).
  exists domain, g3. split; [exact Hre|]. split; [exact Hdns|].
  unfold slurp.
  destruct (String.eqb_spec url ""); [contradiction|].
  rewrite (run_bind_return _ _ _ _ _ (run_get_caches st c Hc)).
  rewrite Hmiss, Hmap, Hre.
  unfold bind at 1. unfold emit, modify. cbn [fst snd].
  cbv zeta. rewrite Hdns. cbn [negb].
  unfold bind at 1. unfold get. cbn [urlCorpus with_trace].
  rewrite Hcorpus, Hext. reflexivity.
Qed.

(** After a successful [urlopen] the default timeout is back and the
    content-type test decides. *)
Lemma fetch_opened (net : Net) (proto url url_key : string) (st : State) (f : response) :
  urlopen net (proto +:+ "://" +:+ url) = UrlOpened f ->
  slurp_fetch net proto url url_key st
  = (if not_html (content_type f) then
       (bucket_add "url:non_html" url ;;; ret (PyList ["url:non_html"]))
     else
       (emit EvRead ;;;
        match read f with
        | ReadSocketError => ret (PyList [])
        | ReadRaises e => raise e
        | ReadData page =>
            (fake_message_string <- concat_message (info_str f) page ;;
             corpus_add url_key fake_message_string ;;;
             slurp_tokenize fake_message_string)
        end))%py
      (with_trace (EvUrlopen (proto +:+ "://" +:+ url) :: trace st) st).
Proof.
  intros Hopen. unfold slurp_fetch.
  unfold bind at 1. unfold get at 1.
  unfold bind at 1. unfold modify at 1.
  unfold bind at 1. unfold emit at 1, modify at 1.
  rewrite Hopen.
  unfold bind at 1. unfold modify at 1.
  reflexivity.
Qed.

End Fetch.

(** ** What a request adds to the trace *)

Section FetchTrace.

Context {cfg : Config} {ext : Collaborators}.

Section Keeps.

Context {B : Type} (proj : State -> B).

Hypothesis proj_caches : forall c st, proj (with_caches c st) = proj st.
Hypothesis proj_corpus : forall m st, proj (with_urlCorpus m st) = proj st.

Lemma keeps_ret {A : Type} (a : A) : keeps proj (ret a).
Proof. intros st. reflexivity. Qed.

Lemma keeps_raise {A : Type} (e : exn) : keeps proj (@raise A e).
Proof. intros st. reflexivity. Qed.

Lemma keeps_bind {A C : Type} (m : M A) (k : A -> M C) :
  keeps proj m -> (forall a, keeps proj (k a)) -> keeps proj (bind m k).
Proof.
  intros Hm Hk st. unfold bind. specialize (Hm st).
  destruct (m st) as [[a|e] st']; simpl in *.
  - rewrite Hk. exact Hm.
  - exact Hm.
Qed.

Lemma keeps_modify (f : State -> State) :
  (forall st, proj (f st) = proj st) -> keeps proj (modify f).
Proof. intros H st. simpl. apply H. Qed.

Lemma keeps_get_caches : keeps proj get_caches.
Proof.
  intros st. unfold get_caches, bind, get. destruct (caches st); reflexivity.
Qed.

Lemma keeps_bucket_add (err url : string) : keeps proj (bucket_add err url).
Proof.
  unfold bucket_add. apply keeps_bind; [apply keeps_get_caches|].
  intros c. destruct (dict_get err (bad_urls c)).
  - apply keeps_modify. intros st. apply proj_caches.
  - apply keeps_raise.
Qed.

Lemma keeps_http_error_set (url v : string) : keeps proj (http_error_set url v).
Proof.
  unfold http_error_set. apply keeps_bind; [apply keeps_get_caches|].
  intros c. apply keeps_modify. intros st. apply proj_caches.
Qed.

Lemma keeps_store (url_key : string) (f : response) (page : pydata) :
  keeps proj
    (fake_message_string <- concat_message (info_str f) page ;;
     corpus_add url_key fake_message_string ;;;
     slurp_tokenize fake_message_string).
Proof.
  apply keeps_bind.
  - destruct page; [apply keeps_ret | apply keeps_raise].
  - intros s. apply keeps_bind; [apply keeps_modify; intros st; apply proj_corpus|].
    intros _. unfold slurp_tokenize. simpl. apply keeps_raise.
Qed.

End Keeps.


Lemma trace_with_urlCorpus (m : gmap string string) (st : State) :
  trace (with_urlCorpus m st) = trace st.
Proof. reflexivity. Qed.

Lemma timeout_with_caches (c : option Caches) (st : State) :
  default_timeout (with_caches c st) = default_timeout st.
Proof. reflexivity. Qed.

Lemma timeout_with_urlCorpus (m : gmap string string) (st : State) :
  default_timeout (with_urlCorpus m st) = default_timeout st.
Proof. reflexivity. Qed.

Lemma keeps_add_then_ret {B : Type} (proj : State -> B) (err url : string)
    (v : slurp_value) :
  (forall c st, proj (with_caches c st) = proj st) ->
  keeps proj (bucket_add err url ;;; ret v).
Proof.
  intros H. apply keeps_bind; [apply keeps_bucket_add; exact H|].
  intros _. apply keeps_ret.
Qed.

Lemma keeps_set_then_ret {B : Type} (proj : State -> B) (url s : string)
    (v : slurp_value) :
  (forall c st, proj (with_caches c st) = proj st) ->
  keeps proj (http_error_set url s ;;; ret v).
Proof.
  intros H. apply keeps_bind; [apply keeps_http_error_set; exact H|].
  intros _. apply keeps_ret.
Qed.


(** The default timeout of the socket module after the request: the
    value found before the call when [urlopen] returned a response ... *)
Lemma fetch_opened_restores_timeout
    (net : Net) (proto url url_key : string) (st : State) (f : response) :
  urlopen net (proto +:+ "://" +:+ url) = UrlOpened f ->
  default_timeout (snd (slurp_fetch net proto url url_key st)) = default_timeout st.
Proof.
  intros Hopen. rewrite (fetch_opened net proto url url_key st f Hopen).
  destruct (not_html (content_type f)).
  - rewrite (keeps_add_then_ret default_timeout _ _ _ timeout_with_caches).
    reflexivity.
  - unfold bind at 1. unfold emit at 1, modify at 1.
    destruct (read f) as [page| |e].
    + rewrite (keeps_store default_timeout timeout_with_urlCorpus).
      reflexivity.
    + reflexivity.
    + reflexivity.
Qed.

(** ... and five seconds when [urlopen] raised: the handler of lines
    331-337 returns before line 340. *)
Lemma fetch_error_leaves_timeout
    (net : Net) (proto url url_key details : string) (st : State) :
  urlopen net (proto +:+ "://" +:+ url) = UrlError details ->
  default_timeout (snd (slurp_fetch net proto url url_key st)) = Some 5%float.
Proof.
  intros Hopen. unfold slurp_fetch.
  unfold bind at 1. unfold get at 1.
  unfold bind at 1. unfold modify at 1.
  unfold bind at 1. unfold emit at 1, modify at 1.
  rewrite Hopen.
  destruct (HTTP_ERROR_RE_match details) as [code|].
  - rewrite (keeps_set_then_ret default_timeout _ _ _ timeout_with_caches).
    reflexivity.
  - rewrite (keeps_add_then_ret default_timeout _ _ _ timeout_with_caches).
    reflexivity.
Qed.


End FetchTrace.

(** ** Content type and transient failures *)

Section FetchOutcome.

Context {cfg : Config} {ext : Collaborators}.

Lemma standard_buckets_get (d : bucket_dict) :
  standard_buckets d ->
  exists t1 t2 t3,
    d = [("url:non_resolving", t1); ("url:non_html", t2); ("url:unknown_error", t3)].
Proof.
  unfold standard_buckets.
  destruct d as [|[k1 t1] [|[k2 t2] [|[k3 t3] [|? ?]]]]; try discriminate.
  simpl. intros [= -> -> ->]. exists t1, t2, t3. reflexivity.
Qed.

(** The run of a call that [reaches_fetch] and whose response is not
    declared [text/html] by the test of lines 348-349. *)
Lemma slurp_non_html (net : Net) (proto url : string) (st : State) (c : Caches)
    (f : response) :
  reaches_fetch net url st c ->
  standard_buckets (bad_urls c) ->
  urlopen net (proto +:+ "://" +:+ slurp_url url) = UrlOpened f ->
  not_html (content_type f) = true ->
  exists domain g3 t1 t2 t3,
    bad_urls c = [("url:non_resolving", t1); ("url:non_html", t2);
                  ("url:unknown_error", t3)]
    /\ slurp net proto url st
       = (Return (PyList ["url:non_html"]),
          with_caches
            (Some (mkCaches [("url:non_resolving", t1);
                             ("url:non_html", t2 ++ [slurp_url url]);
                             ("url:unknown_error", t3)]
                            (http_error_urls c)))
            (with_trace (EvUrlopen (proto +:+ "://" +:+ slurp_url url)
                         :: EvGetaddrinfo domain (port_of g3) :: trace st) st)).
Proof.
  intros Hreach Hstd Hopen Hct.
  destruct (slurp_to_fetch net proto url st c Hreach) as (domain & g3 & _ & _ & Heq).
  destruct (standard_buckets_get _ Hstd) as (t1 & t2 & t3 & Hd).
  exists domain, g3, t1, t2, t3. split; [exact Hd|].
  rewrite Heq, (fetch_opened _ _ _ _ _ f Hopen), Hct.
  erewrite run_bind_return.
  2:{ apply run_bucket_add with (c := c) (t := t2).
      - apply Hreach.
      - rewrite Hd. reflexivity. }
  rewrite Hd. reflexivity.
Qed.

(** C6.  After a successful connection the fetched content is accepted
    (its body read, the document stored in the content cache) only if the
    declared content type matches [text/html] as a case-insensitive
    prefix; a response whose declared type does not match, a missing
    type included, yields [["url:non_html"]] and puts the URL in the
    [url:non_html] bucket, with nothing read and nothing stored. *)
Theorem content_accepted_only_if_html
    (net : Net) (proto url : string) (st : State) (c : Caches) (f : response) :
  reaches_fetch net url st c ->
  standard_buckets (bad_urls c) ->
  urlopen net (proto +:+ "://" +:+ slurp_url url) = UrlOpened f ->
  let st' := snd (slurp net proto url st) in
  (html_ci (content_type f) = false ->
     fst (slurp net proto url st) = Return (PyList ["url:non_html"])
     /\ (exists c', caches st' = Some c'
                    /\ in_bucket c' "url:non_html" (slurp_url url))
     /\ urlCorpus st' = urlCorpus st
     /\ ~ In EvRead (new_events st st'))
  /\ (In EvRead (new_events st st') \/ urlCorpus st' <> urlCorpus st ->
      html_ci (content_type f) = true).
Proof.
  intros Hreach Hstd Hopen st'.
  assert (Hrej : html_ci (content_type f) = false ->
     fst (slurp net proto url st) = Return (PyList ["url:non_html"])
     /\ (exists c', caches st' = Some c'
                    /\ in_bucket c' "url:non_html" (slurp_url url))
     /\ urlCorpus st' = urlCorpus st
     /\ ~ In EvRead (new_events st st')).
  { intros Hci. apply not_html_of_not_html_ci in Hci.
    destruct (slurp_non_html net proto url st c f Hreach Hstd Hopen Hci)
      as (domain & g3 & t1 & t2 & t3 & Hd & Hrun).
    subst st'. rewrite Hrun. cbn [fst snd].
    split; [reflexivity|]. split.
    { eexists. split; [reflexivity|].
      exists (t2 ++ [slurp_url url]). split; [reflexivity|].
      rewrite in_tuple_app, String.eqb_refl. apply orb_true_r. }
    split; [reflexivity|].
    erewrite (new_events_app
               [EvUrlopen (proto +:+ "://" +:+ slurp_url url);
                EvGetaddrinfo domain (port_of g3)] st) by reflexivity.
    simpl. intros [H|[H|[]]]; discriminate. }
  split; [exact Hrej|].
  intros Hacc. destruct (html_ci (content_type f)) eqn:Hci; [reflexivity|].
  destruct (Hrej eq_refl) as (_ & _ & Hcorpus & Hread).
  destruct Hacc as [H|H]; [contradiction | congruence].
Qed.

(** Conversely a response that passes the test of lines 348-349 has its
    body read. *)
Lemma html_content_is_read
    (net : Net) (proto url : string) (st : State) (c : Caches) (f : response) :
  reaches_fetch net url st c ->
  urlopen net (proto +:+ "://" +:+ slurp_url url) = UrlOpened f ->
  not_html (content_type f) = false ->
  In EvRead (new_events st (snd (slurp net proto url st))).
Proof.
  intros Hreach Hopen Hct.
  destruct (slurp_to_fetch net proto url st c Hreach) as (domain & g3 & _ & _ & Heq).
  rewrite Heq, (fetch_opened _ _ _ _ _ f Hopen), Hct.
  unfold bind at 1. unfold emit at 1, modify at 1.
  erewrite (new_events_app
              [EvRead; EvUrlopen (proto +:+ "://" +:+ slurp_url url);
               EvGetaddrinfo domain (port_of g3)] st).
  - left; reflexivity.
  - destruct (read f) as [page| |e]; [|reflexivity|reflexivity].
    rewrite (keeps_store trace trace_with_urlCorpus). reflexivity.
Qed.

(** A failed read returns [[]] when it is a [socket.error], which line
    356 handles, and leaves [slurp] as the exception otherwise; in both
    cases the state has gained the events and nothing else. *)
Lemma slurp_read_failure
    (net : Net) (proto url : string) (st : State) (c : Caches) (f : response) :
  reaches_fetch net url st c ->
  urlopen net (proto +:+ "://" +:+ slurp_url url) = UrlOpened f ->
  not_html (content_type f) = false ->
  (forall page, read f <> ReadData page) ->
  exists domain g3,
    DOMAIN_AND_PORT_RE_match (slurp_url url) = Some (domain, g3)
    /\ slurp net proto url st
       = (match read f with
          | ReadRaises e => Raise e
          | _ => Return (PyList [])
          end,
          with_trace (EvRead
                      :: EvUrlopen (proto +:+ "://" +:+ slurp_url url)
                      :: EvGetaddrinfo domain (port_of g3) :: trace st) st).
Proof.
  intros Hreach Hopen Hct Hfail.
  destruct (slurp_to_fetch net proto url st c Hreach)
    as (domain & g3 & Hre & _ & Heq).
  exists domain, g3. split; [exact Hre|].
  rewrite Heq, (fetch_opened _ _ _ _ _ f Hopen), Hct.
  unfold bind at 1. unfold emit at 1, modify at 1.
  destruct (read f) as [page| |e]; [|reflexivity|reflexivity].
  exfalso. exact (Hfail page eq_refl).
Qed.


(** An exception of [f.read()] that is no [socket.error] is not handled
    on line 356 and leaves [slurp]. *)
Lemma read_exception_leaves_slurp
    (net : Net) (proto url : string) (st : State) (c : Caches) (f : response)
    (e : exn) :
  reaches_fetch net url st c ->
  urlopen net (proto +:+ "://" +:+ slurp_url url) = UrlOpened f ->
  not_html (content_type f) = false ->
  read f = ReadRaises e ->
  fst (slurp net proto url st) = Raise e.
Proof.
  intros Hreach Hopen Hct Hread.
  assert (Hfail : forall page, read f <> ReadData page) by (intros page; congruence).
  destruct (slurp_read_failure net proto url st c f Hreach Hopen Hct Hfail)
    as (domain & g3 & _ & Hrun).
  rewrite Hrun, Hread. reflexivity.
Qed.

End FetchOutcome.

(** ** The extractor *)

Section Extractor.

Context {ext : Collaborators}.

Lemma tokenize_keeps_state (m : string * string) (st : State) :
  snd (tokenize m st) = st.
Proof.
  unfold tokenize. destruct m as [proto guts].
  destruct (negb (String.eqb proto "http")); [reflexivity|].
  destruct (String.eqb guts ""); reflexivity.
Qed.

Lemma scan_keeps_state (ms : list (string * string)) (st : State) :
  snd (URLStripper_scan tokenize ms st) = st.
Proof.
  induction ms as [|m ms IH]; simpl; [reflexivity|].
  unfold bind at 1.
  pose proof (tokenize_keeps_state m st) as Hm.
  destruct (tokenize m st) as [[ts|e] st1]; simpl in Hm; subst st1; [|reflexivity].
  unfold bind at 1.
  destruct (URLStripper_scan tokenize ms st) as [[rest|e] st2]; simpl in IH; subst st2;
    reflexivity.
Qed.

(** [analyze] never writes the module global (nor anything else of the
    state): the names assigned on lines 102 and 121 are locals. *)
Lemma analyze_keeps_state (text : string) (st : State) :
  snd (analyze text st) = st.
Proof.
  unfold analyze, URLStripper_analyze. unfold bind at 1.
  pose proof (scan_keeps_state (url_matches text) st) as H.
  destruct (URLStripper_scan tokenize (url_matches text) st) as [[ts|e] st1];
    simpl in H; subst st1; reflexivity.
Qed.

End Extractor.

(** ** The controller *)

Section Controller.

Context {cfg : Config} {ext : Collaborators}.

Lemma augment_condition_false (prob : float) (clues : list (string * float))
    (st : State) :
  (MAX_DISCRIMINATORS <= Z.of_nat (length clues))%Z
  \/ PrimFloat.ltb HAM_CUTOFF prob = false
  \/ PrimFloat.ltb prob SPAM_CUTOFF = false
  \/ slurp_wordstream st = None ->
  augment_condition prob clues st = false.
Proof.
  unfold augment_condition, pending.
  intros [H|[H|[H|H]]].
  - apply Z.ltb_ge in H. rewrite H. reflexivity.
  - rewrite H. rewrite andb_false_r. reflexivity.
  - rewrite H. rewrite andb_false_r. reflexivity.
  - rewrite H. apply andb_false_r.
Qed.

Lemma augment_condition_true (prob : float) (clues : list (string * float))
    (st : State) :
  augment_condition prob clues st = true ->
  (Z.of_nat (length clues) < MAX_DISCRIMINATORS)%Z
  /\ PrimFloat.ltb HAM_CUTOFF prob = true
  /\ PrimFloat.ltb prob SPAM_CUTOFF = true
  /\ slurp_wordstream st <> None.
Proof.
  unfold augment_condition, pending. intros H.
  apply andb_prop in H as [H Hp]. apply andb_prop in H as [H Hs].
  apply andb_prop in H as [Hl Hh]. apply Z.ltb_lt in Hl.
  repeat split; try assumption.
  destruct (slurp_wordstream st); [discriminate | discriminate].
Qed.

(** C2.  [spamprob] attempts augmentation only when the base score has
    fewer than [MAX_DISCRIMINATORS] clues, the base probability is
    strictly between the two cutoffs and a pending reference exists: when
    one of these fails, the call returns the base score and leaves the
    state as it was, so that no setup, address lookup or request takes
    place. *)
Theorem no_augmentation_outside_condition
    (net : Net) (wordstream : list string) (evidence : bool) (st : State) :
  (MAX_DISCRIMINATORS <= Z.of_nat (length (base_clues wordstream)))%Z
  \/ PrimFloat.ltb HAM_CUTOFF (base_prob wordstream) = false
  \/ PrimFloat.ltb (base_prob wordstream) SPAM_CUTOFF = false
  \/ slurp_wordstream st = None ->
  spamprob net wordstream evidence st
    = (Return (report evidence (base_prob wordstream) (base_clues wordstream)), st)
  /\ new_events st (snd (spamprob net wordstream evidence st)) = [].
Proof.
  intros H. apply augment_condition_false in H.
  assert (Hrun : spamprob net wordstream evidence st
    = (Return (report evidence (base_prob wordstream) (base_clues wordstream)), st)).
  { unfold spamprob, base_prob, base_clues in *.
    destruct (Classifier_spamprob wordstream) as [prob clues]. simpl in H.
    unfold bind at 1. unfold get at 1. rewrite H.
    unfold bind, ret. simpl. destruct evidence; reflexivity. }
  split; [exact Hrun|]. rewrite Hrun. apply new_events_same.
Qed.

(** The augmented run, once [_generate_slurp] has returned. *)
Lemma spamprob_augmented
    (net : Net) (wordstream : list string) (evidence : bool) (st st1 : State)
    (generated : slurp_value) :
  augment_condition (base_prob wordstream) (base_clues wordstream) st = true ->
  _generate_slurp net st = (Return generated, st1) ->
  spamprob net wordstream evidence st
  = (Return
       (if decisive (fst (rescored generated wordstream))
        then report evidence (fst (rescored generated wordstream))
                    (snd (rescored generated wordstream))
        else report evidence (base_prob wordstream) (base_clues wordstream)),
     st1).
Proof.
  intros Hcond Hgen. unfold spamprob, rescored, base_prob, base_clues in *.
  destruct (Classifier_spamprob wordstream) as [prob clues]. simpl in *.
  unfold bind at 1. unfold get at 1. rewrite Hcond.
  unfold bind at 1. unfold bind at 1. rewrite Hgen.
  destruct (Classifier_spamprob (py_list generated ++ map fst clues))
    as [sprob sclues]. simpl.
  destruct (decisive sprob); unfold ret; destruct evidence; reflexivity.
Qed.

(** An exception of the retrieval leaves [spamprob] through line 142. *)
Lemma spamprob_augmentation_raises
    (net : Net) (wordstream : list string) (evidence : bool) (st st1 : State)
    (e : exn) :
  augment_condition (base_prob wordstream) (base_clues wordstream) st = true ->
  _generate_slurp net st = (Raise e, st1) ->
  spamprob net wordstream evidence st = (Raise e, st1).
Proof.
  intros Hcond Hgen. unfold spamprob, base_prob, base_clues in *.
  destruct (Classifier_spamprob wordstream) as [prob clues]. simpl in *.
  unfold bind at 1. unfold get at 1. rewrite Hcond.
  unfold bind at 1. unfold bind at 1. rewrite Hgen. reflexivity.
Qed.

(** Once the retrieval has returned its tokens, [spamprob] reports the
    re-scored probability and clues when the second score is strictly
    below the ham cutoff or strictly above the spam cutoff, and otherwise
    the base probability and the base clues, unchanged (lines 145-147). *)
Lemma rescored_only_if_decisive
    (net : Net) (wordstream : list string) (evidence : bool) (st st1 : State)
    (generated : slurp_value) :
  augment_condition (base_prob wordstream) (base_clues wordstream) st = true ->
  _generate_slurp net st = (Return generated, st1) ->
  let sprob := fst (rescored generated wordstream) in
  let sclues := snd (rescored generated wordstream) in
  (PrimFloat.ltb sprob HAM_CUTOFF = true \/ PrimFloat.ltb SPAM_CUTOFF sprob = true ->
   spamprob net wordstream evidence st
   = (Return (report evidence sprob sclues), st1))
  /\ (PrimFloat.ltb sprob HAM_CUTOFF = false
      /\ PrimFloat.ltb SPAM_CUTOFF sprob = false ->
      spamprob net wordstream evidence st
      = (Return (report evidence (base_prob wordstream) (base_clues wordstream)),
         st1)).
Proof.
  intros Hcond Hgen sprob sclues.
  rewrite (spamprob_augmented net wordstream evidence st st1 generated Hcond Hgen).
  fold sprob sclues. unfold decisive.
  split.
  - intros [H|H]; rewrite H; [reflexivity | rewrite orb_true_r; reflexivity].
  - intros [H1 H2]. rewrite H1, H2. reflexivity.
Qed.

End Controller.

(** ** Runs of the model on concrete inputs *)

Section Runs.

#[local] Existing Instance demo_config.
#[local] Existing Instance demo_collaborators.

(** The two examples of the specification: base probability 0.6 on three
    clues with cutoffs 0.2 and 0.9; a re-score of 0.95 is adopted, a
    re-score of 0.5 is not. *)
Example rescored_decisive_is_adopted :
  fst (spamprob (failing_net "HTTP Error 404: Not Found") ["x"] true pending_state)
  = Return (ProbClues 0x1.e666666666666p-1%float
                      [("url:http_404", 0x1.fae147ae147aep-1%float)]).
Proof. vm_compute. reflexivity. Qed.

Example rescored_inconclusive_is_dropped :
  fst (spamprob dead_net ["x"] true pending_state)
  = Return (ProbClues 0x1.3333333333333p-1%float
                      [("a", 0.5%float); ("b", 0.75%float); ("c", 0.5%float)]).
Proof. vm_compute. reflexivity. Qed.

(** A page that is fetched and stored never yields tokens: line 376 reads
    a local that is not bound yet. *)
Example fetched_page_raises :
  fst (slurp (serving_net
                (mkResponse (Some "text/html") (ReadData (PyText "<html></html>"))
                            "Content-Type: text/html"))
             "http" "example.com/a" ready_state)
  = Raise (UnboundLocalError "BASIC_HEADER_TOKENIZE").
Proof. vm_compute. reflexivity. Qed.

(** The content-type test is case-sensitive: [Text/HTML] matches
    [text/html] without regard to case and is still answered with
    [url:non_html]. *)
Example uppercase_html_is_rejected :
  html_ci (content_type shouting_html_response) = true
  /\ fst (slurp (serving_net shouting_html_response) "http" "example.com/a" ready_state)
     = Return (PyList ["url:non_html"]).
Proof. split; vm_compute; reflexivity. Qed.

(** A URL that ends in [.jpg] is answered without a request and put
    in the [url:non_html] bucket. *)
Example jpg_is_not_fetched :
  fst (slurp (serving_net png_response) "http" "example.com/a.jpg" ready_state)
  = Return (PyList ["url:non_html"])
  /\ trace (snd (slurp (serving_net png_response) "http" "example.com/a.jpg"
                       ready_state))
     = [EvGetaddrinfo "example.com" (PortInt 80)]
  /\ (bad_urls <$> caches (snd (slurp (serving_net png_response) "http"
                                     "example.com/a.jpg" ready_state)))
     = Some [("url:non_resolving", []); ("url:non_html", ["example.com/a.jpg"]);
             ("url:unknown_error", [])].
Proof. repeat split; vm_compute; reflexivity. Qed.

Example trim_guts_punctuation : trim_guts "example.com/a?b=1)." = "example.com/a?b=1".
Proof. reflexivity. Qed.

(** C3.  The scan of a text that holds an http link leaves the module
    global [slurp_wordstream] at [None]: the extractor finds the link,
    trims it, and binds the pair to a local name only. *)
Theorem analyze_does_not_record_link :
  url_matches "see http://example.com/a." = [("http", "example.com/a.")]
  /\ trim_guts "example.com/a." = "example.com/a"
  /\ fst (analyze "see http://example.com/a." ready_state)
     = Return ("see http://example.com/a.", ["proto:http"])
  /\ slurp_wordstream ready_state = None
  /\ slurp_wordstream (snd (analyze "see http://example.com/a." ready_state)) = None.
Proof. repeat split; vm_compute; reflexivity. Qed.

(** C4.  A request that fails, with an HTTP status or otherwise, leaves
    the default timeout of the socket module at five seconds although it
    was [None] before the call. *)
Theorem failed_request_leaves_timeout_at_five :
  default_timeout ready_state = None
  /\ fst (slurp (failing_net "HTTP Error 404: Not Found") "http" "example.com/a"
                ready_state)
     = Return (PyList ["url:http_404"])
  /\ default_timeout
       (snd (slurp (failing_net "HTTP Error 404: Not Found") "http" "example.com/a"
                   ready_state))
     = Some 5%float
  /\ fst (slurp (failing_net "<urlopen error timed out>") "http" "example.com/a"
                ready_state)
     = Return (PyList ["url:unknown_error"])
  /\ default_timeout
       (snd (slurp (failing_net "<urlopen error timed out>") "http" "example.com/a"
                   ready_state))
     = Some 5%float.
Proof. repeat split; vm_compute; reflexivity. Qed.

(** C5.  The call that meets a 404 returns the list [["url:http_404"]]
    and records the token; the next call for the same URL returns the
    recorded string itself, which [list(...)] on line 142 turns into
    twelve one-character tokens. *)
Theorem status_hit_returns_bare_string :
  fst (slurp (failing_net "HTTP Error 404: Not Found") "http" "example.com/a"
             ready_state)
  = Return (PyList ["url:http_404"])
  /\ fst (slurp dead_net "http" "example.com/a"
            (snd (slurp (failing_net "HTTP Error 404: Not Found") "http"
                        "example.com/a" ready_state)))
     = Return (PyStr "url:http_404")
  /\ py_list (PyStr "url:http_404")
     = ["u"; "r"; "l"; ":"; "h"; "t"; "t"; "p"; "_"; "4"; "0"; "4"].
Proof. repeat split; vm_compute; reflexivity. Qed.

End Runs.

(** ** The theorems at concrete inputs *)

Section Witnesses.

#[local] Existing Instance demo_config.
#[local] Existing Instance demo_collaborators.

Lemma ready_state_reaches_fetch (f : response) :
  reaches_fetch (serving_net f) "example.com/a" ready_state
                (mkCaches fresh_bad_urls ∅).
Proof.
  unfold reaches_fetch.
  split; [discriminate|]. split; [reflexivity|]. split; [reflexivity|].
  split; [reflexivity|]. split; [|split; reflexivity].
  exists "example.com", None. split; reflexivity.
Defined.

(** The second example of the specification where the retrieval gives a
    cache token: a re-score of 0.5 lies between the cutoffs and the base
    score is reported. *)
Example rescored_one_half_is_dropped :
  augment_condition (base_prob ["x"]) (base_clues ["x"]) pending_state = true
  /\ _generate_slurp dead_net pending_state
     = (Return (PyList ["url:non_resolving"]),
        snd (_generate_slurp dead_net pending_state))
  /\ fst (rescored (PyList ["url:non_resolving"]) ["x"]) = 0.5%float
  /\ spamprob dead_net ["x"] true pending_state
     = (Return (report true (base_prob ["x"]) (base_clues ["x"])),
        snd (_generate_slurp dead_net pending_state)).
Proof.
  assert (H1 : augment_condition (base_prob ["x"]) (base_clues ["x"]) pending_state
               = true) by (vm_compute; reflexivity).
  assert (H2 : _generate_slurp dead_net pending_state
               = (Return (PyList ["url:non_resolving"]),
                  snd (_generate_slurp dead_net pending_state)))
    by (vm_compute; reflexivity).
  split; [exact H1|]. split; [exact H2|]. split; [reflexivity|].
  apply (proj2 (rescored_only_if_decisive dead_net ["x"] true pending_state
                  _ _ H1 H2)).
  split; vm_compute; reflexivity.
Qed.

(** A second score that equals a cutoff is not decisive: the comparisons
    of line 145 are strict. *)
Example score_on_a_cutoff_is_not_decisive :
  decisive HAM_CUTOFF = false /\ decisive SPAM_CUTOFF = false.
Proof. split; vm_compute; reflexivity. Qed.

Lemma no_augmentation_outside_condition_witness :
  slurp_wordstream ready_state = None
  /\ spamprob dead_net ["x"] true ready_state
     = (Return (report true (base_prob ["x"]) (base_clues ["x"])), ready_state)
  /\ new_events ready_state (snd (spamprob dead_net ["x"] true ready_state)) = [].
Proof.
  split; [reflexivity|].
  apply (no_augmentation_outside_condition dead_net ["x"] true ready_state).
  right. right. right. reflexivity.
Defined.

Lemma content_accepted_only_if_html_witness :
  reaches_fetch (serving_net png_response) "example.com/a" ready_state
                (mkCaches fresh_bad_urls ∅)
  /\ standard_buckets fresh_bad_urls
  /\ urlopen (serving_net png_response) ("http" +:+ "://" +:+ slurp_url "example.com/a")
     = UrlOpened png_response
  /\ html_ci (content_type png_response) = false
  /\ fst (slurp (serving_net png_response) "http" "example.com/a" ready_state)
     = Return (PyList ["url:non_html"]).
Proof.
  split; [apply ready_state_reaches_fetch|].
  split; [reflexivity|]. split; [reflexivity|]. split; [reflexivity|].
  apply (proj1 (content_accepted_only_if_html (serving_net png_response) "http"
                  "example.com/a" ready_state (mkCaches fresh_bad_urls ∅) png_response
                  (ready_state_reaches_fetch png_response) eq_refl eq_refl)).
  reflexivity.
Defined.

Lemma non_resolving_served_without_network_witness :
  caches recorded_state = Some recorded_caches
  /\ standard_buckets (bad_urls recorded_caches)
  /\ in_bucket recorded_caches "url:non_resolving" (slurp_url "example.com")
  /\ slurp (serving_net png_response) "http" "example.com"
           (slurp_calls [(failing_net "HTTP Error 404: Not Found", "http", "other.org/x")]
                        recorded_state)
     = (Return (PyList ["url:non_resolving"]),
        slurp_calls [(failing_net "HTTP Error 404: Not Found", "http", "other.org/x")]
                    recorded_state).
Proof.
  assert (H3 : in_bucket recorded_caches "url:non_resolving" (slurp_url "example.com")).
  { exists ["example.com"]. split; reflexivity. }
  split; [reflexivity|]. split; [reflexivity|]. split; [exact H3|].
  exact (proj1 (non_resolving_served_without_network (serving_net png_response)
                  "http" "example.com" recorded_state recorded_caches
                  [(failing_net "HTTP Error 404: Not Found", "http", "other.org/x")]
                  eq_refl eq_refl H3)).
Defined.



Lemma slurp_negative_hit_keeps_state_witness :
  caches recorded_state = Some recorded_caches
  /\ negative_hit recorded_caches (slurp_url "example.com")
  /\ snd (slurp (serving_net png_response) "http" "example.com" recorded_state)
     = recorded_state.
Proof.
  assert (H2 : negative_hit recorded_caches (slurp_url "example.com")).
  { left. exists "url:non_resolving", ["example.com"]. split; reflexivity. }
  split; [reflexivity|]. split; [exact H2|].
  exact (slurp_negative_hit_keeps_state (serving_net png_response) "http"
           "example.com" recorded_state recorded_caches eq_refl H2).
Defined.

End Witnesses.
(** * Further properties of the module *)

(** ** Strings and the three regular expressions *)

Lemma append_cons (a : ascii) (x y : string) :
  String a x +:+ y = String a (x +:+ y).
Proof. reflexivity. Qed.

Lemma append_nil_l (s : string) : "" +:+ s = s.
Proof. reflexivity. Qed.

Lemma append_nil_r (s : string) : s +:+ "" = s.
Proof.
  induction s as [|a s IH]; [reflexivity|].
  change (String a s +:+ "") with (String a (s +:+ "")). rewrite IH. reflexivity.
Qed.

Lemma append_assoc (a b c : string) : (a +:+ b) +:+ c = a +:+ (b +:+ c).
Proof.
  induction a as [|x a IH]; [reflexivity|].
  change ((String x a +:+ b) +:+ c) with (String x ((a +:+ b) +:+ c)).
  rewrite IH. reflexivity.
Qed.

Lemma all_chars_app (p : ascii -> bool) (a b : string) :
  all_chars p (a +:+ b) = all_chars p a && all_chars p b.
Proof.
  induction a as [|x a IH]; simpl; [reflexivity|].
  rewrite IH, andb_assoc. reflexivity.
Qed.

Lemma span_spec (p : ascii -> bool) (s : string) :
  s = fst (PyStr.span p s) +:+ snd (PyStr.span p s)
  /\ all_chars p (fst (PyStr.span p s)) = true
  /\ match snd (PyStr.span p s) with
     | EmptyString => True
     | String a _ => p a = false
     end.
Proof.
  induction s as [|a s (IH1 & IH2 & IH3)]; simpl; [auto|].
  destruct (p a) eqn:Hp.
  - destruct (PyStr.span p s) as [x y]. simpl in *.
    rewrite Hp, IH2, append_cons. split; [f_equal; exact IH1 | auto].
  - simpl. auto.
Qed.

Lemma startswith_app (p s : string) :
  PyStr.startswith p s = true -> s = p +:+ PyStr.drop (String.length p) s.
Proof.
  revert s. induction p as [|a p IH]; intros s; simpl; [reflexivity|].
  destruct s as [|b s]; [discriminate|].
  intros H. apply andb_prop in H as [Hab Hps].
  apply Ascii.eqb_eq in Hab. subst b. rewrite append_cons. f_equal.
  apply IH. exact Hps.
Qed.

Lemma startswith_of_app (p s : string) : PyStr.startswith p (p +:+ s) = true.
Proof.
  induction p as [|a p IH]; simpl; [reflexivity|].
  rewrite Ascii.eqb_refl. exact IH.
Qed.



(** A word-only URL is its own key. *)
Lemma url_key_of_word (url : string) :
  all_chars PyStr.is_word url = true -> URL_KEY_RE_sub url = url.
Proof.
  unfold URL_KEY_RE_sub.
  induction url as [|a url IH]; simpl; [reflexivity|].
  intros H. apply andb_prop in H as [Ha Hu]. rewrite Ha, IH; auto.
Qed.

(** X2.  When [DOMAIN_AND_PORT_RE] matches, the domain is the whole run
    of characters other than [:], [/] and [\] at the start of the URL,
    and it is not empty.  When the domain is followed by [:] and at least
    one digit, group 3 is the whole run of digits found there and the port
    is that run, as a string; in every other case group 3 is missing and
    the port is [80].  The match fails exactly on the empty URL and on a
    URL that starts with [:], [/] or [\]. *)
Theorem domain_and_port_match (url : string) :
  match DOMAIN_AND_PORT_RE_match url with
  | Some (domain, g3) =>
      domain <> EmptyString
      /\ all_chars domain_char domain = true
      /\ (exists rest,
            url = domain +:+ rest
            /\ match rest with
               | EmptyString => True
               | String a _ => domain_char a = false
               end
            /\ match g3 with
               | Some digits =>
                   digits <> EmptyString
                   /\ all_chars PyStr.is_digit digits = true
                   /\ (exists rest',
                         rest = String ":" (digits +:+ rest')
                         /\ match rest' with
                            | EmptyString => True
                            | String a _ => PyStr.is_digit a = false
                            end)
                   /\ port_of g3 = PortStr digits
               | None =>
                   (forall d rest', PyStr.is_digit d = true ->
                                    rest <> String ":" (String d rest'))
                   /\ port_of g3 = PortInt 80
               end)
  | None =>
      url = EmptyString
      \/ (exists a rest, url = String a rest /\ domain_char a = false)
  end.
Proof.
  unfold DOMAIN_AND_PORT_RE_match.
  destruct (span_spec domain_char url) as (Hsplit & Hall & Hnext).
  destruct (PyStr.span domain_char url) as [g1 after]. simpl in *.
  destruct g1 as [|a g1].
  - rewrite append_nil_l in Hsplit. subst after.
    destruct url as [|b url]; [left; reflexivity|].
    right. exists b, url. auto.
  - assert (Hne : String a g1 <> EmptyString) by discriminate.
    destruct after as [|c rest].
    { split; [exact Hne|]. split; [exact Hall|]. exists EmptyString.
      split; [exact Hsplit|]. split; [exact I|]. split; [|reflexivity].
      intros d rest' _. discriminate. }
    destruct (Ascii.eqb_spec c ":"%char) as [->|Hc].
    + destruct (span_spec PyStr.is_digit rest) as (Hs2 & Hall2 & Hnext2).
      destruct (PyStr.span PyStr.is_digit rest) as [g3 after2]. simpl in *.
      destruct g3 as [|d g3].
      * split; [exact Hne|]. split; [exact Hall|]. eexists.
        split; [exact Hsplit|]. split; [exact Hnext|]. split; [|reflexivity].
        intros d rest' Hd Heq. rewrite append_nil_l in Hs2. subst after2.
        injection Heq as Heq. subst rest. simpl in Hnext2. congruence.
      * split; [exact Hne|]. split; [exact Hall|]. eexists.
        split; [exact Hsplit|]. split; [exact Hnext|].
        split; [discriminate|]. split; [exact Hall2|].
        split; [|reflexivity]. exists after2. split; [|exact Hnext2].
        f_equal. exact Hs2.
    + assert (Hgoal : String a g1 <> EmptyString
                /\ all_chars domain_char (String a g1) = true
                /\ (exists rest0,
                      url = String a g1 +:+ rest0
                      /\ match rest0 with
                         | EmptyString => True
                         | String a0 _ => domain_char a0 = false
                         end
                      /\ (forall d rest', PyStr.is_digit d = true ->
                                          rest0 <> String ":" (String d rest'))
                      /\ port_of None = PortInt 80)).
      { split; [exact Hne|]. split; [exact Hall|]. eexists.
        split; [exact Hsplit|]. split; [exact Hnext|]. split; [|reflexivity].
        intros d rest' _ Heq. injection Heq as Heq _. contradiction. }
      destruct c as [[] [] [] [] [] [] [] []]; try exact Hgoal.
      exfalso. apply Hc. reflexivity.
Qed.

(** The port of [example.com:8080/x] is the string [8080]; a colon that
    no digit follows gives no port. *)
Example port_is_extracted :
  DOMAIN_AND_PORT_RE_match "example.com:8080/x" = Some ("example.com", Some "8080")
  /\ DOMAIN_AND_PORT_RE_match "example.com:/x" = Some ("example.com", None)
  /\ DOMAIN_AND_PORT_RE_match "example.com/x:8080" = Some ("example.com", None).
Proof. repeat split. Qed.

(** X3.  [HTTP_ERROR_RE] matches exactly the texts that read
    [HTTP Error ] followed by at least one digit, and group 1 is the whole
    run of digits found there. *)
Theorem http_error_match (details : string) :
  match HTTP_ERROR_RE_match details with
  | Some code =>
      code <> EmptyString
      /\ all_chars PyStr.is_digit code = true
      /\ exists rest,
           details = "HTTP Error " +:+ code +:+ rest
           /\ match rest with
              | EmptyString => True
              | String a _ => PyStr.is_digit a = false
              end
  | None =>
      forall a rest, PyStr.is_digit a = true ->
                     details <> "HTTP Error " +:+ String a rest
  end.
Proof.
  unfold HTTP_ERROR_RE_match.
  destruct (PyStr.startswith "HTTP Error " details) eqn:Hstart.
  - apply startswith_app in Hstart.
    change (String.length "HTTP Error ") with 11 in Hstart.
    destruct (span_spec PyStr.is_digit (PyStr.drop 11 details)) as (Hs & Hall & Hnext).
    destruct (PyStr.span PyStr.is_digit (PyStr.drop 11 details)) as [code rest].
    simpl in Hs, Hall, Hnext.
    destruct code as [|d code].
    + intros a rest' Ha Heq. rewrite append_nil_l, Heq in Hs.
      change (PyStr.drop 11 ("HTTP Error " +:+ String a rest'))
        with (String a rest') in Hs.
      subst rest. simpl in Hnext. congruence.
    + split; [discriminate|]. split; [exact Hall|]. exists rest.
      split; [|exact Hnext]. rewrite <- Hs. exact Hstart.
  - intros a rest _ Heq. rewrite Heq in Hstart.
    rewrite startswith_of_app in Hstart. discriminate.
Qed.

(** ** [_base_url] (lines 391-406) *)

Lemma join_app (c : ascii) (l1 l2 : list string) :
  l1 <> [] -> l2 <> [] ->
  py_join c (l1 ++ l2) = py_join c l1 +:+ String c (py_join c l2).
Proof.
  induction l1 as [|a l1 IH]; intros H1 H2; [contradiction|].
  destruct l1 as [|b l1].
  - destruct l2 as [|x l2]; [contradiction | reflexivity].
  - change (py_join c ((a :: b :: l1) ++ l2))
      with (a +:+ String c (py_join c ((b :: l1) ++ l2))).
    rewrite IH by (discriminate || assumption).
    change (py_join c (a :: b :: l1)) with (a +:+ String c (py_join c (b :: l1))).
    rewrite append_assoc, append_cons. reflexivity.
Qed.

Lemma split_join (c : ascii) (s : string) : py_join c (PyStr.split c s) = s.
Proof.
  induction s as [|a s IH]; [reflexivity|].
  simpl PyStr.split. pose proof (split_not_nil c s) as Hne.
  destruct (Ascii.eqb_spec a c) as [->|Hac].
  - destruct (PyStr.split c s) as [|p ps]; [contradiction|].
    change (py_join c ("" :: p :: ps)) with ("" +:+ String c (py_join c (p :: ps))).
    rewrite IH. reflexivity.
  - destruct (PyStr.split c s) as [|p ps]; [contradiction|].
    destruct ps as [|q ps].
    + simpl in *. rewrite IH. reflexivity.
    + change (py_join c (String a p :: q :: ps))
        with (String a (p +:+ String c (py_join c (q :: ps)))).
      change (py_join c (p :: q :: ps)) with (p +:+ String c (py_join c (q :: ps))) in IH.
      rewrite IH. reflexivity.
Qed.

Lemma before_fixed (c : ascii) (s : string) :
  PyStr.occurs c s = false -> PyStr.before c s = s.
Proof.
  induction s as [|a s IH]; simpl; [reflexivity|].
  destruct (Ascii.eqb a c); [discriminate|]. intros H. rewrite IH; auto.
Qed.

(** X4.  [_base_url] looks at nothing after the first slash: it gives
    the same result on a URL and on the part of it before that slash. *)
Theorem base_url_ignores_path (url : string) :
  _base_url url = _base_url (PyStr.before "/" url).
Proof.
  unfold _base_url.
  rewrite base_url_domain.
  rewrite (base_url_domain_free (PyStr.before "/" url)) by apply occurs_before.
  reflexivity.
Qed.

Lemma base_url_labels (url : string) :
  PyStr.occurs "/" (_base_url url) = false
  /\ length (PyStr.split "." (_base_url url)) <= 3.
Proof.
  destruct (base_url_cases url)
    as [[Hslash Hlabels]|(x & y & z & -> & (Sx & Sy & Sz) & (Dx & Dy & Dz) & Hlen)].
  - split; [exact Hslash | lia].
  - change (x +:+ "." +:+ y +:+ "." +:+ z) with (x +:+ String "." (y +:+ String "." z)).
    split.
    + rewrite occurs_app, Sx. simpl. rewrite occurs_app, Sy. simpl. exact Sz.
    + rewrite split_app_sep by assumption. rewrite split_app_sep by assumption.
      rewrite split_single by assumption. simpl. lia.
Qed.

(** X5.  The result of [_base_url] has no slash and at most three
    labels, and it is the tail of the URL's domain (the text before the
    first slash), cut at a label boundary: either the whole domain, or
    what follows one of its dots. *)
Theorem base_url_is_domain_suffix (url : string) :
  PyStr.occurs "/" (_base_url url) = false
  /\ length (PyStr.split "." (_base_url url)) <= 3
  /\ (PyStr.before "/" url = _base_url url
      \/ exists front,
           PyStr.before "/" url = front +:+ String "." (_base_url url)).
Proof.
  destruct (base_url_labels url) as [Hslash Hlabels].
  split; [exact Hslash|]. split; [exact Hlabels|].
  clear Hslash Hlabels.
  unfold _base_url. rewrite base_url_domain. simpl default.
  set (d := PyStr.before "/" url).
  pose proof (split_join "." d) as Hjoin.
  unfold PyStr.neg_index.
  rewrite <- (length_rev (PyStr.split "." d)).
  rewrite <- (rev_involutive (PyStr.split "." d)) in Hjoin.
  destruct (rev (PyStr.split "." d)) as [|z [|y [|x rest]]].
  - left; reflexivity.
  - left; reflexivity.
  - left; reflexivity.
  - simpl length. change (Nat.ltb 2 (S (S (S (length rest))))) with true.
    cbv iota. cbn [nth_error pred default from_option id].
    simpl rev in Hjoin.
    destruct (Nat.ltb (String.length z) 3).
    + destruct (rev rest) as [|r0 rr] eqn:Er.
      * left. simpl in Hjoin. symmetry. exact Hjoin.
      * right. exists (py_join "." (r0 :: rr)).
        rewrite <- Hjoin.
        replace ((((r0 :: rr) ++ [x]) ++ [y]) ++ [z])
          with ((r0 :: rr) ++ [x; y; z])
          by (rewrite <- !app_assoc; reflexivity).
        rewrite join_app by discriminate. reflexivity.
    + right. exists (py_join "." (rev rest ++ [x])).
      rewrite <- Hjoin.
      replace (((rev rest ++ [x]) ++ [y]) ++ [z])
        with ((rev rest ++ [x]) ++ [y; z])
        by (rewrite <- !app_assoc; reflexivity).
      rewrite join_app; [reflexivity | | discriminate].
      destruct (rev rest); discriminate.
Qed.

(** ** [SlurpingURLStripper.tokenize]: the trimming of lines 118-119 *)

Lemma last_char_none (s : string) : PyStr.last_char s = None -> s = EmptyString.
Proof.
  induction s as [|a s IH]; [reflexivity|].
  simpl. destruct s as [|b s]; [discriminate|]. intros H. apply IH in H. discriminate.
Qed.

Lemma drop_last_snoc (s : string) (c : ascii) :
  PyStr.last_char s = Some c ->
  s = PyStr.drop_last s +:+ String c EmptyString
  /\ S (String.length (PyStr.drop_last s)) = String.length s.
Proof.
  induction s as [|a s IH]; [discriminate|].
  destruct s as [|b s].
  - simpl. intros [= ->]. auto.
  - intros H. change (PyStr.last_char (String a (String b s)))
      with (PyStr.last_char (String b s)) in H.
    destruct (IH H) as [IH1 IH2].
    change (PyStr.drop_last (String a (String b s)))
      with (String a (PyStr.drop_last (String b s))).
    rewrite append_cons. split; [f_equal; exact IH1|].
    simpl String.length in *. lia.
Qed.

Lemma last_char_snoc (s : string) (c : ascii) :
  PyStr.last_char (s +:+ String c EmptyString) = Some c.
Proof.
  induction s as [|a s IH]; [reflexivity|].
  rewrite append_cons.
  destruct s as [|b s]; [reflexivity|].
  rewrite append_cons in *. exact IH.
Qed.

Lemma trim_loop_spec (fuel : nat) (guts : string) :
  String.length guts <= fuel ->
  (exists tail,
      guts = trim_loop fuel guts +:+ tail
      /\ all_chars trailing_punctuation tail = true)
  /\ match PyStr.last_char (trim_loop fuel guts) with
     | Some c => trailing_punctuation c = false
     | None => trim_loop fuel guts = EmptyString
     end.
Proof.
  revert guts. induction fuel as [|n IH]; intros guts Hlen.
  - destruct guts; [|simpl in Hlen; lia]. simpl. split; [|reflexivity].
    exists EmptyString. auto.
  - cbn [trim_loop]. destruct (PyStr.last_char guts) as [c|] eqn:Hlast.
    + change (PyStr.occurs c ".:;?!/)") with (trailing_punctuation c).
      destruct (trailing_punctuation c) eqn:Hc.
      * destruct (drop_last_snoc guts c Hlast) as [Hsnoc Hl].
        destruct (IH (PyStr.drop_last guts)) as [(tail & Ht & Hall) Hend]; [lia|].
        split; [|exact Hend].
        exists (tail +:+ String c EmptyString). split.
        -- rewrite <- append_assoc, <- Ht. exact Hsnoc.
        -- rewrite all_chars_app, Hall. simpl. rewrite Hc. reflexivity.
      * split.
        -- exists EmptyString. rewrite append_nil_r. auto.
        -- rewrite Hlast. exact Hc.
    + split.
      * exists EmptyString. rewrite append_nil_r. auto.
      * rewrite Hlast. apply last_char_none. exact Hlast.
Qed.

(** X6.  The trimming of lines 118-119 removes a run of trailing
    characters of [.:;?!/)] and nothing else: what is left is a prefix
    of the link target, what was cut is made of these characters only,
    what is left is empty or ends in another character, and trimming
    it again changes nothing. *)
Theorem trim_guts_spec (guts : string) :
  (exists tail,
      guts = trim_guts guts +:+ tail
      /\ all_chars trailing_punctuation tail = true)
  /\ match PyStr.last_char (trim_guts guts) with
     | Some c => trailing_punctuation c = false
     | None => trim_guts guts = EmptyString
     end
  /\ trim_guts (trim_guts guts) = trim_guts guts.
Proof.
  destruct (trim_loop_spec (String.length guts) guts (le_n _)) as [Hcut Hend].
  fold (trim_guts guts) in Hcut, Hend.
  split; [exact Hcut|]. split; [exact Hend|].
  unfold trim_guts at 1.
  destruct (String.length (trim_guts guts)) as [|n]; [reflexivity|].
  cbn [trim_loop].
  destruct (PyStr.last_char (trim_guts guts)) as [c|]; [|reflexivity].
  change (PyStr.occurs c ".:;?!/)") with (trailing_punctuation c).
  rewrite Hend. reflexivity.
Qed.

(** ** The paths of [slurp] before the request (lines 279-317) *)

Section SlurpPaths.

Context {cfg : Config} {ext : Collaborators}.

(** Past the negative caches, [slurp] logs the address lookup and goes on
    with lines 299-369. *)
Lemma slurp_after_lookup (net : Net) (proto url domain : string)
    (g3 : option string) (st : State) (c : Caches) :
  misses_negative_caches url st c ->
  DOMAIN_AND_PORT_RE_match (slurp_url url) = Some (domain, g3) ->
  slurp net proto url st
  = (if negb (getaddrinfo net domain (port_of g3)) then
       (bucket_add "url:non_resolving" (slurp_url url) ;;;
        ret (PyList ["url:non_resolving"]))
     else
       (st0 <- get ;;
        match corpus_get (URL_KEY_RE_sub (slurp_url url)) (urlCorpus st0) with
        | None =>
            if skipped_extension (slurp_url url) then
              (bucket_add "url:non_html" (slurp_url url) ;;;
               ret (PyList ["url:non_html"]))
            else slurp_fetch net proto (slurp_url url) (URL_KEY_RE_sub (slurp_url url))
        | Some cached_message => slurp_tokenize cached_message
        end))%py
      (with_events [EvGetaddrinfo domain (port_of g3)] st).
Proof.
  intros (Hne & Hc & Hmiss & Hmap) Hre. unfold slurp.
  destruct (String.eqb_spec url ""); [contradiction|].
  rewrite (run_bind_return _ _ _ _ _ (run_get_caches st c Hc)).
  rewrite Hmiss, Hmap, Hre. reflexivity.
Qed.

Lemma run_add_then_ret (st : State) (c : Caches) (err url : string)
    (v : slurp_value) :
  caches st = Some c ->
  (bucket_add err url ;;; ret v) st
  = match dict_get err (bad_urls c) with
    | Some t => (Return v, with_bucket_entry err t url c st)
    | None => (Raise (KeyError err), st)
    end.
Proof.
  intros Hc. destruct (dict_get err (bad_urls c)) as [t|] eqn:Ht.
  - rewrite (run_bind_return _ _ _ _ _ (run_bucket_add st c err url t Hc Ht)).
    reflexivity.
  - rewrite (run_bind_raise _ _ _ _ _ (run_bucket_add_missing st c err url Hc Ht)).
    reflexivity.
Qed.

(** The run of a call whose address lookup fails. *)
Lemma failed_lookup_run (net : Net) (proto url domain : string)
    (g3 : option string) (st : State) (c : Caches) :
  misses_negative_caches url st c ->
  DOMAIN_AND_PORT_RE_match (slurp_url url) = Some (domain, g3) ->
  getaddrinfo net domain (port_of g3) = false ->
  slurp net proto url st
  = (bucket_add "url:non_resolving" (slurp_url url) ;;;
     ret (PyList ["url:non_resolving"]))
      (with_events [EvGetaddrinfo domain (port_of g3)] st).
Proof.
  intros Hmiss Hre Hdns.
  rewrite (slurp_after_lookup net proto url domain g3 st c Hmiss Hre), Hdns.
  reflexivity.
Qed.

(** X7.  A URL that is in no negative cache and whose domain does not
    resolve costs one address lookup and no request: [slurp] returns
    [["url:non_resolving"]] and appends the URL to that bucket, leaving
    the rest of the state alone; when the loaded bucket dictionary has no
    such key, the [+=] of line 302 raises KeyError instead. *)
Theorem failed_lookup_is_recorded (net : Net) (proto url domain : string)
    (g3 : option string) (st : State) (c : Caches) :
  misses_negative_caches url st c ->
  DOMAIN_AND_PORT_RE_match (slurp_url url) = Some (domain, g3) ->
  getaddrinfo net domain (port_of g3) = false ->
  slurp net proto url st
  = match dict_get "url:non_resolving" (bad_urls c) with
    | Some t =>
        (Return (PyList ["url:non_resolving"]),
         with_bucket_entry "url:non_resolving" t (slurp_url url) c
           (with_events [EvGetaddrinfo domain (port_of g3)] st))
    | None =>
        (Raise (KeyError "url:non_resolving"),
         with_events [EvGetaddrinfo domain (port_of g3)] st)
    end.
Proof.
  intros Hmiss Hre Hdns.
  rewrite (slurp_after_lookup net proto url domain g3 st c Hmiss Hre), Hdns.
  cbn [negb]. apply run_add_then_ret. apply Hmiss.
Qed.

(** X8.  A URL whose text after the last dot is [jpg], [gif], [png],
    [css] or [js], that resolves and has no document in the corpus, is
    answered [["url:non_html"]] and put in that bucket after the address
    lookup alone: no request is made. *)
Theorem skipped_extension_is_not_fetched (net : Net) (proto url domain : string)
    (g3 : option string) (st : State) (c : Caches) :
  misses_negative_caches url st c ->
  DOMAIN_AND_PORT_RE_match (slurp_url url) = Some (domain, g3) ->
  getaddrinfo net domain (port_of g3) = true ->
  corpus_get (URL_KEY_RE_sub (slurp_url url)) (urlCorpus st) = None ->
  skipped_extension (slurp_url url) = true ->
  slurp net proto url st
  = match dict_get "url:non_html" (bad_urls c) with
    | Some t =>
        (Return (PyList ["url:non_html"]),
         with_bucket_entry "url:non_html" t (slurp_url url) c
           (with_events [EvGetaddrinfo domain (port_of g3)] st))
    | None =>
        (Raise (KeyError "url:non_html"),
         with_events [EvGetaddrinfo domain (port_of g3)] st)
    end.
Proof.
  intros Hmiss Hre Hdns Hcorpus Hext.
  rewrite (slurp_after_lookup net proto url domain g3 st c Hmiss Hre), Hdns.
  cbn [negb]. unfold bind at 1. unfold get at 1.
  change (urlCorpus (with_events [EvGetaddrinfo domain (port_of g3)] st))
    with (urlCorpus st).
  rewrite Hcorpus, Hext. apply run_add_then_ret. apply Hmiss.
Qed.

(** X9.  A URL whose document is in the corpus is not requested again,
    but its tokens are never returned either: after the address lookup
    the call raises UnboundLocalError on line 376, with caches and corpus
    as they were. *)
Theorem cached_document_raises (net : Net) (proto url domain document : string)
    (g3 : option string) (st : State) (c : Caches) :
  misses_negative_caches url st c ->
  DOMAIN_AND_PORT_RE_match (slurp_url url) = Some (domain, g3) ->
  getaddrinfo net domain (port_of g3) = true ->
  corpus_get (URL_KEY_RE_sub (slurp_url url)) (urlCorpus st) = Some document ->
  slurp net proto url st
  = (Raise (UnboundLocalError "BASIC_HEADER_TOKENIZE"),
     with_events [EvGetaddrinfo domain (port_of g3)] st).
Proof.
  intros Hmiss Hre Hdns Hcorpus.
  rewrite (slurp_after_lookup net proto url domain g3 st c Hmiss Hre), Hdns.
  cbn [negb]. unfold bind at 1. unfold get at 1.
  change (urlCorpus (with_events [EvGetaddrinfo domain (port_of g3)] st))
    with (urlCorpus st).
  rewrite Hcorpus. reflexivity.
Qed.

(** X10.  A looked-up URL that starts with [:], [/] or [\] (as the
    link [http:///x] gives) and is in no negative cache makes [slurp]
    raise AttributeError on line 294, before any network access and with
    the state unchanged. *)
Theorem malformed_url_raises (net : Net) (proto url rest : string) (a : ascii)
    (st : State) (c : Caches) :
  misses_negative_caches url st c ->
  slurp_url url = String a rest ->
  domain_char a = false ->
  slurp net proto url st = (Raise AttributeError, st).
Proof.
  intros (Hne & Hc & Hmiss & Hmap) Hurl Ha. unfold slurp.
  destruct (String.eqb_spec url ""); [contradiction|].
  rewrite (run_bind_return _ _ _ _ _ (run_get_caches st c Hc)).
  rewrite Hmiss, Hmap, Hurl.
  unfold DOMAIN_AND_PORT_RE_match. cbn [PyStr.span]. rewrite Ha. reflexivity.
Qed.

End SlurpPaths.

(** ** The outcomes of the request (lines 319-369) *)

Section RequestOutcomes.

Context {cfg : Config} {ext : Collaborators}.

(** Past the caches, the lookup, the corpus and the extension test,
    [slurp] is the request. *)
Lemma slurp_at_request (net : Net) (proto url domain : string)
    (g3 : option string) (st : State) (c : Caches) :
  misses_negative_caches url st c ->
  DOMAIN_AND_PORT_RE_match (slurp_url url) = Some (domain, g3) ->
  getaddrinfo net domain (port_of g3) = true ->
  corpus_get (URL_KEY_RE_sub (slurp_url url)) (urlCorpus st) = None ->
  skipped_extension (slurp_url url) = false ->
  slurp net proto url st
  = slurp_fetch net proto (slurp_url url) (URL_KEY_RE_sub (slurp_url url))
      (with_events [EvGetaddrinfo domain (port_of g3)] st).
Proof.
  intros Hmiss Hre Hdns Hcorpus Hext.
  rewrite (slurp_after_lookup net proto url domain g3 st c Hmiss Hre), Hdns.
  cbn [negb]. unfold bind at 1. unfold get at 1.
  change (urlCorpus (with_events [EvGetaddrinfo domain (port_of g3)] st))
    with (urlCorpus st).
  rewrite Hcorpus, Hext. reflexivity.
Qed.

Lemma fetch_failed (net : Net) (proto url url_key details : string) (st : State) :
  urlopen net (proto +:+ "://" +:+ url) = UrlError details ->
  slurp_fetch net proto url url_key st
  = match HTTP_ERROR_RE_match details with
    | Some code =>
        (http_error_set url ("url:http_" +:+ code) ;;;
         ret (PyList ["url:http_" +:+ code]))
    | None =>
        (bucket_add "url:unknown_error" url ;;; ret (PyList ["url:unknown_error"]))
    end%py
      (with_default_timeout (Some 5%float)
         (with_events [EvUrlopen (proto +:+ "://" +:+ url)] st)).
Proof.
  intros Hopen. unfold slurp_fetch.
  unfold bind at 1. unfold get at 1.
  unfold bind at 1. unfold modify at 1.
  unfold bind at 1. unfold emit at 1, modify at 1.
  rewrite Hopen. reflexivity.
Qed.

(** X11.  A page that is fetched with a [text/html] type and a [str]
    body is stored in the corpus under the URL's key, as headers, line
    break and body, and then the call raises UnboundLocalError on line
    376 instead of returning tokens; the default timeout is back to its
    former value. *)
Theorem fetched_page_is_stored_then_raises (net : Net)
    (proto url domain page : string) (g3 : option string) (st : State)
    (c : Caches) (f : response) :
  misses_negative_caches url st c ->
  DOMAIN_AND_PORT_RE_match (slurp_url url) = Some (domain, g3) ->
  getaddrinfo net domain (port_of g3) = true ->
  corpus_get (URL_KEY_RE_sub (slurp_url url)) (urlCorpus st) = None ->
  skipped_extension (slurp_url url) = false ->
  urlopen net (proto +:+ "://" +:+ slurp_url url) = UrlOpened f ->
  not_html (content_type f) = false ->
  read f = ReadData (PyText page) ->
  slurp net proto url st
  = (Raise (UnboundLocalError "BASIC_HEADER_TOKENIZE"),
     with_urlCorpus
       (<[URL_KEY_RE_sub (slurp_url url) := info_str f +:+ CRLF +:+ page]>
          (urlCorpus st))
       (with_events [EvRead; EvUrlopen (proto +:+ "://" +:+ slurp_url url);
                     EvGetaddrinfo domain (port_of g3)] st)).
Proof.
  intros Hmiss Hre Hdns Hcorpus Hext Hopen Hct Hread.
  rewrite (slurp_at_request net proto url domain g3 st c Hmiss Hre Hdns Hcorpus Hext).
  rewrite (fetch_opened _ _ _ _ _ f Hopen), Hct.
  unfold bind at 1. unfold emit at 1, modify at 1.
  rewrite Hread. reflexivity.
Qed.

(** X12.  When [f.read()] hands back [bytes], as [urllib.request]
    does, line 361 adds [str] and [bytes]: the call raises TypeError and
    nothing is stored or recorded. *)
Theorem bytes_body_raises_type_error (net : Net) (proto url domain : string)
    (g3 : option string) (st : State) (c : Caches) (f : response)
    (body : list Byte.byte) :
  misses_negative_caches url st c ->
  DOMAIN_AND_PORT_RE_match (slurp_url url) = Some (domain, g3) ->
  getaddrinfo net domain (port_of g3) = true ->
  corpus_get (URL_KEY_RE_sub (slurp_url url)) (urlCorpus st) = None ->
  skipped_extension (slurp_url url) = false ->
  urlopen net (proto +:+ "://" +:+ slurp_url url) = UrlOpened f ->
  not_html (content_type f) = false ->
  read f = ReadData (PyBytes body) ->
  slurp net proto url st
  = (Raise TypeError,
     with_events [EvRead; EvUrlopen (proto +:+ "://" +:+ slurp_url url);
                  EvGetaddrinfo domain (port_of g3)] st).
Proof.
  intros Hmiss Hre Hdns Hcorpus Hext Hopen Hct Hread.
  rewrite (slurp_at_request net proto url domain g3 st c Hmiss Hre Hdns Hcorpus Hext).
  rewrite (fetch_opened _ _ _ _ _ f Hopen), Hct.
  unfold bind at 1. unfold emit at 1, modify at 1.
  rewrite Hread. reflexivity.
Qed.

(** X13.  A request that raises is classified by the text of the
    error: [HTTP Error <digits>] puts [url:http_<digits>] in the
    HTTP-status map under the URL and returns it in a list; any other text
    appends the URL to the [url:unknown_error] bucket and returns that
    name in a list (KeyError when the dictionary lacks the key); in each
    case the default timeout is left at five seconds. *)
Theorem failed_request_is_classified (net : Net)
    (proto url domain details : string) (g3 : option string) (st : State)
    (c : Caches) :
  misses_negative_caches url st c ->
  DOMAIN_AND_PORT_RE_match (slurp_url url) = Some (domain, g3) ->
  getaddrinfo net domain (port_of g3) = true ->
  corpus_get (URL_KEY_RE_sub (slurp_url url)) (urlCorpus st) = None ->
  skipped_extension (slurp_url url) = false ->
  urlopen net (proto +:+ "://" +:+ slurp_url url) = UrlError details ->
  let st1 :=
    with_default_timeout (Some 5%float)
      (with_events [EvUrlopen (proto +:+ "://" +:+ slurp_url url);
                    EvGetaddrinfo domain (port_of g3)] st) in
  slurp net proto url st
  = match HTTP_ERROR_RE_match details with
    | Some code =>
        (Return (PyList ["url:http_" +:+ code]),
         with_caches
           (Some (mkCaches (bad_urls c)
                           (<[slurp_url url := "url:http_" +:+ code]>
                              (http_error_urls c))))
           st1)
    | None =>
        match dict_get "url:unknown_error" (bad_urls c) with
        | Some t =>
            (Return (PyList ["url:unknown_error"]),
             with_bucket_entry "url:unknown_error" t (slurp_url url) c st1)
        | None => (Raise (KeyError "url:unknown_error"), st1)
        end
    end.
Proof.
  intros Hmiss Hre Hdns Hcorpus Hext Hopen st1.
  rewrite (slurp_at_request net proto url domain g3 st c Hmiss Hre Hdns Hcorpus Hext).
  rewrite (fetch_failed _ _ _ _ details _ Hopen).
  assert (Hc : caches
                 (with_default_timeout (Some 5%float)
                    (with_events [EvUrlopen (proto +:+ "://" +:+ slurp_url url)]
                       (with_events [EvGetaddrinfo domain (port_of g3)] st)))
               = Some c) by apply Hmiss.
  destruct (HTTP_ERROR_RE_match details) as [code|].
  - unfold http_error_set.
    unfold bind at 1.
    rewrite (run_bind_return _ _ _ _ _ (run_get_caches _ c Hc)).
    reflexivity.
  - rewrite (run_add_then_ret _ c _ _ _ Hc).
    destruct (dict_get "url:unknown_error" (bad_urls c)); reflexivity.
Qed.

End RequestOutcomes.

(** ** What [slurp] leaves alone *)

Section SlurpFrame.

Context {cfg : Config} {ext : Collaborators}.
Context {B : Type} (proj : State -> B).

Hypothesis proj_caches : forall c st, proj (with_caches c st) = proj st.
Hypothesis proj_corpus : forall m st, proj (with_urlCorpus m st) = proj st.
Hypothesis proj_trace : forall t st, proj (with_trace t st) = proj st.
Hypothesis proj_timeout : forall t st, proj (with_default_timeout t st) = proj st.

Lemma keeps_get : keeps proj get.
Proof. intros st. reflexivity. Qed.

Lemma keeps_emit (e : event) : keeps proj (emit e).
Proof. apply keeps_modify. intros st. apply proj_trace. Qed.

Lemma keeps_slurp_tokenize (s : string) : keeps proj (slurp_tokenize s).
Proof. unfold slurp_tokenize. simpl. apply keeps_raise. Qed.

Lemma keeps_slurp_fetch (net : Net) (proto url url_key : string) :
  keeps proj (slurp_fetch net proto url url_key).
Proof.
  unfold slurp_fetch.
  apply keeps_bind; [apply keeps_get|]. intros st0.
  apply keeps_bind; [apply keeps_modify; intros st; apply proj_timeout|]. intros _.
  apply keeps_bind; [apply keeps_emit|]. intros _.
  destruct (urlopen net _) as [details|f].
  - destruct (HTTP_ERROR_RE_match details).
    + apply keeps_set_then_ret. exact proj_caches.
    + apply keeps_add_then_ret. exact proj_caches.
  - apply keeps_bind; [apply keeps_modify; intros st; apply proj_timeout|]. intros _.
    destruct (not_html (content_type f)).
    + apply keeps_add_then_ret. exact proj_caches.
    + apply keeps_bind; [apply keeps_emit|]. intros _.
      destruct (read f); [|apply keeps_ret|apply keeps_raise].
      apply keeps_store. exact proj_corpus.
Qed.

Lemma keeps_slurp (net : Net) (proto url : string) :
  keeps proj (slurp net proto url).
Proof.
  unfold slurp.
  destruct (String.eqb url ""); [apply keeps_ret|].
  apply keeps_bind; [apply keeps_get_caches|]. intros c.
  destruct (check_bad_urls _ _ _); [apply keeps_ret|].
  destruct (http_error_urls c !! _); [apply keeps_ret|].
  destruct (DOMAIN_AND_PORT_RE_match _) as [[domain g3]|]; [|apply keeps_raise].
  apply keeps_bind; [apply keeps_emit|]. intros _.
  destruct (negb _).
  - apply keeps_add_then_ret. exact proj_caches.
  - apply keeps_bind; [apply keeps_get|]. intros st0.
    destruct (corpus_get _ _); [apply keeps_slurp_tokenize|].
    destruct (skipped_extension _).
    + apply keeps_add_then_ret. exact proj_caches.
    + apply keeps_slurp_fetch.
Qed.

End SlurpFrame.

Section SlurpFrameUse.

Context {cfg : Config} {ext : Collaborators}.

(** X14.  Whatever its arguments and however it ends, [slurp] writes
    neither the module global [slurp_wordstream], nor the instance's
    [setup_done] and [do_slurp], nor the two pickle files: what it
    records stays in memory until [_save_caches] runs. *)
Theorem slurp_writes_memory_only (net : Net) (proto url : string) (st : State) :
  let st' := snd (slurp net proto url st) in
  slurp_wordstream st' = slurp_wordstream st
  /\ setup_done st' = setup_done st
  /\ do_slurp st' = do_slurp st
  /\ bad_url_cache_file st' = bad_url_cache_file st
  /\ http_error_cache_file st' = http_error_cache_file st.
Proof.
  pose proof (keeps_slurp
                (fun s => (slurp_wordstream s, setup_done s, do_slurp s,
                           bad_url_cache_file s, http_error_cache_file s))
                (fun _ _ => eq_refl) (fun _ _ => eq_refl)
                (fun _ _ => eq_refl) (fun _ _ => eq_refl)
                net proto url st) as H.
  cbv beta in H. injection H as H1 H2 H3 H4 H5. cbv zeta. auto.
Qed.

End SlurpFrameUse.

(** ** What one call records *)

Section SlurpRecords.

Context {cfg : Config} {ext : Collaborators}.

Lemma run_set_then_ret (st : State) (c : Caches) (url v : string) (x : slurp_value) :
  caches st = Some c ->
  (http_error_set url v ;;; ret x) st
  = (Return x,
     with_caches (Some (mkCaches (bad_urls c) (<[url := v]> (http_error_urls c)))) st).
Proof.
  intros Hc. unfold http_error_set. unfold bind at 1.
  rewrite (run_bind_return _ _ _ _ _ (run_get_caches st c Hc)). reflexivity.
Qed.

Lemma slurp_no_match (net : Net) (proto url : string) (st : State) (c : Caches) :
  misses_negative_caches url st c ->
  DOMAIN_AND_PORT_RE_match (slurp_url url) = None ->
  slurp net proto url st = (Raise AttributeError, st).
Proof.
  intros (Hne & Hc & Hmiss & Hmap) Hre. unfold slurp.
  destruct (String.eqb_spec url ""); [contradiction|].
  rewrite (run_bind_return _ _ _ _ _ (run_get_caches st c Hc)).
  rewrite Hmiss, Hmap, Hre. reflexivity.
Qed.

(** The caches after a call: as before, or with the looked-up URL, which
    no tier held, appended to one bucket or entered in the status map. *)
Lemma slurp_records (net : Net) (proto url : string) (st : State) (c : Caches) :
  caches st = Some c ->
  exists c',
    caches (snd (slurp net proto url st)) = Some c'
    /\ (c' = c \/ one_more_entry (slurp_url url) c c').
Proof.
  intros Hc.
  assert (Hsame : forall r st1, caches st1 = Some c ->
            slurp net proto url st = (r, st1) ->
            exists c', caches (snd (slurp net proto url st)) = Some c'
                       /\ (c' = c \/ one_more_entry (slurp_url url) c c')).
  { intros r st1 H1 Hrun. rewrite Hrun. exists c. split; [exact H1 | left; reflexivity]. }
  destruct (String.eqb_spec url "") as [->|Hne].
  { eapply Hsame; [exact Hc | reflexivity]. }
  destruct (check_bad_urls (dict_keys (bad_urls c)) (bad_urls c) (slurp_url url))
    as [err|] eqn:Hcheck.
  { eapply Hsame; [exact Hc | eapply slurp_bucket_hit; eassumption]. }
  destruct (http_error_urls c !! slurp_url url) as [stored|] eqn:Hmap.
  { eapply Hsame; [exact Hc | eapply slurp_status_hit; eassumption]. }
  assert (Hmiss : misses_negative_caches url st c) by (repeat split; assumption).
  assert (Hadd : forall err v st1, caches st1 = Some c ->
            slurp net proto url st
            = (bucket_add err (slurp_url url) ;;; ret v) st1 ->
            exists c', caches (snd (slurp net proto url st)) = Some c'
                       /\ (c' = c \/ one_more_entry (slurp_url url) c c')).
  { intros err v st1 H1 Hrun. rewrite Hrun, (run_add_then_ret st1 c err _ v H1).
    destruct (dict_get err (bad_urls c)) as [t|] eqn:Ht.
    - eexists. split; [reflexivity|]. right. split; [exact Hcheck|].
      split; [exact Hmap|]. left. exists err, t. auto.
    - exists c. split; [exact H1 | left; reflexivity]. }
  destruct (DOMAIN_AND_PORT_RE_match (slurp_url url)) as [[domain g3]|] eqn:Hre.
  2:{ eapply Hsame; [exact Hc | apply (slurp_no_match net proto url st c Hmiss Hre)]. }
  pose proof (slurp_after_lookup net proto url domain g3 st c Hmiss Hre) as Hrun.
  set (st1 := with_events [EvGetaddrinfo domain (port_of g3)] st) in *.
  assert (Hc1 : caches st1 = Some c) by exact Hc.
  destruct (getaddrinfo net domain (port_of g3)); cbn [negb] in Hrun.
  2:{ eapply Hadd; [exact Hc1 | exact Hrun]. }
  unfold bind at 1 in Hrun. unfold get at 1 in Hrun.
  destruct (corpus_get (URL_KEY_RE_sub (slurp_url url)) (urlCorpus st1)) as [doc|].
  { eapply Hsame; [exact Hc1 | exact Hrun]. }
  destruct (skipped_extension (slurp_url url)).
  { eapply Hadd; [exact Hc1 | exact Hrun]. }
  destruct (urlopen net (proto +:+ "://" +:+ slurp_url url)) as [details|f] eqn:Hopen.
  - rewrite (fetch_failed _ _ _ _ details _ Hopen) in Hrun.
    destruct (HTTP_ERROR_RE_match details) as [code|].
    + rewrite Hrun. erewrite run_set_then_ret by exact Hc1.
      eexists. split; [reflexivity|]. right. split; [exact Hcheck|].
      split; [exact Hmap|]. right. eexists. reflexivity.
    + eapply Hadd; [|exact Hrun]. exact Hc1.
  - rewrite (fetch_opened _ _ _ _ _ f Hopen) in Hrun.
    destruct (not_html (content_type f)).
    + eapply Hadd; [|exact Hrun]. exact Hc1.
    + unfold bind at 1 in Hrun. unfold emit at 1, modify at 1 in Hrun.
      destruct (read f) as [page| |e].
      * rewrite Hrun. exists c. split; [|left; reflexivity].
        rewrite (keeps_store caches (fun _ _ => eq_refl)). exact Hc1.
      * eapply Hsame; [|exact Hrun]. exact Hc1.
      * eapply Hsame; [|exact Hrun]. exact Hc1.
Qed.

End SlurpRecords.

Section SlurpInvariants.

Context {cfg : Config} {ext : Collaborators}.

Lemma dict_get_set (k k' : string) (v t : list string) (d : bucket_dict) :
  dict_get k d = Some t ->
  dict_get k' (dict_set k v d) = if String.eqb k k' then Some v else dict_get k' d.
Proof.
  intros Ht. destruct (String.eqb_spec k k') as [<-|Hne].
  - eapply dict_get_set_eq. exact Ht.
  - apply dict_get_set_ne. exact Hne.
Qed.

(** X15.  A call changes what the negative caches say about the URL it
    looked up and about no other: the bucket names stay, and for every
    other URL the membership in each bucket and the entry of the
    HTTP-status map are as before. *)
Theorem slurp_changes_one_url (net : Net) (proto url : string) (st : State)
    (c : Caches) :
  caches st = Some c ->
  exists c',
    caches (snd (slurp net proto url st)) = Some c'
    /\ dict_keys (bad_urls c') = dict_keys (bad_urls c)
    /\ forall other, other <> slurp_url url ->
         (forall err,
             PyStr.in_tuple other (default [] (dict_get err (bad_urls c')))
             = PyStr.in_tuple other (default [] (dict_get err (bad_urls c))))
         /\ http_error_urls c' !! other = http_error_urls c !! other.
Proof.
  intros Hc.
  destruct (slurp_records net proto url st c Hc)
    as (c' & Hc' & [->|(_ & _ & [(err & t & Ht & ->)|(v & ->)])]);
    eexists; (split; [exact Hc'|]); simpl.
  - split; [reflexivity|]. auto.
  - split; [apply dict_keys_set|]. intros other Hother. split; [|reflexivity].
    intros err'. rewrite (dict_get_set err err' _ t _ Ht).
    destruct (String.eqb_spec err err') as [<-|Hne]; [|reflexivity].
    rewrite Ht. simpl. rewrite in_tuple_app.
    destruct (String.eqb_spec other (slurp_url url)); [contradiction|].
    apply orb_false_r.
  - split; [reflexivity|]. intros other Hother. split; [reflexivity|].
    apply lookup_insert_ne. congruence.
Qed.

Lemma count_in_app (u : string) (t1 t2 : list string) :
  count_in u (t1 ++ t2) = count_in u t1 + count_in u t2.
Proof. induction t1 as [|x t1 IH]; simpl; [reflexivity | rewrite IH; lia]. Qed.

Lemma count_in_absent (u : string) (t : list string) :
  PyStr.in_tuple u t = false -> count_in u t = 0.
Proof.
  unfold PyStr.in_tuple. induction t as [|x t IH]; simpl; [reflexivity|].
  destruct (String.eqb u x); [discriminate|]. exact IH.
Qed.

Lemma slurp_keeps_recorded_once (net : Net) (proto url : string) (st : State)
    (c : Caches) :
  caches st = Some c ->
  standard_buckets (bad_urls c) ->
  (forall u, times_recorded u c <= 1) ->
  exists c',
    caches (snd (slurp net proto url st)) = Some c'
    /\ standard_buckets (bad_urls c')
    /\ (forall u, times_recorded u c' <= 1).
Proof.
  intros Hc Hstd Hinv.
  destruct (slurp_records net proto url st c Hc) as (c' & Hc' & Hstep).
  exists c'. split; [exact Hc'|].
  destruct Hstep as [->|(Hcheck & Hmap & Hstep)]; [auto|].
  destruct (standard_buckets_get _ Hstd) as (t1 & t2 & t3 & Hd).
  rewrite Hd in Hcheck. simpl in Hcheck.
  destruct (PyStr.in_tuple (slurp_url url) t1) eqn:H1; [discriminate|].
  destruct (PyStr.in_tuple (slurp_url url) t2) eqn:H2; [discriminate|].
  destruct (PyStr.in_tuple (slurp_url url) t3) eqn:H3; [discriminate|].
  apply count_in_absent in H1, H2, H3.
  assert (Hcount : forall u t,
            count_in u (t ++ [slurp_url url])
            = count_in u t + (if String.eqb u (slurp_url url) then 1 else 0)).
  { intros u t. rewrite count_in_app. simpl. lia. }
  assert (Hold : forall u, u <> slurp_url url ->
            count_in u t1 + (count_in u t2 + (count_in u t3 + 0))
            + match http_error_urls c !! u with Some _ => 1 | None => 0 end <= 1).
  { intros u _. specialize (Hinv u). unfold times_recorded in Hinv.
    rewrite Hd in Hinv. exact Hinv. }
  destruct Hstep as [(err & t & Ht & ->)|(v & ->)].
  - rewrite Hd in Ht |- *. simpl in Ht.
    unfold standard_buckets, times_recorded. simpl bad_urls. simpl http_error_urls.
    destruct (String.eqb err "url:non_resolving");
      [|destruct (String.eqb err "url:non_html");
        [|destruct (String.eqb err "url:unknown_error"); [|discriminate]]];
      injection Ht as <-; (split; [reflexivity|]); intros u; simpl;
      rewrite Hcount;
      (destruct (String.eqb_spec u (slurp_url url)) as [->|Hu];
       [rewrite ?H1, ?H2, ?H3, Hmap; simpl; lia
       |specialize (Hold u Hu); lia]).
  - unfold times_recorded. simpl bad_urls. simpl http_error_urls.
    split; [exact Hstd|]. intros u. rewrite Hd. simpl.
    destruct (String.eqb_spec u (slurp_url url)) as [->|Hu].
    + rewrite H1, H2, H3, lookup_insert_eq. simpl. lia.
    + rewrite lookup_insert_ne by congruence. apply Hold. exact Hu.
Qed.

(** X16.  No URL is ever recorded twice: starting from caches with
    the three standard buckets in which every URL occurs at most once over
    the buckets and the HTTP-status map together, any series of [slurp]
    calls leaves caches of the same kind. *)
Theorem no_url_is_recorded_twice (calls : list (Net * string * string))
    (st : State) (c : Caches) :
  caches st = Some c ->
  standard_buckets (bad_urls c) ->
  (forall u, times_recorded u c <= 1) ->
  exists c',
    caches (slurp_calls calls st) = Some c'
    /\ standard_buckets (bad_urls c')
    /\ (forall u, times_recorded u c' <= 1).
Proof.
  revert st c. induction calls as [|[[net proto] url] calls IH]; intros st c Hc Hstd Hinv.
  - exists c. auto.
  - simpl.
    destruct (slurp_keeps_recorded_once net proto url st c Hc Hstd Hinv)
      as (c1 & Hc1 & Hstd1 & Hinv1).
    exact (IH _ c1 Hc1 Hstd1 Hinv1).
Qed.

(** X26.  With [X_ONLY_SLURP_BASE] set, the verdict on one URL is the
    verdict on every URL of the same base: once the lookup for one of them
    has failed, any other non-empty URL with the same [_base_url] is
    answered [["url:non_resolving"]] from the bucket, with no network
    access. *)
Theorem same_base_shares_verdict (net net' : Net)
    (proto proto' url url' domain : string) (g3 : option string)
    (st : State) (c : Caches) :
  X_ONLY_SLURP_BASE = true ->
  misses_negative_caches url st c ->
  standard_buckets (bad_urls c) ->
  DOMAIN_AND_PORT_RE_match (slurp_url url) = Some (domain, g3) ->
  getaddrinfo net domain (port_of g3) = false ->
  url' <> EmptyString ->
  _base_url url' = _base_url url ->
  let st1 := snd (slurp net proto url st) in
  slurp net' proto' url' st1 = (Return (PyList ["url:non_resolving"]), st1).
Proof.
  intros Hflag Hmiss Hstd Hre Hdns Hne' Hbase st1.
  destruct Hmiss as (Hne & Hc & Hcheck & Hmap).
  destruct (slurp_records_non_resolving net proto url domain g3 st c
              Hne Hc Hstd Hcheck Hmap Hre Hdns)
    as (st' & c' & Hrun & Hc' & Hstd' & Hin).
  subst st1. rewrite Hrun. cbn [snd].
  apply slurp_bucket_hit with (c := c'); [exact Hne' | exact Hc' |].
  apply standard_first_bucket; [exact Hstd'|].
  unfold slurp_url in *. rewrite Hflag in *. rewrite Hbase. exact Hin.
Qed.

End SlurpInvariants.

Section SlurpCorpus.

Context {cfg : Config} {ext : Collaborators}.

Lemma slurp_before_setup (net : Net) (proto url : string) (st : State) :
  url <> EmptyString ->
  caches st = None ->
  slurp net proto url st = (Raise AttributeError, st).
Proof.
  intros Hne Hc. unfold slurp.
  destruct (String.eqb_spec url ""); [contradiction|].
  rewrite (run_bind_raise _ _ _ _ _ (run_get_caches_none st Hc)). reflexivity.
Qed.

(** The corpus after a call: as before, or with one document entered
    under the key of the looked-up URL, which had none. *)
Lemma slurp_corpus_effect (net : Net) (proto url : string) (st : State) :
  let key := URL_KEY_RE_sub (slurp_url url) in
  let st' := snd (slurp net proto url st) in
  urlCorpus st' = urlCorpus st
  \/ (urlCorpus st !! key = None
      /\ exists document, urlCorpus st' = <[key := document]> (urlCorpus st)).
Proof.
  intros key st'. subst st'.
  destruct (String.eqb_spec url "") as [->|Hne]; [left; reflexivity|].
  destruct (caches st) as [c|] eqn:Hc.
  2:{ rewrite (slurp_before_setup net proto url st Hne Hc). left; reflexivity. }
  destruct (check_bad_urls (dict_keys (bad_urls c)) (bad_urls c) (slurp_url url))
    as [err|] eqn:Hcheck.
  { erewrite slurp_bucket_hit by eassumption. left; reflexivity. }
  destruct (http_error_urls c !! slurp_url url) as [stored|] eqn:Hmap.
  { erewrite slurp_status_hit by eassumption. left; reflexivity. }
  assert (Hmiss : misses_negative_caches url st c) by (repeat split; assumption).
  destruct (DOMAIN_AND_PORT_RE_match (slurp_url url)) as [[domain g3]|] eqn:Hre.
  2:{ rewrite (slurp_no_match net proto url st c Hmiss Hre). left; reflexivity. }
  pose proof (slurp_after_lookup net proto url domain g3 st c Hmiss Hre) as Hrun.
  set (st1 := with_events [EvGetaddrinfo domain (port_of g3)] st) in *.
  assert (Hadd : forall err (v : slurp_value) st2, urlCorpus st2 = urlCorpus st ->
            slurp net proto url st
            = (bucket_add err (slurp_url url) ;;; ret v) st2 ->
            urlCorpus (snd (slurp net proto url st)) = urlCorpus st).
  { intros err v st2 H2 H. rewrite H.
    rewrite (keeps_add_then_ret urlCorpus _ _ _ (fun _ _ => eq_refl)). exact H2. }
  destruct (getaddrinfo net domain (port_of g3)); cbn [negb] in Hrun.
  2:{ left. eapply Hadd; [|exact Hrun]. reflexivity. }
  unfold bind at 1 in Hrun. unfold get at 1 in Hrun.
  change (urlCorpus st1) with (urlCorpus st) in Hrun.
  destruct (corpus_get (URL_KEY_RE_sub (slurp_url url)) (urlCorpus st)) as [doc|] eqn:Hget.
  { left. rewrite Hrun. reflexivity. }
  destruct (skipped_extension (slurp_url url)).
  { left. eapply Hadd; [|exact Hrun]. reflexivity. }
  destruct (urlopen net (proto +:+ "://" +:+ slurp_url url)) as [details|f] eqn:Hopen.
  - left. rewrite (fetch_failed _ _ _ _ details _ Hopen) in Hrun.
    destruct (HTTP_ERROR_RE_match details) as [code|].
    + rewrite Hrun.
      rewrite (keeps_set_then_ret urlCorpus _ _ _ (fun _ _ => eq_refl)). reflexivity.
    + eapply Hadd; [|exact Hrun]. reflexivity.
  - rewrite (fetch_opened _ _ _ _ _ f Hopen) in Hrun.
    destruct (not_html (content_type f)).
    + left. eapply Hadd; [|exact Hrun]. reflexivity.
    + unfold bind at 1 in Hrun. unfold emit at 1, modify at 1 in Hrun.
      destruct (read f) as [[page|body]| |e]; rewrite Hrun;
        [|left; reflexivity|left; reflexivity|left; reflexivity].
      right. split; [exact Hget|]. eexists. reflexivity.
Qed.

(** X17.  The corpus only grows: a document that is in it stays in
    it, unchanged, through any series of [slurp] calls. *)
Theorem corpus_documents_are_kept (calls : list (Net * string * string))
    (st : State) (key document : string) :
  urlCorpus st !! key = Some document ->
  urlCorpus (slurp_calls calls st) !! key = Some document.
Proof.
  revert st. induction calls as [|[[net proto] url] calls IH]; intros st Hdoc;
    [exact Hdoc|].
  simpl. apply IH.
  destruct (slurp_corpus_effect net proto url st) as [->|(Hnone & doc & ->)];
    [exact Hdoc|].
  rewrite lookup_insert_ne; [exact Hdoc|]. congruence.
Qed.

End SlurpCorpus.

(** ** [_generate_slurp], [setup] and [_save_caches] (lines 174-261) *)

Section Generate.

Context {cfg : Config} {ext : Collaborators}.

(** On an instance that is set up, [_generate_slurp] is lines 180-188. *)
Lemma generate_when_set_up (net : Net) (st : State) :
  setup_done st = true ->
  _generate_slurp net st
  = (if guard_open st then
       match slurp_wordstream st with
       | Some (proto, url) =>
           (modify (with_do_slurp (Some false)) ;;;
            tokens <- slurp net proto url ;;
            modify (with_do_slurp (Some true)) ;;;
            _save_caches ;;;
            ret tokens)
       | None => ret (PyList [])
       end
     else ret (PyList []))%py st.
Proof.
  intros Hs. unfold _generate_slurp.
  unfold bind at 1. unfold get at 1. rewrite Hs. cbn [negb].
  unfold bind at 1. unfold ret at 1.
  unfold bind at 1. unfold get at 1. reflexivity.
Qed.

(** X18.  When the [slurp] call made by [_generate_slurp] raises, the
    exception leaves [_generate_slurp] with [do_slurp] still [False] and
    nothing saved to the pickle files; from then on every call of
    [_generate_slurp] on the instance returns the empty list at once,
    without any retrieval. *)
Theorem exception_closes_the_guard (net : Net) (proto url : string) (e : exn)
    (st st1 : State) :
  setup_done st = true ->
  guard_open st = true ->
  slurp_wordstream st = Some (proto, url) ->
  slurp net proto url (with_do_slurp (Some false) st) = (Raise e, st1) ->
  _generate_slurp net st = (Raise e, st1)
  /\ do_slurp st1 = Some false
  /\ bad_url_cache_file st1 = bad_url_cache_file st
  /\ http_error_cache_file st1 = http_error_cache_file st
  /\ forall net', _generate_slurp net' st1 = (Return (PyList []), st1).
Proof.
  intros Hs Hg Hp Hrun.
  pose proof (keeps_slurp
                (fun s => (setup_done s, do_slurp s,
                           bad_url_cache_file s, http_error_cache_file s))
                (fun _ _ => eq_refl) (fun _ _ => eq_refl)
                (fun _ _ => eq_refl) (fun _ _ => eq_refl)
                net proto url (with_do_slurp (Some false) st)) as H.
  rewrite Hrun in H. cbv beta in H. simpl in H.
  injection H as Hs1 Hd1 Hb1 Hh1.
  split.
  { rewrite (generate_when_set_up net st Hs), Hg, Hp.
    unfold bind at 1. unfold modify at 1.
    unfold bind at 1. rewrite Hrun. reflexivity. }
  split; [exact Hd1|]. split; [exact Hb1|]. split; [exact Hh1|].
  intros net'. rewrite generate_when_set_up by (rewrite Hs1; exact Hs).
  unfold guard_open. rewrite Hd1. reflexivity.
Qed.

(** X19.  When the [slurp] call made by [_generate_slurp] returns,
    [_generate_slurp] returns the same value, [do_slurp] is [True]
    again, and the two pickle files hold the negative caches as that
    call left them. *)
Theorem completed_retrieval_is_saved (net : Net) (proto url : string)
    (v : slurp_value) (st st1 : State) (c : Caches) :
  setup_done st = true ->
  guard_open st = true ->
  slurp_wordstream st = Some (proto, url) ->
  caches st = Some c ->
  slurp net proto url (with_do_slurp (Some false) st) = (Return v, st1) ->
  exists c1,
    caches st1 = Some c1
    /\ _generate_slurp net st
       = (Return v,
          with_cache_files (Pickled (bad_urls c1)) (Pickled (http_error_urls c1))
            (with_do_slurp (Some true) st1)).
Proof.
  intros Hs Hg Hp Hc Hrun.
  destruct (grows_slurp net proto url (with_do_slurp (Some false) st) c Hc)
    as (c1 & Hc1 & _).
  rewrite Hrun in Hc1. simpl in Hc1.
  exists c1. split; [exact Hc1|].
  rewrite (generate_when_set_up net st Hs), Hg, Hp.
  unfold bind at 1. unfold modify at 1.
  unfold bind at 1. rewrite Hrun.
  unfold bind at 1. unfold modify at 1.
  unfold bind at 1. unfold _save_caches.
  erewrite run_bind_return by (apply run_get_caches; exact Hc1).
  reflexivity.
Qed.

(** X20.  What [_save_caches] writes, [setup] reads back: a new
    instance started on the cache directory begins with exactly the
    negative caches that were saved. *)
Theorem saved_caches_are_reloaded (st : State) (c : Caches) :
  caches st = Some c ->
  fst (_save_caches st) = Return tt
  /\ caches (snd (setup (new_instance (snd (_save_caches st))))) = Some c.
Proof.
  intros Hc. unfold _save_caches.
  rewrite (run_bind_return _ _ _ _ _ (run_get_caches st c Hc)).
  split; [reflexivity|]. destruct c as [bad http]. reflexivity.
Qed.

(** On a first call [_generate_slurp] runs [setup], which cannot fail,
    and goes on with lines 180-188. *)
Lemma generate_first_call (net : Net) (st : State) :
  setup_done st = false ->
  fst (setup st) = Return tt
  /\ _generate_slurp net st
     = (if guard_open (snd (setup st)) then
          match slurp_wordstream st with
          | Some (proto, url) =>
              (modify (with_do_slurp (Some false)) ;;;
               tokens <- slurp net proto url ;;
               modify (with_do_slurp (Some true)) ;;;
               _save_caches ;;;
               ret tokens)
          | None => ret (PyList [])
          end
        else ret (PyList []))%py (with_setup_done true (snd (setup st))).
Proof.
  intros Hs. split; [reflexivity|]. unfold _generate_slurp.
  unfold bind at 1. unfold get at 1. rewrite Hs. cbn [negb].
  unfold bind at 1. unfold bind at 1.
  change (setup st) with (Return tt, snd (setup st)).
  cbv iota. unfold modify at 1.
  unfold bind at 1. unfold get at 1. reflexivity.
Qed.

(** X21.  With no pending reference, [_generate_slurp] returns the
    empty list without any network access; on an instance that is set up
    it changes nothing at all. *)
Theorem nothing_pending_nothing_retrieved (net : Net) (st : State) :
  slurp_wordstream st = None ->
  fst (_generate_slurp net st) = Return (PyList [])
  /\ trace (snd (_generate_slurp net st)) = trace st
  /\ (setup_done st = true -> snd (_generate_slurp net st) = st).
Proof.
  intros Hp.
  destruct (setup_done st) eqn:Hs.
  - rewrite (generate_when_set_up net st Hs), Hp.
    destruct (guard_open st); auto.
  - destruct (generate_first_call net st Hs) as [_ ->]. rewrite Hp.
    destruct (guard_open (snd (setup st)));
      (split; [reflexivity|]); (split; [reflexivity | discriminate]).
Qed.

End Generate.

(** ** [spamprob] (lines 127-150), further *)

Section ControllerFurther.

Context {cfg : Config} {ext : Collaborators}.

(** X22.  The [evidence] flag changes the shape of the result only:
    with and without it [spamprob] leaves the same state and either
    raises the same exception or returns the same probability, with the
    clues when the flag is set. *)
Theorem evidence_flag_only_shapes_result (net : Net) (wordstream : list string)
    (st : State) :
  snd (spamprob net wordstream true st) = snd (spamprob net wordstream false st)
  /\ match fst (spamprob net wordstream true st),
           fst (spamprob net wordstream false st) with
     | Return (ProbClues p _), Return (Prob q) => p = q
     | Raise e, Raise e' => e = e'
     | _, _ => False
     end.
Proof.
  unfold spamprob.
  destruct (Classifier_spamprob wordstream) as [prob clues].
  unfold bind, get.
  destruct (augment_condition prob clues st); [|split; reflexivity].
  destruct (_generate_slurp net st) as [[generated|e] st1]; [|split; reflexivity].
  destruct (Classifier_spamprob (py_list generated ++ map fst clues)) as [sprob sclues].
  destruct (decisive sprob); split; reflexivity.
Qed.


(** C1.  Where augmentation is triggered and the retrieval fetches the
    page of the pending link, with a [text/html] type and a body,
    [spamprob] reports neither the re-scored nor the base probability: it
    raises, the UnboundLocalError of line 376 when the body is a [str]
    and the TypeError of line 361 when it is [bytes]. *)
Theorem augmentation_with_a_page_raises (net : Net) (wordstream : list string)
    (evidence : bool) (proto url domain : string) (g3 : option string)
    (st : State) (c : Caches) (f : response) (page : pydata) :
  augment_condition (base_prob wordstream) (base_clues wordstream) st = true ->
  setup_done st = true ->
  guard_open st = true ->
  slurp_wordstream st = Some (proto, url) ->
  misses_negative_caches url st c ->
  DOMAIN_AND_PORT_RE_match (slurp_url url) = Some (domain, g3) ->
  getaddrinfo net domain (port_of g3) = true ->
  corpus_get (URL_KEY_RE_sub (slurp_url url)) (urlCorpus st) = None ->
  skipped_extension (slurp_url url) = false ->
  urlopen net (proto +:+ "://" +:+ slurp_url url) = UrlOpened f ->
  not_html (content_type f) = false ->
  read f = ReadData page ->
  fst (spamprob net wordstream evidence st)
  = Raise (match page with
           | PyText _ => UnboundLocalError "BASIC_HEADER_TOKENIZE"
           | PyBytes _ => TypeError
           end)
  /\ (forall result, fst (spamprob net wordstream evidence st) <> Return result).
Proof.
  intros Hcond Hs Hg Hp Hmiss Hre Hdns Hcorpus Hext Hopen Hct Hread.
  assert (Hgen : exists st1,
             _generate_slurp net st
             = (Raise (match page with
                       | PyText _ => UnboundLocalError "BASIC_HEADER_TOKENIZE"
                       | PyBytes _ => TypeError
                       end), st1)).
  { rewrite (generate_when_set_up net st Hs), Hg, Hp.
    unfold bind at 1. unfold modify at 1.
    unfold bind at 1.
    rewrite (slurp_at_request net proto url domain g3
               (with_do_slurp (Some false) st) c Hmiss Hre Hdns Hcorpus Hext).
    rewrite (fetch_opened _ _ _ _ _ f Hopen), Hct.
    unfold bind at 1. unfold emit at 1, modify at 1.
    rewrite Hread. destruct page as [text|body]; eexists; reflexivity. }
  destruct Hgen as [st1 Hgen].
  rewrite (spamprob_augmentation_raises net wordstream evidence st _ _ Hcond Hgen).
  split; [reflexivity|]. intros result. discriminate.
Qed.

End ControllerFurther.

(** ** [_add_slurped] (lines 408-416) *)

Section AddSlurped.

Context {cfg : Config} {ext : Collaborators}.

Lemma add_slurped_returned (net : Net) (wordstream : list string)
    (v : slurp_value) (st st1 : State) :
  _generate_slurp net st = (Return v, st1) ->
  _add_slurped net wordstream st = ((wordstream ++ py_list v, Return tt), st1).
Proof. intros H. unfold _add_slurped. rewrite H. reflexivity. Qed.

(** The run of [_generate_slurp] on an instance that is set up, when the
    [slurp] call returns. *)
Lemma generate_returned (net : Net) (proto url : string) (v : slurp_value)
    (st st1 : State) (c1 : Caches) :
  setup_done st = true ->
  guard_open st = true ->
  slurp_wordstream st = Some (proto, url) ->
  slurp net proto url (with_do_slurp (Some false) st) = (Return v, st1) ->
  caches st1 = Some c1 ->
  _generate_slurp net st
  = (Return v,
     with_cache_files (Pickled (bad_urls c1)) (Pickled (http_error_urls c1))
       (with_do_slurp (Some true) st1)).
Proof.
  intros Hs Hg Hp Hrun Hc1.
  rewrite (generate_when_set_up net st Hs), Hg, Hp.
  unfold bind at 1. unfold modify at 1.
  unfold bind at 1. rewrite Hrun.
  unfold bind at 1. unfold modify at 1.
  unfold bind at 1. unfold _save_caches.
  erewrite run_bind_return by (apply run_get_caches; exact Hc1).
  reflexivity.
Qed.

(** X24.  For a message whose link does not resolve, learning and
    unlearning see the same tokens: the first run of [_add_slurped]
    yields the wordstream followed by [url:non_resolving] and records
    the URL, and a second run on the state so reached yields the same
    tokens again, whatever the network then answers and without
    accessing it. *)
Theorem unresolved_link_is_trained_alike (net net' : Net)
    (wordstream : list string) (proto url domain : string) (g3 : option string)
    (st : State) (c : Caches) :
  setup_done st = true ->
  guard_open st = true ->
  slurp_wordstream st = Some (proto, url) ->
  misses_negative_caches url st c ->
  standard_buckets (bad_urls c) ->
  DOMAIN_AND_PORT_RE_match (slurp_url url) = Some (domain, g3) ->
  getaddrinfo net domain (port_of g3) = false ->
  let first := _add_slurped net wordstream st in
  let second := _add_slurped net' wordstream (snd first) in
  fst first = (wordstream ++ ["url:non_resolving"], Return tt)
  /\ fst second = (wordstream ++ ["url:non_resolving"], Return tt)
  /\ trace (snd second) = trace (snd first).
Proof.
  intros Hs Hg Hp Hmiss Hstd Hre Hdns first second.
  destruct (standard_buckets_get _ Hstd) as (t1 & t2 & t3 & Hd).
  pose proof (failed_lookup_run net proto url domain g3
                (with_do_slurp (Some false) st) c Hmiss Hre Hdns) as Hrun.
  erewrite run_add_then_ret in Hrun by apply Hmiss.
  rewrite Hd in Hrun. simpl dict_get in Hrun.
  pose proof (generate_returned net proto url _ st _ _ Hs Hg Hp Hrun eq_refl) as Hgen.
  pose proof (add_slurped_returned net wordstream _ _ _ Hgen) as Hfirst.
  fold first in Hfirst.
  set (st2 := snd first) in *.
  assert (Hst2 : st2 = snd first) by reflexivity.
  rewrite Hfirst in Hst2. simpl snd in Hst2.
  assert (Hs2 : setup_done st2 = true) by (rewrite Hst2; exact Hs).
  assert (Hg2 : guard_open st2 = true) by (rewrite Hst2; reflexivity).
  assert (Hp2 : slurp_wordstream st2 = Some (proto, url)) by (rewrite Hst2; exact Hp).
  assert (Hne : url <> EmptyString) by apply Hmiss.
  assert (Hrun2 : slurp net' proto url (with_do_slurp (Some false) st2)
                  = (Return (PyList ["url:non_resolving"]),
                     with_do_slurp (Some false) st2)).
  { eapply slurp_bucket_hit; [exact Hne | rewrite Hst2; reflexivity |].
    rewrite Hd. cbn [dict_keys map fst bad_urls check_bad_urls dict_set
                     String.eqb Ascii.eqb Bool.eqb dict_get default from_option id].
    rewrite in_tuple_app, String.eqb_refl, orb_true_r. reflexivity. }
  assert (Hc2 : caches (with_do_slurp (Some false) st2)
                = Some (mkCaches
                          (dict_set "url:non_resolving" (t1 ++ [slurp_url url])
                             (bad_urls c))
                          (http_error_urls c)))
    by (rewrite Hst2; reflexivity).
  pose proof (generate_returned net' proto url _ st2 _ _ Hs2 Hg2 Hp2 Hrun2 Hc2)
    as Hgen2.
  pose proof (add_slurped_returned net' wordstream _ _ _ Hgen2) as Hsecond.
  fold second in Hsecond.
  rewrite Hfirst, Hsecond. split; [reflexivity|]. split; [reflexivity|].
  simpl. rewrite Hst2. reflexivity.
Qed.

(** X25.  For a message whose link answers with an HTTP error,
    learning and unlearning see different tokens: the first run of
    [_add_slurped] yields the wordstream followed by the one token
    [url:http_<code>], and a second run on the state so reached yields the
    wordstream followed by the characters of that token, one by one. *)
Theorem http_status_is_trained_differently (net net' : Net)
    (wordstream : list string) (proto url domain details code : string)
    (g3 : option string) (st : State) (c : Caches) :
  setup_done st = true ->
  guard_open st = true ->
  slurp_wordstream st = Some (proto, url) ->
  misses_negative_caches url st c ->
  DOMAIN_AND_PORT_RE_match (slurp_url url) = Some (domain, g3) ->
  getaddrinfo net domain (port_of g3) = true ->
  corpus_get (URL_KEY_RE_sub (slurp_url url)) (urlCorpus st) = None ->
  skipped_extension (slurp_url url) = false ->
  urlopen net (proto +:+ "://" +:+ slurp_url url) = UrlError details ->
  HTTP_ERROR_RE_match details = Some code ->
  let first := _add_slurped net wordstream st in
  let second := _add_slurped net' wordstream (snd first) in
  fst first = (wordstream ++ ["url:http_" +:+ code], Return tt)
  /\ fst second = (wordstream ++ PyStr.chars ("url:http_" +:+ code), Return tt)
  /\ trace (snd second) = trace (snd first).
Proof.
  intros Hs Hg Hp Hmiss Hre Hdns Hcorpus Hext Hopen Hcode first second.
  pose proof (slurp_at_request net proto url domain g3
                (with_do_slurp (Some false) st) c Hmiss Hre Hdns Hcorpus Hext)
    as Hrun.
  rewrite (fetch_failed _ _ _ _ details _ Hopen), Hcode in Hrun.
  erewrite run_set_then_ret in Hrun by apply Hmiss.
  pose proof (generate_returned net proto url _ st _ _ Hs Hg Hp Hrun eq_refl) as Hgen.
  pose proof (add_slurped_returned net wordstream _ _ _ Hgen) as Hfirst.
  fold first in Hfirst.
  set (st2 := snd first) in *.
  assert (Hst2 : st2 = snd first) by reflexivity.
  rewrite Hfirst in Hst2. simpl snd in Hst2.
  assert (Hs2 : setup_done st2 = true) by (rewrite Hst2; exact Hs).
  assert (Hg2 : guard_open st2 = true) by (rewrite Hst2; reflexivity).
  assert (Hp2 : slurp_wordstream st2 = Some (proto, url)) by (rewrite Hst2; exact Hp).
  destruct Hmiss as (Hne & Hc & Hcheck & Hmap).
  assert (Hc2 : caches (with_do_slurp (Some false) st2)
                = Some (mkCaches (bad_urls c)
                          (<[slurp_url url := "url:http_" +:+ code]>
                             (http_error_urls c))))
    by (rewrite Hst2; reflexivity).
  assert (Hrun2 : slurp net' proto url (with_do_slurp (Some false) st2)
                  = (Return (PyStr ("url:http_" +:+ code)),
                     with_do_slurp (Some false) st2)).
  { eapply slurp_status_hit; [exact Hne | exact Hc2 | exact Hcheck |].
    apply lookup_insert_eq. }
  pose proof (generate_returned net' proto url _ st2 _ _ Hs2 Hg2 Hp2 Hrun2 Hc2)
    as Hgen2.
  pose proof (add_slurped_returned net' wordstream _ _ _ Hgen2) as Hsecond.
  fold second in Hsecond.
  rewrite Hfirst, Hsecond. split; [reflexivity|]. split; [reflexivity|].
  simpl. rewrite Hst2. reflexivity.
Qed.

End AddSlurped.

(** ** The further theorems at concrete inputs *)

Section FurtherWitnesses.

#[local] Existing Instance demo_config.
#[local] Existing Instance demo_collaborators.

Lemma ready_state_misses (url : string) :
  url <> EmptyString ->
  misses_negative_caches url ready_state (mkCaches fresh_bad_urls ∅).
Proof.
  intros Hne. unfold misses_negative_caches.
  split; [exact Hne|]. split; [reflexivity|]. split; [reflexivity|].
  apply lookup_empty.
Defined.

Lemma pending_ready_state_misses :
  misses_negative_caches "example.com/a" pending_ready_state
                         (mkCaches fresh_bad_urls ∅).
Proof.
  unfold misses_negative_caches.
  split; [discriminate|]. split; [reflexivity|]. split; reflexivity.
Defined.

Lemma stocked_state_misses :
  misses_negative_caches "example.com/a" stocked_state (mkCaches fresh_bad_urls ∅).
Proof.
  unfold misses_negative_caches.
  split; [discriminate|]. split; [reflexivity|]. split; reflexivity.
Defined.

Lemma failed_lookup_is_recorded_witness :
  misses_negative_caches "example.com/a" ready_state (mkCaches fresh_bad_urls ∅)
  /\ DOMAIN_AND_PORT_RE_match (slurp_url "example.com/a") = Some ("example.com", None)
  /\ getaddrinfo dead_net "example.com" (port_of None) = false
  /\ slurp dead_net "http" "example.com/a" ready_state
     = (Return (PyList ["url:non_resolving"]),
        with_bucket_entry "url:non_resolving" [] "example.com/a"
          (mkCaches fresh_bad_urls ∅)
          (with_events [EvGetaddrinfo "example.com" (PortInt 80)] ready_state)).
Proof.
  assert (H1 : misses_negative_caches "example.com/a" ready_state
                 (mkCaches fresh_bad_urls ∅))
    by (apply ready_state_misses; discriminate).
  split; [exact H1|]. split; [reflexivity|]. split; [reflexivity|].
  exact (failed_lookup_is_recorded dead_net "http" "example.com/a" "example.com"
           None ready_state (mkCaches fresh_bad_urls ∅) H1 eq_refl eq_refl).
Defined.

Lemma skipped_extension_is_not_fetched_witness :
  misses_negative_caches "example.com/a.jpg" ready_state (mkCaches fresh_bad_urls ∅)
  /\ skipped_extension (slurp_url "example.com/a.jpg") = true
  /\ slurp (serving_net png_response) "http" "example.com/a.jpg" ready_state
     = (Return (PyList ["url:non_html"]),
        with_bucket_entry "url:non_html" [] "example.com/a.jpg"
          (mkCaches fresh_bad_urls ∅)
          (with_events [EvGetaddrinfo "example.com" (PortInt 80)] ready_state)).
Proof.
  assert (H1 : misses_negative_caches "example.com/a.jpg" ready_state
                 (mkCaches fresh_bad_urls ∅))
    by (apply ready_state_misses; discriminate).
  split; [exact H1|]. split; [reflexivity|].
  exact (skipped_extension_is_not_fetched (serving_net png_response) "http"
           "example.com/a.jpg" "example.com" None ready_state
           (mkCaches fresh_bad_urls ∅) H1 eq_refl eq_refl eq_refl eq_refl).
Defined.

Lemma cached_document_raises_witness :
  misses_negative_caches "example.com/a" stocked_state (mkCaches fresh_bad_urls ∅)
  /\ corpus_get (URL_KEY_RE_sub (slurp_url "example.com/a")) (urlCorpus stocked_state)
     = Some ("Content-Type: text/html" +:+ CRLF +:+ "<html></html>")
  /\ slurp (serving_net html_response) "http" "example.com/a" stocked_state
     = (Raise (UnboundLocalError "BASIC_HEADER_TOKENIZE"),
        with_events [EvGetaddrinfo "example.com" (PortInt 80)] stocked_state).
Proof.
  split; [exact stocked_state_misses|]. split; [reflexivity|].
  exact (cached_document_raises (serving_net html_response) "http" "example.com/a"
           "example.com" _ None stocked_state (mkCaches fresh_bad_urls ∅)
           stocked_state_misses eq_refl eq_refl eq_refl).
Defined.

Lemma malformed_url_raises_witness :
  misses_negative_caches "/x" ready_state (mkCaches fresh_bad_urls ∅)
  /\ slurp_url "/x" = String "/" "x"
  /\ domain_char "/" = false
  /\ slurp dead_net "http" "/x" ready_state = (Raise AttributeError, ready_state).
Proof.
  assert (H1 : misses_negative_caches "/x" ready_state (mkCaches fresh_bad_urls ∅))
    by (apply ready_state_misses; discriminate).
  split; [exact H1|]. split; [reflexivity|]. split; [reflexivity|].
  exact (malformed_url_raises dead_net "http" "/x" "x" "/" ready_state
           (mkCaches fresh_bad_urls ∅) H1 eq_refl eq_refl).
Defined.

Lemma fetched_page_is_stored_then_raises_witness :
  misses_negative_caches "example.com/a" ready_state (mkCaches fresh_bad_urls ∅)
  /\ read html_response = ReadData (PyText "<html></html>")
  /\ fst (slurp (serving_net html_response) "http" "example.com/a" ready_state)
     = Raise (UnboundLocalError "BASIC_HEADER_TOKENIZE")
  /\ urlCorpus (snd (slurp (serving_net html_response) "http" "example.com/a"
                           ready_state)) !! "example_com_a"
     = Some ("Content-Type: text/html" +:+ CRLF +:+ "<html></html>").
Proof.
  assert (H1 : misses_negative_caches "example.com/a" ready_state
                 (mkCaches fresh_bad_urls ∅))
    by (apply ready_state_misses; discriminate).
  split; [exact H1|]. split; [reflexivity|].
  rewrite (fetched_page_is_stored_then_raises (serving_net html_response) "http"
             "example.com/a" "example.com" "<html></html>" None ready_state
             (mkCaches fresh_bad_urls ∅) html_response
             H1 eq_refl eq_refl eq_refl eq_refl eq_refl eq_refl eq_refl).
  split; [reflexivity|]. vm_compute. reflexivity.
Defined.

Lemma bytes_body_raises_type_error_witness :
  misses_negative_caches "example.com/a" ready_state (mkCaches fresh_bad_urls ∅)
  /\ read bytes_response = ReadData (PyBytes [Byte.x3c; Byte.x70; Byte.x3e])
  /\ slurp (serving_net bytes_response) "http" "example.com/a" ready_state
     = (Raise TypeError,
        with_events [EvRead; EvUrlopen "http://example.com/a";
                     EvGetaddrinfo "example.com" (PortInt 80)] ready_state).
Proof.
  assert (H1 : misses_negative_caches "example.com/a" ready_state
                 (mkCaches fresh_bad_urls ∅))
    by (apply ready_state_misses; discriminate).
  split; [exact H1|]. split; [reflexivity|].
  exact (bytes_body_raises_type_error (serving_net bytes_response) "http"
           "example.com/a" "example.com" None ready_state
           (mkCaches fresh_bad_urls ∅) bytes_response _
           H1 eq_refl eq_refl eq_refl eq_refl eq_refl eq_refl eq_refl).
Defined.

Lemma failed_request_is_classified_witness :
  misses_negative_caches "example.com/a" ready_state (mkCaches fresh_bad_urls ∅)
  /\ urlopen (failing_net "HTTP Error 404: Not Found")
             ("http" +:+ "://" +:+ slurp_url "example.com/a")
     = UrlError "HTTP Error 404: Not Found"
  /\ fst (slurp (failing_net "HTTP Error 404: Not Found") "http" "example.com/a"
                ready_state)
     = Return (PyList ["url:http_404"]).
Proof.
  assert (H1 : misses_negative_caches "example.com/a" ready_state
                 (mkCaches fresh_bad_urls ∅))
    by (apply ready_state_misses; discriminate).
  split; [exact H1|]. split; [reflexivity|].
  rewrite (failed_request_is_classified (failing_net "HTTP Error 404: Not Found")
             "http" "example.com/a" "example.com" "HTTP Error 404: Not Found" None
             ready_state (mkCaches fresh_bad_urls ∅)
             H1 eq_refl eq_refl eq_refl eq_refl eq_refl).
  reflexivity.
Defined.

Lemma slurp_changes_one_url_witness :
  caches recorded_state = Some recorded_caches
  /\ exists c',
       caches (snd (slurp dead_net "http" "other.org" recorded_state)) = Some c'
       /\ dict_keys (bad_urls c') = dict_keys (bad_urls recorded_caches)
       /\ forall other, other <> slurp_url "other.org" ->
            (forall err,
                PyStr.in_tuple other (default [] (dict_get err (bad_urls c')))
                = PyStr.in_tuple other
                    (default [] (dict_get err (bad_urls recorded_caches))))
            /\ http_error_urls c' !! other = http_error_urls recorded_caches !! other.
Proof.
  split; [reflexivity|].
  exact (slurp_changes_one_url dead_net "http" "other.org" recorded_state
           recorded_caches eq_refl).
Defined.

Lemma no_url_is_recorded_twice_witness :
  caches ready_state = Some (mkCaches fresh_bad_urls ∅)
  /\ standard_buckets fresh_bad_urls
  /\ (forall u, times_recorded u (mkCaches fresh_bad_urls ∅) <= 1)
  /\ exists c',
       caches (slurp_calls [(dead_net, "http", "example.com");
                            (dead_net, "http", "example.com");
                            (failing_net "HTTP Error 404: Not Found", "http",
                             "example.com")]
                           ready_state) = Some c'
       /\ standard_buckets (bad_urls c')
       /\ (forall u, times_recorded u c' <= 1).
Proof.
  assert (H3 : forall u, times_recorded u (mkCaches fresh_bad_urls ∅) <= 1).
  { intros u. unfold times_recorded. simpl. rewrite lookup_empty. repeat constructor. }
  split; [reflexivity|]. split; [reflexivity|]. split; [exact H3|].
  exact (no_url_is_recorded_twice _ ready_state (mkCaches fresh_bad_urls ∅)
           eq_refl eq_refl H3).
Defined.

Lemma corpus_documents_are_kept_witness :
  urlCorpus stocked_state !! "example_com_a"
  = Some ("Content-Type: text/html" +:+ CRLF +:+ "<html></html>")
  /\ urlCorpus (slurp_calls [(serving_net html_response, "http", "example.com/b");
                             (serving_net html_response, "http", "example.com/a")]
                            stocked_state) !! "example_com_a"
     = Some ("Content-Type: text/html" +:+ CRLF +:+ "<html></html>").
Proof.
  assert (H1 : urlCorpus stocked_state !! "example_com_a"
               = Some ("Content-Type: text/html" +:+ CRLF +:+ "<html></html>"))
    by (vm_compute; reflexivity).
  split; [exact H1|].
  exact (corpus_documents_are_kept _ stocked_state _ _ H1).
Defined.

Lemma exception_closes_the_guard_witness :
  setup_done pending_ready_state = true
  /\ guard_open pending_ready_state = true
  /\ slurp_wordstream pending_ready_state = Some ("http", "example.com/a")
  /\ fst (slurp (serving_net html_response) "http" "example.com/a"
                (with_do_slurp (Some false) pending_ready_state))
     = Raise (UnboundLocalError "BASIC_HEADER_TOKENIZE")
  /\ forall net',
       _generate_slurp net'
         (snd (slurp (serving_net html_response) "http" "example.com/a"
                     (with_do_slurp (Some false) pending_ready_state)))
       = (Return (PyList []),
          snd (slurp (serving_net html_response) "http" "example.com/a"
                     (with_do_slurp (Some false) pending_ready_state))).
Proof.
  assert (H4 : slurp (serving_net html_response) "http" "example.com/a"
                     (with_do_slurp (Some false) pending_ready_state)
               = (Raise (UnboundLocalError "BASIC_HEADER_TOKENIZE"),
                  snd (slurp (serving_net html_response) "http" "example.com/a"
                             (with_do_slurp (Some false) pending_ready_state))))
    by (vm_compute; reflexivity).
  split; [reflexivity|]. split; [reflexivity|]. split; [reflexivity|].
  split; [rewrite H4; reflexivity|].
  exact (proj2 (proj2 (proj2 (proj2
           (exception_closes_the_guard (serving_net html_response) "http"
              "example.com/a" _ pending_ready_state _ eq_refl eq_refl eq_refl H4))))).
Defined.

Lemma completed_retrieval_is_saved_witness :
  slurp dead_net "http" "example.com/a" (with_do_slurp (Some false) pending_ready_state)
  = (Return (PyList ["url:non_resolving"]),
     snd (slurp dead_net "http" "example.com/a"
                (with_do_slurp (Some false) pending_ready_state)))
  /\ exists c1,
       caches (snd (slurp dead_net "http" "example.com/a"
                          (with_do_slurp (Some false) pending_ready_state)))
       = Some c1
       /\ _generate_slurp dead_net pending_ready_state
          = (Return (PyList ["url:non_resolving"]),
             with_cache_files (Pickled (bad_urls c1)) (Pickled (http_error_urls c1))
               (with_do_slurp (Some true)
                  (snd (slurp dead_net "http" "example.com/a"
                              (with_do_slurp (Some false) pending_ready_state))))).
Proof.
  assert (H5 : slurp dead_net "http" "example.com/a"
                     (with_do_slurp (Some false) pending_ready_state)
               = (Return (PyList ["url:non_resolving"]),
                  snd (slurp dead_net "http" "example.com/a"
                             (with_do_slurp (Some false) pending_ready_state))))
    by (vm_compute; reflexivity).
  split; [exact H5|].
  exact (completed_retrieval_is_saved dead_net "http" "example.com/a" _
           pending_ready_state _ (mkCaches fresh_bad_urls ∅)
           eq_refl eq_refl eq_refl eq_refl H5).
Defined.

Lemma saved_caches_are_reloaded_witness :
  caches recorded_state = Some recorded_caches
  /\ caches (snd (setup (new_instance (snd (_save_caches recorded_state)))))
     = Some recorded_caches.
Proof.
  split; [reflexivity|].
  exact (proj2 (saved_caches_are_reloaded recorded_state recorded_caches eq_refl)).
Defined.

Lemma nothing_pending_nothing_retrieved_witness :
  slurp_wordstream ready_state = None
  /\ fst (_generate_slurp (serving_net html_response) ready_state)
     = Return (PyList []).
Proof.
  split; [reflexivity|].
  exact (proj1 (nothing_pending_nothing_retrieved (serving_net html_response)
                  ready_state eq_refl)).
Defined.


(** The example of the specification, a base probability of 0.6 on
    three clues with cutoffs 0.2 and 0.9 and a page that is fetched:
    with a [str] body and with a [bytes] body no probability comes
    back. *)
Lemma augmentation_with_a_page_raises_witness :
  base_prob ["x"] = 0x1.3333333333333p-1%float
  /\ length (base_clues ["x"]) = 3
  /\ augment_condition (base_prob ["x"]) (base_clues ["x"]) pending_ready_state = true
  /\ misses_negative_caches "example.com/a" pending_ready_state
                            (mkCaches fresh_bad_urls ∅)
  /\ fst (spamprob (serving_net html_response) ["x"] true pending_ready_state)
     = Raise (UnboundLocalError "BASIC_HEADER_TOKENIZE")
  /\ fst (spamprob (serving_net bytes_response) ["x"] true pending_ready_state)
     = Raise TypeError.
Proof.
  assert (H1 : augment_condition (base_prob ["x"]) (base_clues ["x"])
                 pending_ready_state = true) by (vm_compute; reflexivity).
  split; [reflexivity|]. split; [reflexivity|].
  split; [exact H1|]. split; [exact pending_ready_state_misses|].
  split.
  - exact (proj1 (augmentation_with_a_page_raises (serving_net html_response) ["x"]
                    true "http" "example.com/a" "example.com" None
                    pending_ready_state (mkCaches fresh_bad_urls ∅) html_response
                    (PyText "<html></html>")
                    H1 eq_refl eq_refl eq_refl pending_ready_state_misses
                    eq_refl eq_refl eq_refl eq_refl eq_refl eq_refl eq_refl)).
  - exact (proj1 (augmentation_with_a_page_raises (serving_net bytes_response) ["x"]
                    true "http" "example.com/a" "example.com" None
                    pending_ready_state (mkCaches fresh_bad_urls ∅) bytes_response
                    (PyBytes [Byte.x3c; Byte.x70; Byte.x3e])
                    H1 eq_refl eq_refl eq_refl pending_ready_state_misses
                    eq_refl eq_refl eq_refl eq_refl eq_refl eq_refl eq_refl)).
Defined.

Lemma unresolved_link_is_trained_alike_witness :
  misses_negative_caches "example.com/a" pending_ready_state
                         (mkCaches fresh_bad_urls ∅)
  /\ getaddrinfo dead_net "example.com" (port_of None) = false
  /\ fst (_add_slurped dead_net ["x"] pending_ready_state)
     = (["x"] ++ ["url:non_resolving"], Return tt)
  /\ fst (_add_slurped (serving_net html_response) ["x"]
            (snd (_add_slurped dead_net ["x"] pending_ready_state)))
     = (["x"] ++ ["url:non_resolving"], Return tt).
Proof.
  split; [exact pending_ready_state_misses|]. split; [reflexivity|].
  pose proof (unresolved_link_is_trained_alike dead_net (serving_net html_response)
                ["x"] "http" "example.com/a" "example.com" None pending_ready_state
                (mkCaches fresh_bad_urls ∅)
                eq_refl eq_refl eq_refl pending_ready_state_misses eq_refl
                eq_refl eq_refl) as H.
  cbv zeta in H. split; [exact (proj1 H) | exact (proj1 (proj2 H))].
Defined.

Lemma http_status_is_trained_differently_witness :
  misses_negative_caches "example.com/a" pending_ready_state
                         (mkCaches fresh_bad_urls ∅)
  /\ HTTP_ERROR_RE_match "HTTP Error 404: Not Found" = Some "404"
  /\ fst (_add_slurped (failing_net "HTTP Error 404: Not Found") ["x"]
                       pending_ready_state)
     = (["x"] ++ ["url:http_" +:+ "404"], Return tt)
  /\ fst (_add_slurped dead_net ["x"]
            (snd (_add_slurped (failing_net "HTTP Error 404: Not Found") ["x"]
                               pending_ready_state)))
     = (["x"] ++ PyStr.chars ("url:http_" +:+ "404"), Return tt).
Proof.
  split; [exact pending_ready_state_misses|]. split; [reflexivity|].
  pose proof (http_status_is_trained_differently
                (failing_net "HTTP Error 404: Not Found") dead_net
                ["x"] "http" "example.com/a" "example.com"
                "HTTP Error 404: Not Found" "404" None pending_ready_state
                (mkCaches fresh_bad_urls ∅)
                eq_refl eq_refl eq_refl pending_ready_state_misses
                eq_refl eq_refl eq_refl eq_refl eq_refl eq_refl) as H.
  cbv zeta in H. split; [exact (proj1 H) | exact (proj1 (proj2 H))].
Defined.

End FurtherWitnesses.

Lemma same_base_shares_verdict_witness :
  X_ONLY_SLURP_BASE (Config := base_only_config) = true
  /\ _base_url "www.example.com/promo?id=7" = _base_url "mail.example.com/a"
  /\ slurp (cfg := base_only_config) (ext := demo_collaborators)
           (serving_net html_response) "http" "www.example.com/promo?id=7"
           (snd (slurp (cfg := base_only_config) (ext := demo_collaborators)
                       dead_net "http" "mail.example.com/a" ready_state))
     = (Return (PyList ["url:non_resolving"]),
        snd (slurp (cfg := base_only_config) (ext := demo_collaborators)
                   dead_net "http" "mail.example.com/a" ready_state)).
Proof.
  split; [reflexivity|]. split; [reflexivity|].
  refine (same_base_shares_verdict (cfg := base_only_config)
            (ext := demo_collaborators) dead_net (serving_net html_response)
            "http" "http" "mail.example.com/a" "www.example.com/promo?id=7"
            "example.com" None ready_state (mkCaches fresh_bad_urls ∅)
            eq_refl _ eq_refl eq_refl eq_refl _ eq_refl).
  - unfold misses_negative_caches.
    split; [discriminate|]. split; [reflexivity|]. split; reflexivity.
  - discriminate.
Defined.
